(** * BrainDriveSettings plugin lifecycle manager

    A shallow embedding of [lifecycle_manager.py]: the relational store with
    its transaction, the filesystem, the manager objects and the lifecycle
    verbs (install, delete, status, update, validation, health), followed by
    the properties of the adapter. *)

From Stdlib Require Import String Ascii List Bool ZArith Lia DecimalString.
Import ListNotations.
Open Scope string_scope.
Set Warnings "-register-all".

(** ** Python values *)

(** The values the adapter handles: result dictionaries, decoded JSON
    documents, rows' parameters.  A [dict] is an association list in
    insertion order. *)
Inductive pyval : Type :=
| PNone
| PBool (b : bool)
| PInt (z : Z)
| PStr (s : string)
| PList (l : list pyval)
| PDict (d : list (string * pyval)).

Definition dict := list (string * pyval).

(** Python truthiness ([if x:], [not x]). *)
Definition truthy (v : pyval) : bool :=
  match v with
  | PNone => false
  | PBool b => b
  | PInt z => negb (Z.eqb z 0)
  | PStr s => negb (String.eqb s "")
  | PList l => match l with [] => false | _ => true end
  | PDict d => match d with [] => false | _ => true end
  end.

Fixpoint dict_get (d : dict) (k : string) : option pyval :=
  match d with
  | [] => None
  | (k', v) :: d' => if String.eqb k k' then Some v else dict_get d' k
  end.

(** [d[k] = v]: replaces in place, appends a new key. *)
Fixpoint dict_set (d : dict) (k : string) (v : pyval) : dict :=
  match d with
  | [] => [(k, v)]
  | (k', v') :: d' =>
      if String.eqb k k' then (k, v) :: d' else (k', v') :: dict_set d' k v
  end.

(** [d.update(e)]. *)
Definition dict_update (d e : dict) : dict :=
  fold_left (fun acc kv => dict_set acc (fst kv) (snd kv)) e d.

(** [d.get(k, default)]. *)
Definition dict_get_default (d : dict) (k : string) (dflt : pyval) : pyval :=
  match dict_get d k with Some v => v | None => dflt end.

Definition PStrs (l : list string) : pyval := PList (map PStr l).

(** ** Strings and paths *)

Fixpoint join (sep : string) (l : list string) : string :=
  match l with
  | [] => ""
  | [x] => x
  | x :: rest => x ++ sep ++ join sep rest
  end.

Fixpoint is_prefix (p s : string) : bool :=
  match p, s with
  | EmptyString, _ => true
  | String a p', String b s' => Ascii.eqb a b && is_prefix p' s'
  | String _ _, EmptyString => false
  end.

(** [needle in hay] on strings. *)
Fixpoint contains (needle hay : string) : bool :=
  is_prefix needle hay ||
  match hay with
  | EmptyString => false
  | String _ hay' => contains needle hay'
  end.

Fixpoint rev_string (s acc : string) : string :=
  match s with
  | EmptyString => acc
  | String a s' => rev_string s' (String a acc)
  end.

(** [s.endswith(suffix)]. *)
Definition endswith (s suffix : string) : bool :=
  is_prefix (rev_string suffix "") (rev_string s "").

(** Splitting at ['/'], without empty components, as [pathlib] does when a
    relative name is joined to a directory. *)
Fixpoint split_slash_aux (s cur : string) : list string :=
  match s with
  | EmptyString =>
      if String.eqb cur "" then [] else [rev_string cur ""]
  | String a s' =>
      if Ascii.eqb a "/"%char
      then ((if String.eqb cur "" then [] else [rev_string cur ""])
            ++ split_slash_aux s' "")%list
      else split_slash_aux s' (String a cur)
  end.

Definition Path := list string.

(** [d / rel]. *)
Definition path_join (d : Path) (rel : string) : Path :=
  (d ++ split_slash_aux rel "")%list.

Definition path_eqb (p q : Path) : bool :=
  if list_eq_dec string_dec p q then true else false.

(** [str(p)] of a relative path. *)
Definition path_str (p : Path) : string := join "/" p.

(** ** Exceptions *)

Inductive exn_kind :=
| JSONDecodeError | FileNotFoundError | OSError | KeyError | TypeError
| DatabaseError.

Definition exn_kind_eqb (a b : exn_kind) : bool :=
  match a, b with
  | JSONDecodeError, JSONDecodeError | FileNotFoundError, FileNotFoundError
  | OSError, OSError | KeyError, KeyError | TypeError, TypeError
  | DatabaseError, DatabaseError => true
  | _, _ => false
  end.

(** An exception: its class and [str(e)]. *)
Record exn := Exn { kind : exn_kind; str_e : string }.

Inductive res (A : Type) : Type :=
| Ok (a : A)
| Raise (e : exn).
Arguments Ok {A} a.
Arguments Raise {A} e.

Definition rbind {A B} (c : res A) (k : A -> res B) : res B :=
  match c with
  | Ok a => k a
  | Raise e => Raise e
  end.

(** [try: c except (kinds): h]; an empty list of kinds is
    [except Exception]. *)
Definition rcatch {A} (c : res A) (kinds : list exn_kind)
  (h : exn -> res A) : res A :=
  match c with
  | Ok a => Ok a
  | Raise e =>
      match kinds with
      | [] => h e
      | _ => if existsb (exn_kind_eqb (kind e)) kinds then h e else Raise e
      end
  end.

Declare Scope res_scope.
Delimit Scope res_scope with res.
Notation "x <- c ;; k" := (rbind c (fun x => k))
  (at level 61, c at next level, right associativity) : res_scope.

(** ** The [json] module

    [json.loads] and [json.dumps] belong to Python's standard library; the
    adapter is stated over their interface.  [json_loads] is [None] where
    Python raises [JSONDecodeError], whose message is [json_error]. *)
Class JsonCodec := {
  json_loads : string -> option pyval;
  json_error : string -> string;
  json_dumps : pyval -> string
}.

(** ** The filesystem *)

Inductive node :=
| File (content : string)
| Dir (st_size : Z).

Definition FS := list (Path * node).

Fixpoint fs_lookup (fs : FS) (p : Path) : option node :=
  match fs with
  | [] => None
  | (q, n) :: fs' => if path_eqb p q then Some n else fs_lookup fs' p
  end.

(** [p.exists()]. *)
Definition fs_exists (fs : FS) (p : Path) : bool :=
  match fs_lookup fs p with Some _ => true | None => false end.

(** [p.is_file()], [p.is_dir()]. *)
Definition is_file (fs : FS) (p : Path) : bool :=
  match fs_lookup fs p with Some (File _) => true | _ => false end.
Definition is_dir (fs : FS) (p : Path) : bool :=
  match fs_lookup fs p with Some (Dir _) => true | _ => false end.

(** [p.stat().st_size]. *)
Definition stat_size (fs : FS) (p : Path) : res Z :=
  match fs_lookup fs p with
  | Some (File c) => Ok (Z.of_nat (String.length c))
  | Some (Dir sz) => Ok sz
  | None =>
      Raise (Exn FileNotFoundError ("No such file or directory: " ++ path_str p))
  end.

(** [open(p, 'r').read()]. *)
Definition read_text (fs : FS) (p : Path) : res string :=
  match fs_lookup fs p with
  | Some (File c) => Ok c
  | Some (Dir _) => Raise (Exn OSError ("Is a directory: " ++ path_str p))
  | None =>
      Raise (Exn FileNotFoundError ("No such file or directory: " ++ path_str p))
  end.

(** The entries directly under [d]. *)
Definition children (fs : FS) (d : Path) : list Path :=
  filter (fun q => path_eqb (removelast q) d
                   && negb (Nat.eqb (List.length q) 0))
         (map fst fs).

(** [d.iterdir()]. *)
Definition iterdir (fs : FS) (d : Path) : res (list Path) :=
  match fs_lookup fs d with
  | Some (Dir _) => Ok (children fs d)
  | Some (File _) => Raise (Exn OSError ("Not a directory: " ++ path_str d))
  | None =>
      Raise (Exn FileNotFoundError ("No such file or directory: " ++ path_str d))
  end.

(** [x in v] for a string [x]: key of a dict, element of a list, substring of
    a string, [TypeError] otherwise. *)
Definition py_in (x : string) (v : pyval) : res bool :=
  match v with
  | PDict d => Ok (match dict_get d x with Some _ => true | None => false end)
  | PList l =>
      Ok (existsb (fun e => match e with PStr s => String.eqb s x
                                      | _ => false end) l)
  | PStr s => Ok (contains x s)
  | _ => Raise (Exn TypeError "argument is not iterable")
  end.

Section Files.
Context {J : JsonCodec}.
Open Scope res_scope.

(** [json.load(open(p))]. *)
Definition json_load (fs : FS) (p : Path) : res pyval :=
  c <- read_text fs p ;;
  match json_loads c with
  | Some v => Ok v
  | None => Raise (Exn JSONDecodeError (json_error c))
  end.

(** The first of [fields] that is not in [package_data]. *)
Fixpoint first_missing_field (fields : list string) (package_data : pyval)
  : res (option string) :=
  match fields with
  | [] => Ok None
  | f :: rest =>
      b <- py_in f package_data ;;
      if b then first_missing_field rest package_data else Ok (Some f)
  end.

Definition invalid (msg : string) : dict :=
  [("valid", PBool false); ("error", PStr msg)].

(** [_validate_installation_impl]. *)
Definition _validate_installation_impl (fs : FS) (user_id : string)
  (plugin_dir : Path) : dict :=
  let body : res dict :=
    let required_files := ["package.json"; "dist/remoteEntry.js"] in
    let missing_files :=
      filter (fun file_path => negb (fs_exists fs (path_join plugin_dir file_path)))
             required_files in
    if truthy (PStrs missing_files) then
      Ok (invalid ("BrainDriveSettings: Missing required files: "
                   ++ join ", " missing_files))
    else
      let package_json_path := path_join plugin_dir "package.json" in
      r <- rcatch
             (package_data <- json_load fs package_json_path ;;
              m <- first_missing_field ["name"; "version"] package_data ;;
              match m with
              | Some field =>
                  Ok (Some (invalid
                    ("BrainDriveSettings: package.json missing required field: "
                     ++ field)))
              | None => Ok None
              end)
             [JSONDecodeError; FileNotFoundError]
             (fun e => Ok (Some (invalid
                ("BrainDriveSettings: Invalid or missing package.json: "
                 ++ str_e e)))) ;;
      match r with
      | Some early => Ok early
      | None =>
          let bundle_path :=
            path_join (path_join plugin_dir "dist") "remoteEntry.js" in
          sz <- stat_size fs bundle_path ;;
          if Z.eqb sz 0 then
            Ok (invalid "BrainDriveSettings: Bundle file (remoteEntry.js) is empty")
          else Ok [("valid", PBool true)]
      end in
  match body with
  | Ok d => d
  | Raise e => invalid (str_e e)
  end.

(** The inspection of [_get_plugin_health_impl], before its [except]. *)
Definition health_inspect (fs : FS) (plugin_dir : Path) : res dict :=
  let health_info :=
    [("bundle_exists", PBool false); ("bundle_size", PInt 0);
     ("package_json_valid", PBool false); ("assets_present", PBool false)] in
  let bundle_path := path_join (path_join plugin_dir "dist") "remoteEntry.js" in
  health_info <-
    (if fs_exists fs bundle_path then
       sz <- stat_size fs bundle_path ;;
       Ok (dict_set (dict_set health_info "bundle_exists" (PBool true))
                    "bundle_size" (PInt sz))
     else Ok health_info) ;;
  let package_json_path := path_join plugin_dir "package.json" in
  health_info <-
    (if fs_exists fs package_json_path then
       rcatch (_ <- json_load fs package_json_path ;;
               Ok (dict_set health_info "package_json_valid" (PBool true)))
              [JSONDecodeError]
              (fun _ => Ok health_info)
     else Ok health_info) ;;
  let assets_dir := path_join plugin_dir "src" in
  if fs_exists fs assets_dir then
    l <- iterdir fs assets_dir ;;
    if truthy (PStrs (map path_str l))
    then Ok (dict_set health_info "assets_present" (PBool true))
    else Ok health_info
  else Ok health_info.

(** [_get_plugin_health_impl]. *)
Definition _get_plugin_health_impl (fs : FS) (user_id : string)
  (plugin_dir : Path) : dict :=
  match health_inspect fs plugin_dir with
  | Ok health_info => [("healthy", PBool true); ("details", PDict health_info)]
  | Raise e => [("healthy", PBool false); ("error", PStr (str_e e))]
  end.

End Files.

(** ** The relational store *)

(** A row of [plugin], with the columns of the adapter's INSERT. *)
Record PluginRow := {
  p_id : string; p_name : string; p_description : string; p_version : string;
  p_type : string; p_enabled : bool; p_icon : string; p_category : string;
  p_status : string; p_official : bool; p_author : string;
  p_last_updated : string; p_compatibility : string; p_downloads : Z;
  p_scope : string; p_bundle_method : string; p_bundle_location : string;
  p_is_local : bool; p_long_description : string;
  p_config_fields : option string; p_messages : option string;
  p_dependencies : option string;
  p_created_at : string; p_updated_at : string;
  p_user_id : string; p_plugin_slug : string;
  p_source_type : string; p_source_url : string; p_update_check_url : string;
  p_last_update_check : option string; p_update_available : bool;
  p_latest_version : option string; p_installation_type : string;
  p_permissions : string
}.

(** A row of [module]. *)
Record ModuleRow := {
  m_id : string; m_plugin_id : string; m_name : string;
  m_display_name : string; m_description : string; m_icon : string;
  m_category : string; m_enabled : bool; m_priority : Z;
  m_props : option string; m_config_fields : option string;
  m_messages : option string; m_required_services : option string;
  m_dependencies : option string; m_layout : option string;
  m_tags : option string;
  m_created_at : string; m_updated_at : string; m_user_id : string
}.

(** A row of [settings_definitions]. *)
Record DefRow := {
  d_id : string; d_name : string; d_description : string; d_category : string;
  d_type : string; d_default_value : string; d_allowed_scopes : string;
  d_validation : option string; d_is_multiple : bool; d_tags : string;
  d_created_at : string; d_updated_at : string
}.

(** A row of [settings_instances]. *)
Record InstRow := {
  i_id : string; i_definition_id : string; i_name : string; i_value : string;
  i_scope : string; i_user_id : string; i_page_id : option string;
  i_created_at : string; i_updated_at : string
}.

Record Tables := {
  plugin : list PluginRow;
  module : list ModuleRow;
  settings_definitions : list DefRow;
  settings_instances : list InstRow
}.

(** The [AsyncSession]: what earlier commits made durable, the open
    transaction's view, and the errors the database will answer with: the
    n-th statement or commit raises when the n-th entry is [Some msg]. *)
Record Session := {
  committed : Tables;
  pending : Tables;
  db_faults : list (option string)
}.

(** A lifecycle manager object (the fields of the base class that the
    adapter's code paths read or write). *)
Record Manager := {
  active_users : list string;
  shared_path : Path
}.

Definition obj := nat.

Record World := {
  db : Session;
  fs : FS;
  io_faults : list (option string);
  managers : obj -> Manager;
  clock : string;
  uuid_supply : nat -> string;
  uuid_next : nat;
  module_file : Path
}.

Definition with_db (w : World) (s : Session) : World :=
  {| db := s; fs := fs w; io_faults := io_faults w; managers := managers w;
     clock := clock w; uuid_supply := uuid_supply w; uuid_next := uuid_next w;
     module_file := module_file w |}.

Definition with_pending (w : World) (t : Tables) : World :=
  with_db w {| committed := committed (db w); pending := t;
               db_faults := db_faults (db w) |}.

Definition with_db_faults (w : World) (fl : list (option string)) : World :=
  with_db w {| committed := committed (db w); pending := pending (db w);
               db_faults := fl |}.

Definition with_fs (w : World) (f : FS) (fl : list (option string)) : World :=
  {| db := db w; fs := f; io_faults := fl; managers := managers w;
     clock := clock w; uuid_supply := uuid_supply w; uuid_next := uuid_next w;
     module_file := module_file w |}.

Definition with_manager (w : World) (o : obj) (m : Manager) : World :=
  {| db := db w; fs := fs w; io_faults := io_faults w;
     managers := fun o' => if Nat.eqb o' o then m else managers w o';
     clock := clock w; uuid_supply := uuid_supply w; uuid_next := uuid_next w;
     module_file := module_file w |}.

Definition with_uuid_next (w : World) (n : nat) : World :=
  {| db := db w; fs := fs w; io_faults := io_faults w; managers := managers w;
     clock := clock w; uuid_supply := uuid_supply w; uuid_next := n;
     module_file := module_file w |}.

(** ** The monad of the adapter's code: state and exceptions

    A raised exception keeps the world as it was at the raise. *)
Definition M (A : Type) : Type := World -> res A * World.

Definition ret {A} (a : A) : M A := fun w => (Ok a, w).
Definition raise {A} (e : exn) : M A := fun w => (Raise e, w).

Definition bind {A B} (c : M A) (k : A -> M B) : M B :=
  fun w =>
    match c w with
    | (Ok a, w') => k a w'
    | (Raise e, w') => (Raise e, w')
    end.

(** [try: c except Exception as e: h e]. *)
Definition try_except {A} (c : M A) (h : exn -> M A) : M A :=
  fun w =>
    match c w with
    | (Ok a, w') => (Ok a, w')
    | (Raise e, w') => h e w'
    end.

(** [try: c except K: h] for one exception class. *)
Definition try_except_kind {A} (c : M A) (k : exn_kind) (h : exn -> M A)
  : M A :=
  fun w =>
    match c w with
    | (Ok a, w') => (Ok a, w')
    | (Raise e, w') => if exn_kind_eqb (kind e) k then h e w' else (Raise e, w')
    end.

Definition lift {A} (r : res A) : M A := fun w => (r, w).

Definition get_world : M World := fun w => (Ok w, w).

Declare Scope M_scope.
Delimit Scope M_scope with M.
Notation "x <- c ;; k" := (bind c (fun x => k))
  (at level 61, c at next level, right associativity) : M_scope.
Notation "c ;;; k" := (bind c (fun _ => k))
  (at level 61, right associativity) : M_scope.

(** [d[k]]. *)
Definition getitem (d : dict) (k : string) : M pyval :=
  match dict_get d k with
  | Some v => ret v
  | None => raise (Exn KeyError k)
  end.

(** [for x in l: body x], with an accumulator. *)
Fixpoint for_each {A S} (l : list A) (body : S -> A -> M S) (acc : S) : M S :=
  match l with
  | [] => ret acc
  | x :: rest => bind (body acc x) (fun acc' => for_each rest body acc')
  end.

(** ** Statements

    Each [db.execute] of the source is one statement; a statement first asks
    the fault script whether the database answers with an error. *)
Definition db_tick : M unit :=
  fun w =>
    match db_faults (db w) with
    | [] => (Ok tt, w)
    | None :: fl => (Ok tt, with_db_faults w fl)
    | Some msg :: fl => (Raise (Exn DatabaseError msg), with_db_faults w fl)
    end.

Definition query {A} (f : Tables -> res A) : M A :=
  bind db_tick (fun _ w => (f (pending (db w)), w)).

Definition statement {A} (f : Tables -> res (A * Tables)) : M A :=
  bind db_tick (fun _ w =>
    match f (pending (db w)) with
    | Ok (a, t) => (Ok a, with_pending w t)
    | Raise e => (Raise e, w)
    end).

(** [db.commit()]. *)
Definition commit : M unit :=
  bind db_tick (fun _ w =>
    (Ok tt, with_db w {| committed := pending (db w); pending := pending (db w);
                         db_faults := db_faults (db w) |})).

(** [db.rollback()]. *)
Definition rollback : M unit :=
  fun w =>
    (Ok tt, with_db w {| committed := committed (db w);
                         pending := committed (db w);
                         db_faults := db_faults (db w) |}).

(** [result.scalar_one_or_none()] on the selected first column. *)
Definition scalar_one_or_none (l : list string) : res (option string) :=
  match l with
  | [] => Ok None
  | [x] => Ok (Some x)
  | _ => Raise (Exn DatabaseError
                  "Multiple rows were found when one or none was required")
  end.

(** [result.fetchone()]. *)
Definition fetchone {A} (l : list A) : option A := hd_error l.

(** SQL [LIKE]: ['%'] matches any run of characters, ['_'] any one. *)
Fixpoint sql_like (pat s : string) : bool :=
  match pat with
  | EmptyString => match s with EmptyString => true | _ => false end
  | String c pat' =>
      if Ascii.eqb c "%"%char then
        (fix any (s : string) : bool :=
           sql_like pat' s ||
           match s with
           | EmptyString => false
           | String _ s' => any s'
           end) s
      else
        match s with
        | EmptyString => false
        | String b s' =>
            (Ascii.eqb c "_"%char || Ascii.eqb c b) && sql_like pat' s'
        end
  end.

Definition integrity_error {A} (table : string) : res A :=
  Raise (Exn DatabaseError ("UNIQUE constraint failed: " ++ table ++ ".id")).

(** Modelled from the spec: the table declarations are not part of this
    file; the spec gives each table the primary key [id]
    ([{user_id}_{slug}], [{user_id}_{module_name}], the definition id, the
    generated instance id), so an INSERT of a present [id] raises. *)
Definition insert_definition (r : DefRow) (t : Tables) : res (unit * Tables) :=
  if existsb (fun x => String.eqb (d_id x) (d_id r)) (settings_definitions t)
  then integrity_error "settings_definitions"
  else Ok (tt, {| plugin := plugin t; module := module t;
                  settings_definitions := settings_definitions t ++ [r];
                  settings_instances := settings_instances t |}).

Definition insert_instance (r : InstRow) (t : Tables) : res (unit * Tables) :=
  if existsb (fun x => String.eqb (i_id x) (i_id r)) (settings_instances t)
  then integrity_error "settings_instances"
  else Ok (tt, {| plugin := plugin t; module := module t;
                  settings_definitions := settings_definitions t;
                  settings_instances := settings_instances t ++ [r] |}).

Definition insert_plugin (r : PluginRow) (t : Tables) : res (unit * Tables) :=
  if existsb (fun x => String.eqb (p_id x) (p_id r)) (plugin t)
  then integrity_error "plugin"
  else Ok (tt, {| plugin := plugin t ++ [r]; module := module t;
                  settings_definitions := settings_definitions t;
                  settings_instances := settings_instances t |}).

Definition insert_module (r : ModuleRow) (t : Tables) : res (unit * Tables) :=
  if existsb (fun x => String.eqb (m_id x) (m_id r)) (module t)
  then integrity_error "module"
  else Ok (tt, {| plugin := plugin t; module := module t ++ [r];
                  settings_definitions := settings_definitions t;
                  settings_instances := settings_instances t |}).

(** [SELECT id FROM settings_definitions WHERE id = :id]. *)
Definition select_definition_id (id : string) (t : Tables)
  : res (option string) :=
  scalar_one_or_none
    (map d_id (filter (fun x => String.eqb (d_id x) id)
                      (settings_definitions t))).

(** [SELECT id FROM settings_instances WHERE definition_id = :definition_id
    AND user_id = :user_id AND scope = :scope]. *)
Definition instance_matches (definition_id user_id scope : string)
  (x : InstRow) : bool :=
  String.eqb (i_definition_id x) definition_id
  && String.eqb (i_user_id x) user_id && String.eqb (i_scope x) scope.

Definition select_instance_id (definition_id user_id scope : string)
  (t : Tables) : res (option string) :=
  scalar_one_or_none
    (map i_id (filter (instance_matches definition_id user_id scope)
                      (settings_instances t))).

(** [... FROM plugin WHERE user_id = :user_id AND plugin_slug = :plugin_slug]. *)
Definition plugin_of (user_id plugin_slug : string) (x : PluginRow) : bool :=
  String.eqb (p_user_id x) user_id && String.eqb (p_plugin_slug x) plugin_slug.

Definition select_plugin_id (user_id plugin_slug : string) (t : Tables)
  : res (option string) :=
  Ok (fetchone (map p_id (filter (plugin_of user_id plugin_slug) (plugin t)))).

Definition select_plugin_config (user_id plugin_slug : string) (t : Tables)
  : res (option (option string * option string * option string)) :=
  Ok (fetchone
        (map (fun x => (p_config_fields x, p_messages x, p_dependencies x))
             (filter (plugin_of user_id plugin_slug) (plugin t)))).

(** [... FROM module WHERE user_id = :user_id AND plugin_id LIKE
    :plugin_pattern]. *)
Definition module_like (user_id plugin_pattern : string) (x : ModuleRow)
  : bool :=
  String.eqb (m_user_id x) user_id && sql_like plugin_pattern (m_plugin_id x).

Definition ModuleConfig : Type :=
  string * option string * option string * option string * option string.

Definition select_module_config (user_id plugin_pattern : string) (t : Tables)
  : res (list ModuleConfig) :=
  Ok (map (fun x => (m_name x, m_props x, m_config_fields x, m_messages x,
                     m_layout x))
          (filter (module_like user_id plugin_pattern) (module t))).

(** [DELETE FROM module WHERE user_id = :user_id AND plugin_id = :plugin_id];
    the value is [rowcount]. *)
Definition module_of (user_id plugin_id : string) (x : ModuleRow) : bool :=
  String.eqb (m_user_id x) user_id && String.eqb (m_plugin_id x) plugin_id.

Definition delete_modules (user_id plugin_id : string) (t : Tables)
  : res (Z * Tables) :=
  Ok (Z.of_nat (List.length (filter (module_of user_id plugin_id) (module t))),
      {| plugin := plugin t;
         module := filter (fun x => negb (module_of user_id plugin_id x))
                          (module t);
         settings_definitions := settings_definitions t;
         settings_instances := settings_instances t |}).

(** [DELETE FROM plugin WHERE user_id = :user_id AND id = :plugin_id]. *)
Definition plugin_with_id (user_id plugin_id : string) (x : PluginRow)
  : bool :=
  String.eqb (p_user_id x) user_id && String.eqb (p_id x) plugin_id.

Definition delete_plugin_row (user_id plugin_id : string) (t : Tables)
  : res (unit * Tables) :=
  Ok (tt,
      {| plugin := filter (fun x => negb (plugin_with_id user_id plugin_id x))
                          (plugin t);
         module := module t;
         settings_definitions := settings_definitions t;
         settings_instances := settings_instances t |}).

(** [UPDATE plugin SET config_fields = ..., messages = ..., dependencies = ...
    WHERE user_id = :user_id AND id = :plugin_id]. *)
Definition set_plugin_config (cf ms deps : option string) (x : PluginRow)
  : PluginRow :=
  {| p_id := p_id x; p_name := p_name x; p_description := p_description x;
     p_version := p_version x; p_type := p_type x; p_enabled := p_enabled x;
     p_icon := p_icon x; p_category := p_category x; p_status := p_status x;
     p_official := p_official x; p_author := p_author x;
     p_last_updated := p_last_updated x; p_compatibility := p_compatibility x;
     p_downloads := p_downloads x; p_scope := p_scope x;
     p_bundle_method := p_bundle_method x;
     p_bundle_location := p_bundle_location x; p_is_local := p_is_local x;
     p_long_description := p_long_description x;
     p_config_fields := cf; p_messages := ms; p_dependencies := deps;
     p_created_at := p_created_at x; p_updated_at := p_updated_at x;
     p_user_id := p_user_id x; p_plugin_slug := p_plugin_slug x;
     p_source_type := p_source_type x; p_source_url := p_source_url x;
     p_update_check_url := p_update_check_url x;
     p_last_update_check := p_last_update_check x;
     p_update_available := p_update_available x;
     p_latest_version := p_latest_version x;
     p_installation_type := p_installation_type x;
     p_permissions := p_permissions x |}.

Definition update_plugin_config (user_id plugin_id : string)
  (cf ms deps : string) (t : Tables) : res (unit * Tables) :=
  Ok (tt,
      {| plugin := map (fun x => if plugin_with_id user_id plugin_id x
                                 then set_plugin_config (Some cf) (Some ms)
                                                        (Some deps) x
                                 else x) (plugin t);
         module := module t;
         settings_definitions := settings_definitions t;
         settings_instances := settings_instances t |}).

(** [UPDATE module SET props = ..., config_fields = ..., messages = ...,
    layout = ... WHERE user_id = :user_id AND id = :module_id]. *)
Definition set_module_config (pr cf ms ly : option string) (x : ModuleRow)
  : ModuleRow :=
  {| m_id := m_id x; m_plugin_id := m_plugin_id x; m_name := m_name x;
     m_display_name := m_display_name x; m_description := m_description x;
     m_icon := m_icon x; m_category := m_category x; m_enabled := m_enabled x;
     m_priority := m_priority x;
     m_props := pr; m_config_fields := cf; m_messages := ms;
     m_required_services := m_required_services x;
     m_dependencies := m_dependencies x; m_layout := ly; m_tags := m_tags x;
     m_created_at := m_created_at x; m_updated_at := m_updated_at x;
     m_user_id := m_user_id x |}.

Definition module_with_id (user_id module_id : string) (x : ModuleRow)
  : bool :=
  String.eqb (m_user_id x) user_id && String.eqb (m_id x) module_id.

Definition update_module_config (user_id module_id : string)
  (pr cf ms ly : string) (t : Tables) : res (unit * Tables) :=
  Ok (tt,
      {| plugin := plugin t;
         module := map (fun x => if module_with_id user_id module_id x
                                 then set_module_config (Some pr) (Some cf)
                                                        (Some ms) (Some ly) x
                                 else x) (module t);
         settings_definitions := settings_definitions t;
         settings_instances := settings_instances t |}).

(** ** The adapter's static descriptors *)

Record PluginData := {
  pd_name : string; pd_description : string; pd_version : string;
  pd_type : string; pd_icon : string; pd_category : string;
  pd_official : bool; pd_author : string; pd_compatibility : string;
  pd_scope : string; pd_bundle_method : string; pd_bundle_location : string;
  pd_is_local : bool; pd_long_description : string; pd_plugin_slug : string;
  pd_source_type : string; pd_source_url : string;
  pd_update_check_url : string; pd_last_update_check : option string;
  pd_update_available : bool; pd_latest_version : option string;
  pd_installation_type : string; pd_permissions : list string
}.

Definition plugin_data : PluginData :=
  {| pd_name := "BrainDrive Settings";
     pd_description := "Basic BrainDrive Settings Plugin";
     pd_version := "1.0.3";
     pd_type := "frontend";
     pd_icon := "Dashboard";
     pd_category := "Utilities";
     pd_official := true;
     pd_author := "BrainDrive Team";
     pd_compatibility := "1.0.0";
     pd_scope := "BrainDriveSettings";
     pd_bundle_method := "webpack";
     pd_bundle_location := "dist/remoteEntry.js";
     pd_is_local := false;
     pd_long_description := "Comprehensive settings management for BrainDrive including theme settings, general configuration, and Ollama server management.";
     pd_plugin_slug := "BrainDriveSettings";
     pd_source_type := "remote";
     pd_source_url := "https://github.com/DJJones66/BrainDriveSettings";
     pd_update_check_url := "https://api.github.com/repos/DJJones66/BrainDriveSettings/releases/latest";
     pd_last_update_check := None;
     pd_update_available := false;
     pd_latest_version := None;
     pd_installation_type := "remote";
     pd_permissions :=
       ["storage.read"; "storage.write"; "api.access"; "settings.manage"] |}.

Record ModuleData := {
  md_name : string; md_display_name : string; md_description : string;
  md_icon : string; md_category : string; md_priority : Z;
  md_props : pyval; md_config_fields : pyval; md_messages : pyval;
  md_required_services : pyval; md_dependencies : pyval; md_layout : pyval;
  md_tags : pyval
}.

Definition service (methods : list string) : pyval :=
  PDict [("methods", PStrs methods); ("version", PStr "1.0.0")].

Definition settings_service : pyval :=
  service ["getSetting"; "setSetting"; "registerSettingDefinition";
           "getSettingDefinitions"; "subscribe"; "subscribeToCategory"].

Definition theme_listener_service : pyval :=
  service ["getCurrentTheme"; "addThemeChangeListener";
           "removeThemeChangeListener"].

Definition no_messages : pyval :=
  PDict [("sends", PList []); ("receives", PList [])].

Definition layout_of (minWidth minHeight defaultWidth defaultHeight : Z)
  : pyval :=
  PDict [("minWidth", PInt minWidth); ("minHeight", PInt minHeight);
         ("defaultWidth", PInt defaultWidth);
         ("defaultHeight", PInt defaultHeight)].

Definition module_data : list ModuleData :=
  [ {| md_name := "ComponentTheme";
       md_display_name := "Theme Settings";
       md_description := "Change application theme";
       md_icon := "DarkMode";
       md_category := "Settings";
       md_priority := 1;
       md_props := PDict [];
       md_config_fields := PDict [];
       md_messages := no_messages;
       md_required_services :=
         PDict [("theme",
                 service ["getCurrentTheme"; "setTheme"; "toggleTheme";
                          "addThemeChangeListener";
                          "removeThemeChangeListener"]);
                ("settings", settings_service)];
       md_dependencies := PList [];
       md_layout := layout_of 6 1 12 1;
       md_tags := PStrs ["Settings"; "Theme Settings"] |};
    {| md_name := "ComponentGeneralSettings";
       md_display_name := "General Settings";
       md_description := "Manage general application settings";
       md_icon := "Settings";
       md_category := "Settings";
       md_priority := 1;
       md_props := PDict [];
       md_config_fields := PDict [];
       md_messages := no_messages;
       md_required_services :=
         PDict [("api", service ["get"; "post"]);
                ("theme", theme_listener_service);
                ("settings", settings_service)];
       md_dependencies := PList [];
       md_layout := layout_of 6 1 12 1;
       md_tags := PStrs ["Settings"; "General Settings"] |};
    {| md_name := "ComponentOllamaServer";
       md_display_name := "Ollama Servers";
       md_description := "Manage multiple Ollama server connections";
       md_icon := "Storage";
       md_category := "LLM Servers";
       md_priority := 1;
       md_props := PDict [];
       md_config_fields := PDict [];
       md_messages := no_messages;
       md_required_services :=
         PDict [("api", service ["get"; "post"; "delete"]);
                ("theme", theme_listener_service);
                ("settings", settings_service)];
       md_dependencies := PList [];
       md_layout := layout_of 6 4 8 5;
       md_tags := PStrs ["Settings"; "Ollama Server Settings";
                         "Multiple Servers"] |} ].

(** The double quote, and a quoted JSON string. *)
Definition dq : string := String (ascii_of_nat 34) EmptyString.
Definition q (s : string) : string := dq ++ s ++ dq.

(** The JSON texts of [PLUGIN_SETTINGS_DEFINITIONS]. *)
Definition all_scopes : string :=
  "[" ++ q "system" ++ ", " ++ q "user" ++ ", " ++ q "page" ++ ", "
      ++ q "user_page" ++ "]".

Definition auto_generated_tags : string := "[" ++ q "auto_generated" ++ "]".

Definition theme_default : string :=
  "{" ++ q "theme" ++ ": " ++ q "light" ++ ", " ++ q "useSystemTheme"
      ++ ": false}".

Definition ollama_default : string :=
  "{" ++ q "servers" ++ ": [{" ++ q "id" ++ ": "
      ++ q "server_1742054635336_5puc3mrll" ++ ", "
      ++ q "serverName" ++ ": " ++ q "New Server" ++ ", "
      ++ q "serverAddress" ++ ": " ++ q "http://localhost:11434" ++ ", "
      ++ q "apiKey" ++ ": " ++ q EmptyString ++ ", "
      ++ q "connectionStatus" ++ ": " ++ q "idle" ++ "}]}".

Definition general_help : string :=
  "This is the first page to be displayed after logging in to BrainDrive".

Definition general_default : string :=
  "{" ++ q "settings" ++ ":[{" ++ q "Setting_Name" ++ ":" ++ q "default_page"
      ++ "," ++ q "Setting_Data" ++ ":" ++ q "Dashboard"
      ++ "," ++ q "Setting_Help" ++ ":" ++ q general_help ++ "}]}".

Definition general_instance_value : string :=
  "{" ++ q "settings" ++ ": [{" ++ q "Setting_Name" ++ ": "
      ++ q "default_page" ++ ", " ++ q "Setting_Data" ++ ": " ++ q "Dashboard"
      ++ ", " ++ q "Setting_Help" ++ ": " ++ q general_help ++ "}]}".

Record DefinitionData := {
  dd_id : string; dd_name : string; dd_description : string;
  dd_category : string; dd_type : string; dd_default_value : string;
  dd_allowed_scopes : string; dd_validation : option string;
  dd_is_multiple : bool; dd_tags : string
}.

(** [PLUGIN_SETTINGS_DEFINITIONS]. *)
Definition PLUGIN_SETTINGS_DEFINITIONS : list DefinitionData :=
  [ {| dd_id := "theme_settings";
       dd_name := "Theme Settings";
       dd_description := "Auto-generated definition for Theme Settings";
       dd_category := "auto_generated";
       dd_type := "object";
       dd_default_value := theme_default;
       dd_allowed_scopes := all_scopes;
       dd_validation := None;
       dd_is_multiple := false;
       dd_tags := auto_generated_tags |};
    {| dd_id := "ollama_servers_settings";
       dd_name := "Ollama Servers Settings";
       dd_description :=
         "Auto-generated definition for Ollama Servers Settings";
       dd_category := "auto_generated";
       dd_type := "object";
       dd_default_value := ollama_default;
       dd_allowed_scopes := all_scopes;
       dd_validation := None;
       dd_is_multiple := false;
       dd_tags := auto_generated_tags |};
    {| dd_id := "general_settings";
       dd_name := "General Settings";
       dd_description := "Auto-generated definition for General Settings";
       dd_category := "auto_generated";
       dd_type := "object";
       dd_default_value := general_default;
       dd_allowed_scopes := all_scopes;
       dd_validation := None;
       dd_is_multiple := false;
       dd_tags := auto_generated_tags |} ].

(** The row the INSERT of [_ensure_settings_definitions] writes. *)
Definition definition_row (d : DefinitionData) (now : string) : DefRow :=
  {| d_id := dd_id d; d_name := dd_name d;
     d_description := dd_description d; d_category := dd_category d;
     d_type := dd_type d; d_default_value := dd_default_value d;
     d_allowed_scopes := dd_allowed_scopes d;
     d_validation := dd_validation d; d_is_multiple := dd_is_multiple d;
     d_tags := dd_tags d;
     d_created_at := now; d_updated_at := now |}.

(** The [settings_instances] literal of [_create_settings_instances]. *)
Record InstanceData := {
  id_definition_id : string; id_name : string; id_value : string;
  id_scope : string
}.

Definition settings_instances_data : list InstanceData :=
  [ {| id_definition_id := "theme_settings"; id_name := "Theme Settings";
       id_value := theme_default; id_scope := "user" |};
    {| id_definition_id := "ollama_servers_settings";
       id_name := "Ollama Servers Settings";
       id_value := ollama_default; id_scope := "user" |};
    {| id_definition_id := "general_settings"; id_name := "General Settings";
       id_value := general_instance_value; id_scope := "user" |} ].

(** ** Filesystem effects *)

Definition io_tick : M unit :=
  fun w =>
    match io_faults w with
    | [] => (Ok tt, w)
    | None :: fl => (Ok tt, with_fs w (fs w) fl)
    | Some msg :: fl => (Raise (Exn OSError msg), with_fs w (fs w) fl)
    end.

(** The non-empty prefixes of a path, shortest first. *)
Fixpoint prefixes (p : Path) : list Path :=
  match p with
  | [] => []
  | c :: p' => [c] :: map (cons c) (prefixes p')
  end.

Definition fs_put (f : FS) (p : Path) (n : node) : FS :=
  (filter (fun e => negb (path_eqb (fst e) p)) f ++ [(p, n)])%list.

(** [p.mkdir(parents=True, exist_ok=True)]. *)
Definition mkdir_p (p : Path) : M unit :=
  bind io_tick (fun _ w =>
    if existsb (is_file (fs w)) (prefixes p)
    then (Raise (Exn OSError ("File exists: " ++ path_str p)), w)
    else (Ok tt,
          with_fs w
            (fold_left (fun f d => if fs_exists f d then f
                                   else fs_put f d (Dir 4096))
                       (prefixes p) (fs w))
            (io_faults w))).

(** [p.unlink()]. *)
Definition unlink (p : Path) : M unit :=
  bind io_tick (fun _ w =>
    match fs_lookup (fs w) p with
    | Some (File _) =>
        (Ok tt, with_fs w (filter (fun e => negb (path_eqb (fst e) p)) (fs w))
                        (io_faults w))
    | Some (Dir _) => (Raise (Exn OSError ("Is a directory: " ++ path_str p)), w)
    | None =>
        (Raise (Exn FileNotFoundError
                  ("No such file or directory: " ++ path_str p)), w)
    end).

(** [shutil.copy2(src, dst)]: into [dst] when it is a directory. *)
Definition copy2 (src dst : Path) : M unit :=
  bind io_tick (fun _ w =>
    match read_text (fs w) src with
    | Raise e => (Raise e, w)
    | Ok c =>
        let dst' := if is_dir (fs w) dst then (dst ++ [last src EmptyString])%list
                    else dst in
        if is_dir (fs w) dst' then
          (Raise (Exn OSError ("Is a directory: " ++ path_str dst')), w)
        else if match removelast dst' with
                | [] => true
                | parent => is_dir (fs w) parent
                end
        then (Ok tt, with_fs w (fs_put (fs w) dst' (File c)) (io_faults w))
        else (Raise (Exn FileNotFoundError
                       ("No such file or directory: " ++ path_str dst')), w)
    end).

(** ** The lifecycle manager *)

Definition failure (msg : string) : dict :=
  [("success", PBool false); ("error", PStr msg)].

(** The value of an optional scalar ([None] or a string). *)
Definition opt_val (o : option string) : pyval :=
  match o with Some s => PStr s | None => PNone end.

(** A string parameter of a statement. *)
Definition sql_text (v : pyval) : string :=
  match v with PStr s => s | _ => EmptyString end.

(** [s.replace(c, '')] for a character [c]. *)
Fixpoint remove_char (c : ascii) (s : string) : string :=
  match s with
  | EmptyString => EmptyString
  | String a s' =>
      if Ascii.eqb a c then remove_char c s' else String a (remove_char c s')
  end.

Definition remove_dashes : string -> string := remove_char "-"%char.

(** [str(uuid4()).replace('-', '')]. *)
Definition fresh_uuid : M string :=
  fun w => (Ok (remove_dashes (uuid_supply w (uuid_next w))),
            with_uuid_next w (S (uuid_next w))).

(** [datetime.datetime.now().strftime(...)]. *)
Definition current_time : M string := fun w => (Ok (clock w), w).

Definition plugin_id_of (user_id : string) : string :=
  user_id ++ "_" ++ pd_plugin_slug plugin_data.

Definition instance_row (instance_id user_id now : string) (d : InstanceData)
  : InstRow :=
  {| i_id := instance_id; i_definition_id := id_definition_id d;
     i_name := id_name d; i_value := id_value d; i_scope := id_scope d;
     i_user_id := user_id; i_page_id := None;
     i_created_at := now; i_updated_at := now |}.

(** [self.active_users.add(user_id)]. *)
Definition add_active_user (self : obj) (user_id : string) : M unit :=
  fun w =>
    (Ok tt,
     with_manager w self
       {| active_users :=
            if existsb (String.eqb user_id) (active_users (managers w self))
            then active_users (managers w self)
            else (active_users (managers w self) ++ [user_id])%list;
          shared_path := shared_path (managers w self) |}).

(** [self.active_users.discard(user_id)]. *)
Definition discard_active_user (self : obj) (user_id : string) : M unit :=
  fun w =>
    (Ok tt,
     with_manager w self
       {| active_users :=
            filter (fun x => negb (String.eqb user_id x))
                   (active_users (managers w self));
          shared_path := shared_path (managers w self) |}).

Section Adapter.
Context {J : JsonCodec}.
Open Scope M_scope.

(** [_ensure_settings_definitions]. *)
Definition _ensure_settings_definitions : M dict :=
  try_except
    (for_each PLUGIN_SETTINGS_DEFINITIONS
       (fun _ definition_data =>
          existing <- query (select_definition_id (dd_id definition_data)) ;;
          if negb (truthy (opt_val existing)) then
            now <- current_time ;;
            statement (insert_definition (definition_row definition_data now))
          else ret tt) tt ;;;
     ret [("success", PBool true)])
    (fun e => ret (failure (str_e e))).

(** [_create_settings_instances]. *)
Definition _create_settings_instances (user_id : string) : M dict :=
  try_except
    (now <- current_time ;;
     created_instances <-
       for_each settings_instances_data
         (fun created_instances instance_data =>
            existing <- query (select_instance_id
                                 (id_definition_id instance_data) user_id
                                 (id_scope instance_data)) ;;
            if negb (truthy (opt_val existing)) then
              instance_id <- fresh_uuid ;;
              statement (insert_instance
                           (instance_row instance_id user_id now instance_data)) ;;;
              ret (created_instances ++ [id_name instance_data])%list
            else ret created_instances) [] ;;
     ret [("success", PBool true);
          ("created_instances", PStrs created_instances)])
    (fun e => ret (failure (str_e e))).

(** [_check_existing_plugin]. *)
Definition _check_existing_plugin (user_id : string) : M dict :=
  try_except
    (existing_plugin <-
       query (select_plugin_id user_id (pd_plugin_slug plugin_data)) ;;
     match existing_plugin with
     | Some id => ret [("exists", PBool true); ("plugin_id", PStr id)]
     | None => ret [("exists", PBool false)]
     end)
    (fun e => ret [("exists", PBool false); ("error", PStr (str_e e))]).

Definition plugin_row (user_id now : string) : PluginRow :=
  {| p_id := plugin_id_of user_id;
     p_name := pd_name plugin_data;
     p_description := pd_description plugin_data;
     p_version := pd_version plugin_data;
     p_type := pd_type plugin_data;
     p_enabled := true;
     p_icon := pd_icon plugin_data;
     p_category := pd_category plugin_data;
     p_status := "activated";
     p_official := pd_official plugin_data;
     p_author := pd_author plugin_data;
     p_last_updated := "2025-03-06";
     p_compatibility := pd_compatibility plugin_data;
     p_downloads := 0;
     p_scope := pd_scope plugin_data;
     p_bundle_method := pd_bundle_method plugin_data;
     p_bundle_location := pd_bundle_location plugin_data;
     p_is_local := pd_is_local plugin_data;
     p_long_description := pd_long_description plugin_data;
     p_config_fields := None;
     p_messages := None;
     p_dependencies := None;
     p_created_at := now;
     p_updated_at := now;
     p_user_id := user_id;
     p_plugin_slug := pd_plugin_slug plugin_data;
     p_source_type := pd_source_type plugin_data;
     p_source_url := pd_source_url plugin_data;
     p_update_check_url := pd_update_check_url plugin_data;
     p_last_update_check := pd_last_update_check plugin_data;
     p_update_available := pd_update_available plugin_data;
     p_latest_version := pd_latest_version plugin_data;
     p_installation_type := pd_installation_type plugin_data;
     p_permissions := json_dumps (PStrs (pd_permissions plugin_data)) |}.

Definition module_row (user_id now : string) (module_data : ModuleData)
  : ModuleRow :=
  {| m_id := user_id ++ "_" ++ md_name module_data;
     m_plugin_id := plugin_id_of user_id;
     m_name := md_name module_data;
     m_display_name := md_display_name module_data;
     m_description := md_description module_data;
     m_icon := md_icon module_data;
     m_category := md_category module_data;
     m_enabled := true;
     m_priority := md_priority module_data;
     m_props := Some (json_dumps (md_props module_data));
     m_config_fields := Some (json_dumps (md_config_fields module_data));
     m_messages := Some (json_dumps (md_messages module_data));
     m_required_services :=
       Some (json_dumps (md_required_services module_data));
     m_dependencies := Some (json_dumps (md_dependencies module_data));
     m_layout := Some (json_dumps (md_layout module_data));
     m_tags := Some (json_dumps (md_tags module_data));
     m_created_at := now;
     m_updated_at := now;
     m_user_id := user_id |}.

(** [_create_database_records]. *)
Definition _create_database_records (user_id : string) : M dict :=
  try_except
    (existing_check <- _check_existing_plugin user_id ;;
     ex <- getitem existing_check "exists" ;;
     if truthy ex then ret (failure "Plugin already exists for user") else
     settings_def_result <- _ensure_settings_definitions ;;
     ds <- getitem settings_def_result "success" ;;
     if negb (truthy ds) then ret settings_def_result else
     settings_inst_result <- _create_settings_instances user_id ;;
     inst_ok <- getitem settings_inst_result "success" ;;
     if negb (truthy inst_ok) then ret settings_inst_result else
     let plugin_id := plugin_id_of user_id in
     now <- current_time ;;
     statement (insert_plugin (plugin_row user_id now)) ;;;
     modules_created <-
       for_each module_data
         (fun modules_created md =>
            statement (insert_module (module_row user_id now md)) ;;;
            ret (modules_created ++ [md_name md])%list) [] ;;
     created <- getitem settings_inst_result "created_instances" ;;
     ret [("success", PBool true);
          ("plugin_id", PStr plugin_id);
          ("modules_created", PStrs modules_created);
          ("settings_created", created)])
    (fun e => ret (failure (str_e e))).

(** [_delete_database_records]. *)
Definition _delete_database_records (user_id plugin_id : string) : M dict :=
  try_except
    (deleted_modules <- statement (delete_modules user_id plugin_id) ;;
     statement (delete_plugin_row user_id plugin_id) ;;;
     ret [("success", PBool true); ("deleted_modules", PInt deleted_modules)])
    (fun e => ret (failure (str_e e))).

(** [_perform_user_installation]. *)
Definition _perform_user_installation (user_id : string) : M dict :=
  try_except
    (db_result <- _create_database_records user_id ;;
     s <- getitem db_result "success" ;;
     if negb (truthy s) then ret db_result else
     plugin_id <- getitem db_result "plugin_id" ;;
     modules_created <- getitem db_result "modules_created" ;;
     ret [("success", PBool true);
          ("plugin_id", plugin_id);
          ("plugin_slug", PStr (pd_plugin_slug plugin_data));
          ("plugin_name", PStr (pd_name plugin_data));
          ("modules_created", modules_created)])
    (fun e => ret (failure (str_e e))).

(** [_perform_user_uninstallation]. *)
Definition _perform_user_uninstallation (user_id : string) : M dict :=
  try_except
    (existing_check <- _check_existing_plugin user_id ;;
     ex <- getitem existing_check "exists" ;;
     if negb (truthy ex) then ret (failure "Plugin not found for user") else
     plugin_id <- getitem existing_check "plugin_id" ;;
     delete_result <- _delete_database_records user_id (sql_text plugin_id) ;;
     s <- getitem delete_result "success" ;;
     if negb (truthy s) then ret delete_result else
     deleted_modules <- getitem delete_result "deleted_modules" ;;
     ret [("success", PBool true);
          ("plugin_id", plugin_id);
          ("deleted_modules", deleted_modules)])
    (fun e => ret (failure (str_e e))).

(** [install_for_user] of the base class this file falls back to. *)
Definition install_for_user (self : obj) (user_id : string) : M dict :=
  w <- get_world ;;
  if existsb (String.eqb user_id) (active_users (managers w self)) then
    ret (failure "Plugin already installed for user")
  else
    result <- _perform_user_installation user_id ;;
    s <- getitem result "success" ;;
    (if truthy s then add_active_user self user_id else ret tt) ;;;
    ret result.

(** [uninstall_for_user] of the same base class. *)
Definition uninstall_for_user (self : obj) (user_id : string) : M dict :=
  w <- get_world ;;
  if negb (existsb (String.eqb user_id) (active_users (managers w self))) then
    ret (failure "Plugin not installed for user")
  else
    result <- _perform_user_uninstallation user_id ;;
    s <- getitem result "success" ;;
    (if truthy s then discard_active_user self user_id else ret tt) ;;;
    ret result.

End Adapter.

(** ** Copying the plugin's files *)

Definition exclude_patterns : list string :=
  ["node_modules"; "package-lock.json"; ".git"; ".gitignore"; "__pycache__";
   "*.pyc"; ".DS_Store"; "Thumbs.db"].

(** [should_copy] of [_copy_plugin_files_impl]. *)
Definition should_copy (path : Path) : bool :=
  if existsb (fun part => existsb (String.eqb part) exclude_patterns) path
  then false
  else if existsb (fun pattern =>
                     contains "*" pattern
                     && endswith (last path EmptyString)
                                 (remove_char "*"%char pattern))
                  exclude_patterns
  then false
  else true.

Fixpoint is_strict_prefix (d p : Path) : bool :=
  match d, p with
  | [], [] => false
  | [], _ :: _ => true
  | a :: d', b :: p' => String.eqb a b && is_strict_prefix d' p'
  | _ :: _, [] => false
  end.

(** [d.rglob('*')]: every entry below [d]. *)
Definition rglob (f : FS) (d : Path) : list Path :=
  filter (is_strict_prefix d) (map fst f).

Section Lifecycle.
Context {J : JsonCodec}.
Open Scope M_scope.

(** The file step shared by the loop and by the final copy of
    [lifecycle_manager.py]: parents, the removal on update, the copy. *)
Definition copy_file (update : bool) (source target : Path) : M unit :=
  mkdir_p (removelast target) ;;;
  w <- get_world ;;
  (if update && fs_exists (fs w) target then unlink target else ret tt) ;;;
  copy2 source target.

(** [_copy_plugin_files_impl]. *)
Definition _copy_plugin_files_impl (user_id : string) (target_dir : Path)
  (update : bool) : M dict :=
  try_except
    (w0 <- get_world ;;
     let source_dir := removelast (module_file w0) in
     copied_files <-
       for_each (rglob (fs w0) source_dir)
         (fun copied_files item =>
            if String.eqb (last item EmptyString) "lifecycle_manager.py"
               && path_eqb item (module_file w0)
            then ret copied_files
            else
              let relative_path := skipn (List.length source_dir) item in
              if negb (should_copy relative_path) then ret copied_files else
              let target_path := (target_dir ++ relative_path)%list in
              try_except
                (w <- get_world ;;
                 if is_file (fs w) item then
                   copy_file update item target_path ;;;
                   ret (copied_files ++ [path_str relative_path])%list
                 else if is_dir (fs w) item then
                   mkdir_p target_path ;;; ret copied_files
                 else ret copied_files)
                (fun _ => ret copied_files)) [] ;;
     let lifecycle_manager_source :=
       path_join source_dir "lifecycle_manager.py" in
     let lifecycle_manager_target :=
       path_join target_dir "lifecycle_manager.py" in
     w <- get_world ;;
     copied_files <-
       (if fs_exists (fs w) lifecycle_manager_source then
          copy_file update lifecycle_manager_source lifecycle_manager_target ;;;
          ret (copied_files ++ ["lifecycle_manager.py"])%list
        else ret copied_files) ;;
     ret [("success", PBool true); ("copied_files", PStrs copied_files)])
    (fun e => ret (failure (str_e e))).

(** ** Export and import of the user's configuration *)

(** [json.loads(cell) if cell else dflt]. *)
Definition decode_cell (cell : option string) (dflt : pyval) : res pyval :=
  if truthy (opt_val cell) then
    match json_loads (sql_text (opt_val cell)) with
    | Some v => Ok v
    | None => Raise (Exn JSONDecodeError
                       (json_error (sql_text (opt_val cell))))
    end
  else Ok dflt.

Definition decode_plugin_config
  (row : option string * option string * option string) : res dict :=
  let '(cf, ms, deps) := row in
  (config_fields <- decode_cell cf (PDict []) ;;
   messages <- decode_cell ms (PDict []) ;;
   dependencies <- decode_cell deps (PList []) ;;
   Ok [("config_fields", config_fields); ("messages", messages);
       ("dependencies", dependencies)])%res.

Definition decode_module_config (row : ModuleConfig) : res pyval :=
  let '(_, pr, cf, ms, ly) := row in
  (props <- decode_cell pr (PDict []) ;;
   config_fields <- decode_cell cf (PDict []) ;;
   messages <- decode_cell ms (PDict []) ;;
   layout <- decode_cell ly (PDict []) ;;
   Ok (PDict [("props", props); ("config_fields", config_fields);
              ("messages", messages); ("layout", layout)]))%res.

Definition module_row_name (row : ModuleConfig) : string :=
  let '(name, _, _, _, _) := row in name.

(** [_export_user_data]. *)
Definition _export_user_data (user_id : string) : M dict :=
  try_except
    (plugin_row <-
       query (select_plugin_config user_id (pd_plugin_slug plugin_data)) ;;
     plugin_config <-
       match plugin_row with
       | Some row =>
           lift (rcatch (decode_plugin_config row) [JSONDecodeError]
                        (fun _ => Ok []))
       | None => ret []
       end ;;
     rows <- query (select_module_config user_id (plugin_id_of user_id)) ;;
     modules_config <-
       for_each rows
         (fun modules_config row =>
            lift (rcatch
                    (c <- decode_module_config row ;;
                     Ok (dict_set modules_config (module_row_name row) c))%res
                    [JSONDecodeError]
                    (fun _ => Ok modules_config))) [] ;;
     now <- current_time ;;
     let export_data :=
       [("plugin_config", PDict plugin_config);
        ("modules_config", PDict modules_config);
        ("export_timestamp", PStr now)] in
     ret [("success", PBool true); ("data", PDict export_data)])
    (fun e => ret (failure (str_e e))).

(** [v.get(k, dflt)]; only a dict has [get]. *)
Definition py_get (v : pyval) (k : string) (dflt : pyval) : M pyval :=
  match v with
  | PDict d => ret (dict_get_default d k dflt)
  | _ => raise (Exn TypeError "object has no attribute 'get'")
  end.

(** [v.items()]. *)
Definition py_items (v : pyval) : M (list (string * pyval)) :=
  match v with
  | PDict d => ret d
  | _ => raise (Exn TypeError "object has no attribute 'items'")
  end.

(** [v[k]] on a value. *)
Definition py_getitem (v : pyval) (k : string) : M pyval :=
  match v with
  | PDict d => getitem d k
  | _ => raise (Exn TypeError "object is not subscriptable")
  end.

(** [_import_user_data]. *)
Definition _import_user_data (user_id : string) (user_data : pyval) : M unit :=
  try_except
    (has_data <- lift (if truthy user_data then py_in "data" user_data
                       else Ok false) ;;
     if negb has_data then ret tt else
     data <- py_getitem user_data "data" ;;
     plugin_config <- py_get data "plugin_config" (PDict []) ;;
     modules_config <- py_get data "modules_config" (PDict []) ;;
     (if truthy plugin_config then
        let plugin_id := plugin_id_of user_id in
        config_fields <- py_get plugin_config "config_fields" (PDict []) ;;
        messages <- py_get plugin_config "messages" (PDict []) ;;
        dependencies <- py_get plugin_config "dependencies" (PList []) ;;
        statement (update_plugin_config user_id plugin_id
                     (json_dumps config_fields) (json_dumps messages)
                     (json_dumps dependencies))
      else ret tt) ;;;
     items <- py_items modules_config ;;
     for_each items
       (fun _ item =>
          let module_name := fst item in
          let module_config := snd item in
          let module_id := user_id ++ "_" ++ module_name in
          props <- py_get module_config "props" (PDict []) ;;
          config_fields <- py_get module_config "config_fields" (PDict []) ;;
          messages <- py_get module_config "messages" (PDict []) ;;
          layout <- py_get module_config "layout" (PDict []) ;;
          statement (update_module_config user_id module_id
                       (json_dumps props) (json_dumps config_fields)
                       (json_dumps messages) (json_dumps layout))) tt)
    (fun _ => ret tt).

End Lifecycle.

(** ** The verbs: install, delete, status, update *)

Section Verbs.
Context {J : JsonCodec}.
Open Scope M_scope.

(** The database part of [install_plugin], its inner [try]. *)
Definition install_transaction (self : obj) (user_id : string)
  (shared : Path) (copy_result : dict) : M dict :=
  try_except
    (result <- install_for_user self user_id ;;
     if truthy (dict_get_default result "success" PNone) then
       verify_check <- _check_existing_plugin user_id ;;
       vex <- getitem verify_check "exists" ;;
       if negb (truthy vex) then
         ret (failure "Installation verification failed")
       else
         let result :=
           dict_update result
             [("shared_path", PStr (path_str shared));
              ("files_copied",
               dict_get_default copy_result "copied_files" (PList []))] in
         commit ;;;
         ret result
     else
       rollback ;;;
       ret result)
    (fun db_error =>
       rollback ;;;
       ret (failure ("Database operation failed: " ++ str_e db_error))).

(** What [install_plugin] does once its existence check has answered
    "not installed". *)
Definition install_after_check (self : obj) (user_id : string) : M dict :=
  w <- get_world ;;
  let shared := shared_path (managers w self) in
  mkdir_p shared ;;;
  copy_result <- _copy_plugin_files_impl user_id shared false ;;
  cs <- getitem copy_result "success" ;;
  if negb (truthy cs) then ret copy_result else
  install_transaction self user_id shared copy_result.

(** [install_plugin]. *)
Definition install_plugin (self : obj) (user_id : string) : M dict :=
  try_except
    (existing_check <- _check_existing_plugin user_id ;;
     ex <- getitem existing_check "exists" ;;
     if truthy ex then
       plugin_id <- getitem existing_check "plugin_id" ;;
       ret [("success", PBool false);
            ("error", PStr "Plugin already installed for user");
            ("plugin_id", plugin_id)]
     else install_after_check self user_id)
    (fun e => rollback ;;; ret (failure (str_e e))).

(** [delete_plugin]. *)
Definition delete_plugin (user_id : string) : M dict :=
  try_except
    (existing_check <- _check_existing_plugin user_id ;;
     ex <- getitem existing_check "exists" ;;
     if negb (truthy ex) then ret (failure "Plugin not found for user") else
     plugin_id <- getitem existing_check "plugin_id" ;;
     delete_result <- _delete_database_records user_id (sql_text plugin_id) ;;
     s <- getitem delete_result "success" ;;
     (if truthy s then commit else ret tt) ;;;
     ret delete_result)
    (fun e => rollback ;;; ret (failure (str_e e))).

(** [get_plugin_status]. *)
Definition get_plugin_status (user_id : string) : M dict :=
  try_except
    (existing_check <- _check_existing_plugin user_id ;;
     ex <- getitem existing_check "exists" ;;
     if truthy ex then
       plugin_id <- getitem existing_check "plugin_id" ;;
       ret [("installed", PBool true);
            ("plugin_id", plugin_id);
            ("plugin_slug", PStr (pd_plugin_slug plugin_data));
            ("plugin_name", PStr (pd_name plugin_data));
            ("version", PStr (pd_version plugin_data))]
     else ret [("installed", PBool false)])
    (fun e => ret [("installed", PBool false); ("error", PStr (str_e e))]).

(** The last phase of [update_plugin]: the import and its commit. *)
Definition update_import (user_id : string) (user_data : pyval) : M unit :=
  if truthy user_data then
    _import_user_data user_id (PDict [("data", user_data)]) ;;;
    commit
  else ret tt.

(** [update_plugin]. *)
Definition update_plugin (self : obj) (user_id : string)
  (new_version_manager : obj) : M dict :=
  try_except
    (export_result <- _export_user_data user_id ;;
     es <- getitem export_result "success" ;;
     let user_data :=
       if truthy es then dict_get_default export_result "data" (PDict [])
       else PDict [] in
     delete_result <- delete_plugin user_id ;;
     ds <- getitem delete_result "success" ;;
     if negb (truthy ds) then ret delete_result else
     install_result <- install_plugin new_version_manager user_id ;;
     ok <- getitem install_result "success" ;;
     if negb (truthy ok) then ret install_result else
     update_import user_id user_data ;;;
     ret install_result)
    (fun e => rollback ;;; ret (failure (str_e e))).

End Verbs.

(** ** An executable JSON codec

    Python's printer (default separators) and a reader for the JSON this
    adapter stores: objects, arrays, strings of printable ASCII characters
    with the escapes of the quote and the backslash, integers, [true],
    [false], [null].  It makes the adapter runnable on concrete stores. *)
Module AsciiJson.

Definition backslash : ascii := ascii_of_nat 92.
Definition quote : ascii := ascii_of_nat 34.

Fixpoint escape (s : string) : string :=
  match s with
  | EmptyString => EmptyString
  | String c s' =>
      if Ascii.eqb c quote || Ascii.eqb c backslash
      then String backslash (String c (escape s'))
      else String c (escape s')
  end.

Definition dump_string (s : string) : string := q (escape s).

Definition dump_int (z : Z) : string :=
  DecimalString.NilZero.string_of_int (Z.to_int z).

Fixpoint dumps (v : pyval) : string :=
  match v with
  | PNone => "null"
  | PBool true => "true"
  | PBool false => "false"
  | PInt z => dump_int z
  | PStr s => dump_string s
  | PList l => "[" ++ join ", " (map dumps l) ++ "]"
  | PDict d =>
      "{" ++ join ", " (map (fun kv => dump_string (fst kv) ++ ": "
                                       ++ dumps (snd kv)) d) ++ "}"
  end.

Definition is_ws (c : ascii) : bool :=
  Ascii.eqb c " "%char || Ascii.eqb c (ascii_of_nat 10)
  || Ascii.eqb c (ascii_of_nat 13) || Ascii.eqb c (ascii_of_nat 9).

Fixpoint skip_ws (s : string) : string :=
  match s with
  | String c s' => if is_ws c then skip_ws s' else s
  | EmptyString => s
  end.

(** The body of a string literal, after its opening quote. *)
Fixpoint read_string (s : string) (acc : string) : option (string * string) :=
  match s with
  | EmptyString => None
  | String c s' =>
      if Ascii.eqb c quote then Some (rev_string acc EmptyString, s')
      else if Ascii.eqb c backslash then
        match s' with
        | String e s'' =>
            if Ascii.eqb e quote || Ascii.eqb e backslash
            then read_string s'' (String e acc)
            else None
        | EmptyString => None
        end
      else read_string s' (String c acc)
  end.

Definition digit (c : ascii) : option Z :=
  let n := nat_of_ascii c in
  if (48 <=? n)%nat && (n <=? 57)%nat then Some (Z.of_nat (n - 48)) else None.

Fixpoint read_digits (s : string) (acc : Z) : Z * string :=
  match s with
  | String c s' =>
      match digit c with
      | Some d => read_digits s' (10 * acc + d)
      | None => (acc, s)
      end
  | EmptyString => (acc, s)
  end.

Definition read_number (s : string) : option (pyval * string) :=
  match s with
  | String c s' =>
      if Ascii.eqb c "-"%char then
        match s' with
        | String c' _ =>
            match digit c' with
            | Some _ => let '(z, r) := read_digits s' 0 in Some (PInt (- z), r)
            | None => None
            end
        | EmptyString => None
        end
      else
        match digit c with
        | Some _ => let '(z, r) := read_digits s 0 in Some (PInt z, r)
        | None => None
        end
  | EmptyString => None
  end.

Definition drop (n : nat) (s : string) : string :=
  String.substring n (String.length s - n) s.

Fixpoint read_value (fuel : nat) (s : string) : option (pyval * string) :=
  match fuel with
  | O => None
  | S n =>
      match skip_ws s with
      | EmptyString => None
      | String c rest as s' =>
          if Ascii.eqb c "{"%char then read_members n rest true []
          else if Ascii.eqb c "["%char then read_elements n rest true []
          else if Ascii.eqb c quote then
            match read_string rest EmptyString with
            | Some (x, r) => Some (PStr x, r)
            | None => None
            end
          else if is_prefix "true" s' then Some (PBool true, drop 4 s')
          else if is_prefix "false" s' then Some (PBool false, drop 5 s')
          else if is_prefix "null" s' then Some (PNone, drop 4 s')
          else read_number s'
      end
  end
with read_elements (fuel : nat) (s : string) (first : bool)
       (acc : list pyval) : option (pyval * string) :=
  match fuel with
  | O => None
  | S n =>
      match skip_ws s with
      | EmptyString => None
      | String c rest as s' =>
          if Ascii.eqb c "]"%char && first then Some (PList (rev acc), rest)
          else
            match read_value n s' with
            | Some (v, r) =>
                match skip_ws r with
                | String c' r' =>
                    if Ascii.eqb c' ","%char
                    then read_elements n r' false (v :: acc)
                    else if Ascii.eqb c' "]"%char
                    then Some (PList (rev (v :: acc)), r')
                    else None
                | EmptyString => None
                end
            | None => None
            end
      end
  end
with read_members (fuel : nat) (s : string) (first : bool) (acc : dict)
  : option (pyval * string) :=
  match fuel with
  | O => None
  | S n =>
      match skip_ws s with
      | EmptyString => None
      | String c rest =>
          if Ascii.eqb c "}"%char && first then Some (PDict acc, rest)
          else if Ascii.eqb c quote then
            match read_string rest EmptyString with
            | Some (k, r) =>
                match skip_ws r with
                | String colon r1 =>
                    if Ascii.eqb colon ":"%char then
                      match read_value n r1 with
                      | Some (v, r2) =>
                          match skip_ws r2 with
                          | String c' r3 =>
                              if Ascii.eqb c' ","%char
                              then read_members n r3 false (dict_set acc k v)
                              else if Ascii.eqb c' "}"%char
                              then Some (PDict (dict_set acc k v), r3)
                              else None
                          | EmptyString => None
                          end
                      | None => None
                      end
                    else None
                | EmptyString => None
                end
            | None => None
            end
          else None
      end
  end.

Definition loads (s : string) : option pyval :=
  match read_value (2 * String.length s + 2) s with
  | Some (v, r) =>
      match skip_ws r with
      | EmptyString => Some v
      | _ => None
      end
  | None => None
  end.

#[export] Instance codec : JsonCodec :=
  {| json_loads := loads;
     json_error := fun _ => "Expecting value";
     json_dumps := dumps |}.

End AsciiJson.

(** ** Concrete worlds *)

Definition empty_tables : Tables :=
  {| plugin := []; module := []; settings_definitions := [];
     settings_instances := [] |}.

Definition nat_string (n : nat) : string :=
  DecimalString.NilZero.string_of_uint (Nat.to_uint n).

(** A plugin checkout with a manifest, a bundle and one source file. *)
Definition checkout : FS :=
  [ (["repo"], Dir 4096);
    (["repo"; "lifecycle_manager.py"], File "# lifecycle manager");
    (["repo"; "package.json"],
     File ("{" ++ q "name" ++ ": " ++ q "braindrive-settings" ++ ", "
               ++ q "version" ++ ": " ++ q "1.0.3" ++ "}"));
    (["repo"; "dist"], Dir 4096);
    (["repo"; "dist"; "remoteEntry.js"], File "var BrainDriveSettings;");
    (["repo"; "src"], Dir 4096);
    (["repo"; "src"; "index.tsx"], File "export {};");
    (["repo"; "node_modules"], Dir 4096);
    (["repo"; "node_modules"; "left-pad.js"], File "module.exports = 0;") ].

Definition fresh_session : Session :=
  {| committed := empty_tables; pending := empty_tables; db_faults := [] |}.

(** An empty store, an installer at [repo], and two manager objects (0 and
    any other) with no active users. *)
Definition fresh_world : World :=
  {| db := fresh_session;
     fs := checkout;
     io_faults := [];
     managers := fun _ =>
       {| active_users := [];
          shared_path := ["plugins"; "shared"; "BrainDriveSettings"; "v1.0.3"] |};
     clock := "2025-03-06 12:00:00";
     uuid_supply := fun n => "6f1c-" ++ nat_string n;
     uuid_next := 0;
     module_file := ["repo"; "lifecycle_manager.py"] |}.

(** The world a computation ends in, and its value. *)
Definition exec {A} (c : M A) (w : World) : World := snd (c w).
Definition eval {A} (c : M A) (w : World) : res A := fst (c w).

(** * Reasoning about the adapter's computations *)

(** ** Relations every step of a computation keeps *)

Class Frame (R : World -> World -> Prop) : Prop := {
  frame_refl : forall w, R w w;
  frame_trans : forall a b c, R a b -> R b c -> R a c
}.

(** The statements whose table change satisfies [St] keep [R]. *)
Class DbFrame (R : World -> World -> Prop) (St : Tables -> Tables -> Prop)
  : Prop := {
  frame_tick : forall w, R w (snd (db_tick w));
  frame_pending : forall w t, St (pending (db w)) t -> R w (with_pending w t)
}.

Class CommitFrame (R : World -> World -> Prop) : Prop :=
  frame_commit : forall w, R w (snd (commit w)).

Class RollbackFrame (R : World -> World -> Prop) : Prop :=
  frame_rollback : forall w, R w (snd (rollback w)).

Class IoFrame (R : World -> World -> Prop) : Prop :=
  frame_fs : forall w f fl, R w (with_fs w f fl).

Class ObjFrame (R : World -> World -> Prop) : Prop := {
  frame_manager : forall w o m, R w (with_manager w o m);
  frame_uuid : forall w n, R w (with_uuid_next w n)
}.

Definition pres (R : World -> World -> Prop) {A} (c : M A) : Prop :=
  forall w, R w (snd (c w)).

Section Preservation.
Context {R : World -> World -> Prop} {F : Frame R}.

Lemma pres_ret {A} (a : A) : pres R (ret a).
Proof. intros w. apply frame_refl. Qed.

Lemma pres_raise {A} (e : exn) : pres R (@raise A e).
Proof. intros w. apply frame_refl. Qed.

Lemma pres_lift {A} (r : res A) : pres R (lift r).
Proof. intros w. apply frame_refl. Qed.

Lemma pres_get_world : pres R get_world.
Proof. intros w. apply frame_refl. Qed.

Lemma pres_current_time : pres R current_time.
Proof. intros w. apply frame_refl. Qed.

Lemma pres_getitem (d : dict) (k : string) : pres R (getitem d k).
Proof. unfold getitem. destruct (dict_get d k); intros w; apply frame_refl. Qed.

Lemma pres_bind {A B} (c : M A) (k : A -> M B) :
  pres R c -> (forall a, pres R (k a)) -> pres R (bind c k).
Proof.
  intros Hc Hk w. unfold bind. specialize (Hc w).
  destruct (c w) as [[a|e] w1]; cbn in *; [|exact Hc].
  eapply frame_trans; [exact Hc|apply Hk].
Qed.

Lemma pres_try {A} (c : M A) (h : exn -> M A) :
  pres R c -> (forall e, pres R (h e)) -> pres R (try_except c h).
Proof.
  intros Hc Hh w. unfold try_except. specialize (Hc w).
  destruct (c w) as [[a|e] w1]; cbn in *; [exact Hc|].
  eapply frame_trans; [exact Hc|apply Hh].
Qed.

Lemma pres_for_each {A S} (l : list A) (body : S -> A -> M S) :
  (forall acc x, In x l -> pres R (body acc x)) ->
  forall acc, pres R (for_each l body acc).
Proof.
  induction l as [|x l IH]; intros Hb acc; cbn [for_each].
  - apply pres_ret.
  - apply pres_bind; [apply Hb; now left|].
    intros acc'. apply IH. intros a y Hy. apply Hb. now right.
Qed.

Lemma pres_db_tick {St} {D : DbFrame R St} : pres R db_tick.
Proof. exact frame_tick. Qed.

(** A relation that ignores the fault script is kept by a tick. *)
Lemma tick_of_faults :
  (forall w fl, R w (with_db_faults w fl)) -> forall w, R w (snd (db_tick w)).
Proof.
  intros H w. unfold db_tick.
  destruct (db_faults (db w)) as [|[m|] fl]; cbn;
    [apply frame_refl|apply H..].
Qed.

Lemma pres_query {St} {D : DbFrame R St} {A} (f : Tables -> res A) :
  pres R (query f).
Proof.
  unfold query. apply pres_bind; [apply pres_db_tick|].
  intros _ w. apply frame_refl.
Qed.

Lemma pres_statement {St} {D : DbFrame R St} {A}
  (f : Tables -> res (A * Tables)) :
  (forall t a t', f t = Ok (a, t') -> St t t') -> pres R (statement f).
Proof.
  intros Hf. unfold statement. apply pres_bind; [apply pres_db_tick|].
  intros _ w. destruct (f (pending (db w))) as [[a t']|e] eqn:E; cbn.
  - apply frame_pending. eapply Hf; eauto.
  - apply frame_refl.
Qed.

Lemma pres_commit {C : CommitFrame R} : pres R commit.
Proof. exact frame_commit. Qed.

Lemma pres_rollback {C : RollbackFrame R} : pres R rollback.
Proof. exact frame_rollback. Qed.

Lemma pres_io_tick {I : IoFrame R} : pres R io_tick.
Proof.
  intros w. unfold io_tick.
  destruct (io_faults w) as [|[m|] fl]; cbn;
    [apply frame_refl|apply frame_fs..].
Qed.

Lemma pres_mkdir_p {I : IoFrame R} (p : Path) : pres R (mkdir_p p).
Proof.
  unfold mkdir_p. apply pres_bind; [apply pres_io_tick|].
  intros _ w. destruct (existsb _ _); cbn; [apply frame_refl|apply frame_fs].
Qed.

Lemma pres_unlink {I : IoFrame R} (p : Path) : pres R (unlink p).
Proof.
  unfold unlink. apply pres_bind; [apply pres_io_tick|].
  intros _ w. destruct (fs_lookup (fs w) p) as [[c|sz]|]; cbn;
    [apply frame_fs|apply frame_refl..].
Qed.

Lemma pres_copy2 {I : IoFrame R} (a b : Path) : pres R (copy2 a b).
Proof.
  unfold copy2. apply pres_bind; [apply pres_io_tick|].
  intros _ w. destruct (read_text (fs w) a); cbn; [|apply frame_refl].
  repeat match goal with
         | |- context [if ?x then _ else _] => destruct x; cbn
         | |- context [match ?x with [] => _ | _ => _ end] => destruct x; cbn
         end; first [apply frame_fs|apply frame_refl].
Qed.

Lemma pres_fresh_uuid {O : ObjFrame R} : pres R fresh_uuid.
Proof. intros w. apply frame_uuid. Qed.

Lemma pres_add_active_user {O : ObjFrame R} (o : obj) (u : string) :
  pres R (add_active_user o u).
Proof. intros w. apply frame_manager. Qed.

Lemma pres_discard_active_user {O : ObjFrame R} (o : obj) (u : string) :
  pres R (discard_active_user o u).
Proof. intros w. apply frame_manager. Qed.

End Preservation.

(** The statements of each verb, as far as a table relation [St] is
    concerned. *)
Class DeleteStmts (St : Tables -> Tables -> Prop) : Prop := {
  st_delete_modules : forall u pid t a t',
    delete_modules u pid t = Ok (a, t') -> St t t';
  st_delete_plugin_row : forall u pid t a t',
    delete_plugin_row u pid t = Ok (a, t') -> St t t'
}.

Class DefStmts (St : Tables -> Tables -> Prop) : Prop :=
  st_insert_definition : forall dd now t a t',
    In dd PLUGIN_SETTINGS_DEFINITIONS ->
    insert_definition (definition_row dd now) t = Ok (a, t') -> St t t'.

Class InstStmts (St : Tables -> Tables -> Prop) : Prop :=
  st_insert_instance : forall id u now d t a t',
    In d settings_instances_data ->
    insert_instance (instance_row id u now d) t = Ok (a, t') -> St t t'.

Class RowStmts (St : Tables -> Tables -> Prop) : Prop := {
  st_insert_plugin : forall r t a t',
    insert_plugin r t = Ok (a, t') -> St t t';
  st_insert_module : forall r t a t',
    insert_module r t = Ok (a, t') -> St t t'
}.

Class ImportStmts (St : Tables -> Tables -> Prop) : Prop := {
  st_update_plugin_config : forall u pid a b c t x t',
    update_plugin_config u pid a b c t = Ok (x, t') -> St t t';
  st_update_module_config : forall u mid a b c d t x t',
    update_module_config u mid a b c d t = Ok (x, t') -> St t t'
}.

Create HintDb pres discriminated.

#[export] Hint Resolve pres_ret pres_raise pres_lift pres_get_world
  pres_current_time pres_getitem pres_db_tick pres_query pres_commit
  pres_rollback pres_io_tick pres_mkdir_p pres_unlink pres_copy2
  pres_fresh_uuid pres_add_active_user pres_discard_active_user : pres.

(** One structural step of a preservation proof. *)
Ltac pres_step :=
  lazymatch goal with
  | |- pres _ (bind _ _) => apply pres_bind; [|intros ?]
  | |- pres _ (try_except _ _) => apply pres_try; [|intros ?]
  | |- pres _ (for_each _ _ _) => apply pres_for_each; intros ? ? ?
  | |- pres _ (if ?b then _ else _) => destruct b
  | |- pres _ (match ?x with _ => _ end) => destruct x
  | |- pres _ (let _ := _ in _) => cbv zeta
  | |- pres _ (statement _) =>
      eapply pres_statement; intros;
      first [ eapply st_delete_modules; eassumption
            | eapply st_delete_plugin_row; eassumption
            | eapply st_insert_plugin; eassumption
            | eapply st_insert_module; eassumption
            | eapply st_update_plugin_config; eassumption
            | eapply st_update_module_config; eassumption
            | eapply st_insert_definition; eassumption
            | eapply st_insert_instance; eassumption ]
  | |- pres _ _ => solve [eauto with pres typeclass_instances]
  end.

Ltac pres_auto := repeat pres_step.

Section AdapterPreservation.
Context {J : JsonCodec}.
Context {R : World -> World -> Prop} {St : Tables -> Tables -> Prop}.
Context {F : Frame R} {D : DbFrame R St}.

Lemma pres_check_existing_plugin (u : string) :
  pres R (_check_existing_plugin u).
Proof. unfold _check_existing_plugin. pres_auto. Qed.

Lemma pres_delete_database_records {DS : DeleteStmts St} (u pid : string) :
  pres R (_delete_database_records u pid).
Proof. unfold _delete_database_records. pres_auto. Qed.

Lemma pres_get_plugin_status (u : string) : pres R (get_plugin_status u).
Proof.
  unfold get_plugin_status. pres_auto; apply pres_check_existing_plugin.
Qed.

Lemma pres_delete_plugin {DS : DeleteStmts St} {C : CommitFrame R}
  {RB : RollbackFrame R} (u : string) : pres R (delete_plugin u).
Proof.
  unfold delete_plugin.
  pres_auto; first [apply pres_check_existing_plugin
                   |apply pres_delete_database_records].
Qed.

Context {DfS : DefStmts St} {InS : InstStmts St} {RS : RowStmts St}
        {IS : ImportStmts St} {DS : DeleteStmts St}.
Context {C : CommitFrame R} {RB : RollbackFrame R} {I : IoFrame R}
        {O : ObjFrame R}.

Lemma pres_ensure_settings_definitions : pres R _ensure_settings_definitions.
Proof. unfold _ensure_settings_definitions. pres_auto. Qed.

Lemma pres_create_settings_instances (u : string) :
  pres R (_create_settings_instances u).
Proof. unfold _create_settings_instances. pres_auto. Qed.

Lemma pres_create_database_records (u : string) :
  pres R (_create_database_records u).
Proof.
  unfold _create_database_records.
  pres_auto; first [ apply pres_check_existing_plugin
                   | apply pres_ensure_settings_definitions
                   | apply pres_create_settings_instances ].
Qed.

Lemma pres_perform_user_installation (u : string) :
  pres R (_perform_user_installation u).
Proof.
  unfold _perform_user_installation.
  pres_auto; apply pres_create_database_records.
Qed.

Lemma pres_install_for_user (self : obj) (u : string) :
  pres R (install_for_user self u).
Proof.
  unfold install_for_user.
  pres_auto; apply pres_perform_user_installation.
Qed.

Lemma pres_copy_file (update : bool) (a b : Path) :
  pres R (copy_file update a b).
Proof. unfold copy_file. pres_auto. Qed.

Lemma pres_copy_plugin_files_impl (u : string) (target : Path) (b : bool) :
  pres R (_copy_plugin_files_impl u target b).
Proof.
  unfold _copy_plugin_files_impl. pres_auto; apply pres_copy_file.
Qed.

Lemma pres_install_transaction (self : obj) (u : string) (shared : Path)
  (copy_result : dict) :
  pres R (install_transaction self u shared copy_result).
Proof.
  unfold install_transaction.
  pres_auto; first [ apply pres_install_for_user
                   | apply pres_check_existing_plugin ].
Qed.

Lemma pres_install_after_check (self : obj) (u : string) :
  pres R (install_after_check self u).
Proof.
  unfold install_after_check.
  pres_auto; first [ apply pres_copy_plugin_files_impl
                   | apply pres_install_transaction ].
Qed.

Lemma pres_install_plugin (self : obj) (u : string) :
  pres R (install_plugin self u).
Proof.
  unfold install_plugin.
  pres_auto; first [ apply pres_check_existing_plugin
                   | apply pres_install_after_check ].
Qed.

Lemma pres_export_user_data (u : string) : pres R (_export_user_data u).
Proof. unfold _export_user_data. pres_auto. Qed.

Lemma pres_import_user_data (u : string) (user_data : pyval) :
  pres R (_import_user_data u user_data).
Proof.
  unfold _import_user_data, py_getitem, py_get, py_items. pres_auto.
Qed.

Lemma pres_update_import (u : string) (user_data : pyval) :
  pres R (update_import u user_data).
Proof.
  unfold update_import. pres_auto; apply pres_import_user_data.
Qed.

Lemma pres_update_plugin (self : obj) (u : string) (new : obj) :
  pres R (update_plugin self u new).
Proof.
  unfold update_plugin.
  pres_auto; first [ apply pres_export_user_data
                   | apply pres_delete_plugin
                   | apply pres_install_plugin
                   | apply pres_update_import ].
Qed.

End AdapterPreservation.

(** * Properties *)

(** ** Validation and health of the installed files *)

Section FileProperties.
Context {J : JsonCodec}.

Definition manifest_of (plugin_dir : Path) : Path :=
  (plugin_dir ++ ["package.json"])%list.
Definition bundle_of (plugin_dir : Path) : Path :=
  (plugin_dir ++ ["dist"; "remoteEntry.js"])%list.
Definition assets_of (plugin_dir : Path) : Path :=
  (plugin_dir ++ ["src"])%list.

Lemma manifest_path (d : Path) : path_join d "package.json" = manifest_of d.
Proof. reflexivity. Qed.

Lemma bundle_path (d : Path) : path_join d "dist/remoteEntry.js" = bundle_of d.
Proof. reflexivity. Qed.

Lemma bundle_path_nested (d : Path) :
  path_join (path_join d "dist") "remoteEntry.js" = bundle_of d.
Proof. unfold path_join, bundle_of. cbn. now rewrite <- app_assoc. Qed.

Lemma assets_path (d : Path) : path_join d "src" = assets_of d.
Proof. reflexivity. Qed.

Lemma fs_exists_lookup (f : FS) (p : Path) (n : node) :
  fs_lookup f p = Some n -> fs_exists f p = true.
Proof. unfold fs_exists. now intros ->. Qed.

(** The error of a failed validation. *)
Definition validation_error (d : dict) : option string :=
  match dict_get d "valid", dict_get d "error" with
  | Some (PBool false), Some (PStr msg) => Some msg
  | _, _ => None
  end.

Lemma validate_missing (f : FS) (u : string) (d : Path) :
  fs_exists f (manifest_of d) = false \/ fs_exists f (bundle_of d) = false ->
  _validate_installation_impl f u d =
  invalid ("BrainDriveSettings: Missing required files: " ++
           join ", " (filter (fun file_path =>
                                negb (fs_exists f (path_join d file_path)))
                             ["package.json"; "dist/remoteEntry.js"])).
Proof.
  intros H. unfold _validate_installation_impl.
  cbn [filter]. rewrite manifest_path, bundle_path.
  destruct (fs_exists f (manifest_of d)), (fs_exists f (bundle_of d));
    cbn; try reflexivity.
  destruct H; discriminate.
Qed.

Lemma validate_present (f : FS) (u : string) (d : Path) :
  fs_exists f (manifest_of d) = true -> fs_exists f (bundle_of d) = true ->
  filter (fun file_path => negb (fs_exists f (path_join d file_path)))
         ["package.json"; "dist/remoteEntry.js"] = [].
Proof.
  intros H1 H2. cbn [filter]. rewrite manifest_path, bundle_path, H1, H2.
  reflexivity.
Qed.

Lemma py_in_raise (x : string) (v : pyval) (e : exn) :
  py_in x v = Raise e -> kind e = TypeError.
Proof. destruct v; cbn; intros H; inversion H; reflexivity. Qed.

Lemma first_missing_field_raise (l : list string) (v : pyval) (e : exn) :
  first_missing_field l v = Raise e -> kind e = TypeError.
Proof.
  induction l as [|x l IH]; cbn; [discriminate|].
  destruct (py_in x v) as [[|]|e'] eqn:Hin; cbn.
  - exact IH.
  - discriminate.
  - intros H. inversion H; subst. eapply py_in_raise; eauto.
Qed.

Lemma validate_after_files (f : FS) (u : string) (d : Path) (c : string) :
  fs_lookup f (manifest_of d) = Some (File c) ->
  fs_exists f (bundle_of d) = true ->
  _validate_installation_impl f u d =
  match json_loads c with
  | None =>
      invalid ("BrainDriveSettings: Invalid or missing package.json: "
               ++ json_error c)
  | Some package_data =>
      match first_missing_field ["name"; "version"] package_data with
      | Raise e => invalid (str_e e)
      | Ok (Some field) =>
          invalid ("BrainDriveSettings: package.json missing required field: "
                   ++ field)
      | Ok None =>
          match stat_size f (bundle_of d) with
          | Raise e => invalid (str_e e)
          | Ok sz =>
              if Z.eqb sz 0
              then invalid
                     "BrainDriveSettings: Bundle file (remoteEntry.js) is empty"
              else [("valid", PBool true)]
          end
      end
  end.
Proof.
  intros Hm Hb. unfold _validate_installation_impl. cbv zeta.
  rewrite (validate_present f u d (fs_exists_lookup _ _ _ Hm) Hb).
  cbn [truthy PStrs map]. rewrite manifest_path, bundle_path_nested.
  unfold json_load, read_text. rewrite Hm. cbn [rbind].
  destruct (json_loads c) as [v|]; cbn [rbind rcatch existsb exn_kind_eqb kind orb];
    [|reflexivity].
  destruct (first_missing_field ["name"; "version"] v) as [[fld|]|e] eqn:Hf;
    cbn [rbind rcatch]; try reflexivity.
  - destruct (stat_size f (bundle_of d)) as [sz|e]; cbn [rbind]; [|reflexivity].
    now destruct (Z.eqb sz 0).
  - rewrite (first_missing_field_raise _ _ _ Hf). reflexivity.
Qed.

(** C7.  Validation answers with the first failing condition, in this
    order: a required file ([package.json], [dist/remoteEntry.js]) is
    missing, and the error names every missing file; the manifest does not
    parse; the manifest lacks ["name"]; it lacks ["version"]; the bundle has
    size zero.  When none fails the installation is valid. *)
Theorem validate_first_failing_condition (f : FS) (u : string) (d : Path) :
  let result := _validate_installation_impl f u d in
  (fs_exists f (bundle_of d) = false ->
   exists msg, validation_error result = Some msg /\
               contains "dist/remoteEntry.js" msg = true) /\
  (fs_exists f (manifest_of d) = false ->
   exists msg, validation_error result = Some msg /\
               contains "package.json" msg = true) /\
  (forall c,
     fs_lookup f (manifest_of d) = Some (File c) ->
     fs_exists f (bundle_of d) = true ->
     (json_loads c = None ->
      result = invalid ("BrainDriveSettings: Invalid or missing package.json: "
                        ++ json_error c)) /\
     (forall v,
        json_loads c = Some v ->
        (py_in "name" v = Ok false ->
         result = invalid
           "BrainDriveSettings: package.json missing required field: name") /\
        (py_in "name" v = Ok true -> py_in "version" v = Ok false ->
         result = invalid
           "BrainDriveSettings: package.json missing required field: version") /\
        (py_in "name" v = Ok true -> py_in "version" v = Ok true ->
         (stat_size f (bundle_of d) = Ok 0%Z ->
          result = invalid
            "BrainDriveSettings: Bundle file (remoteEntry.js) is empty") /\
         (forall sz, stat_size f (bundle_of d) = Ok sz -> sz <> 0%Z ->
                     result = [("valid", PBool true)])))).
Proof.
  cbv zeta. split; [|split].
  - intros Hb. rewrite validate_missing by now right.
    cbn [filter]. rewrite manifest_path, bundle_path, Hb.
    destruct (fs_exists f (manifest_of d)); cbn [negb];
      eexists; (split; [reflexivity|vm_compute; reflexivity]).
  - intros Hm. rewrite validate_missing by now left.
    cbn [filter]. rewrite manifest_path, bundle_path, Hm.
    destruct (fs_exists f (bundle_of d)); cbn [negb];
      eexists; (split; [reflexivity|vm_compute; reflexivity]).
  - intros c Hm Hb. rewrite (validate_after_files f u d c Hm Hb). split.
    + now intros ->.
    + intros v ->. cbn [first_missing_field rbind]. split; [|split].
      * now intros ->.
      * now intros -> ->.
      * intros -> ->. cbn [rbind]. split.
        -- now intros ->.
        -- intros sz -> Hsz. destruct (Z.eqb_spec sz 0); [contradiction|].
           reflexivity.
Qed.

End FileProperties.

(** A checkout without its bundle is refused, and the error names
    [dist/remoteEntry.js]. *)
Lemma validate_first_failing_condition_witness :
  exists msg,
    validation_error
      (_validate_installation_impl (J := AsciiJson.codec)
         [(["p"; "package.json"], File "{}")] "u1" ["p"]) = Some msg /\
    contains "dist/remoteEntry.js" msg = true.
Proof.
  exact (proj1 (validate_first_failing_condition (J := AsciiJson.codec)
                  [(["p"; "package.json"], File "{}")] "u1" ["p"]) eq_refl).
Defined.


Section HealthProperties.
Context {J : JsonCodec}.


End HealthProperties.

(** An installation without bundle, manifest or assets is still reported
    healthy, with every finding negative. *)
Example health_of_empty_directory :
  _get_plugin_health_impl (J := AsciiJson.codec) [] "u1" ["p"] =
  [("healthy", PBool true);
   ("details", PDict [("bundle_exists", PBool false); ("bundle_size", PInt 0);
                      ("package_json_valid", PBool false);
                      ("assets_present", PBool false)])].
Proof. reflexivity. Qed.

(** A regular file in the place of [src] makes the inspection raise. *)
Example health_of_src_file :
  _get_plugin_health_impl (J := AsciiJson.codec)
    [(["p"; "src"], File "x")] "u1" ["p"] =
  [("healthy", PBool false); ("error", PStr "Not a directory: p/src")].
Proof. reflexivity. Qed.

(** ** The existence check *)

(** The next statement is not answered with an error. *)
Definition no_fault (fl : list (option string)) : Prop :=
  match fl with
  | Some _ :: _ => False
  | _ => True
  end.

(** The next [n] statements are not answered with an error. *)
Fixpoint quiet (n : nat) (fl : list (option string)) : Prop :=
  match n with
  | O => True
  | S n' => no_fault fl /\ quiet n' (tl fl)
  end.

Definition after_tick (w : World) : World :=
  with_db_faults w (tl (db_faults (db w))).

Lemma db_tick_ok (w : World) :
  no_fault (db_faults (db w)) -> db_tick w = (Ok tt, after_tick w).
Proof.
  unfold db_tick, after_tick. destruct w as [[c p fl] f io mg ck us un mf].
  cbn. destruct fl as [|[m|] fl]; cbn; intros H; [reflexivity|tauto|reflexivity].
Qed.

Lemma db_tick_fault (w : World) (msg : string) (rest : list (option string)) :
  db_faults (db w) = Some msg :: rest ->
  db_tick w = (Raise (Exn DatabaseError msg), with_db_faults w rest).
Proof. unfold db_tick. now intros ->. Qed.

(** The rows of [plugin] that the existence check selects. *)
Definition plugin_rows (u : string) (t : Tables) : list PluginRow :=
  filter (plugin_of u (pd_plugin_slug plugin_data)) (plugin t).

Definition existing_result (u : string) (t : Tables) : dict :=
  match plugin_rows u t with
  | r :: _ => [("exists", PBool true); ("plugin_id", PStr (p_id r))]
  | [] => [("exists", PBool false)]
  end.

Section ExistenceCheck.
Context {J : JsonCodec}.

Lemma check_existing_ok (u : string) (w : World) :
  no_fault (db_faults (db w)) ->
  _check_existing_plugin u w =
  (Ok (existing_result u (pending (db w))), after_tick w).
Proof.
  intros H. unfold _check_existing_plugin, try_except, query, bind.
  rewrite (db_tick_ok w H). unfold select_plugin_id, existing_result, plugin_rows.
  cbn [pending db after_tick with_db_faults with_db].
  destruct (filter _ _) as [|r l]; reflexivity.
Qed.

Lemma check_existing_fault (u : string) (w : World) (msg : string)
  (rest : list (option string)) :
  db_faults (db w) = Some msg :: rest ->
  _check_existing_plugin u w =
  (Ok [("exists", PBool false); ("error", PStr msg)], with_db_faults w rest).
Proof.
  intros H. unfold _check_existing_plugin, try_except, query, bind.
  now rewrite (db_tick_fault w msg rest H).
Qed.

(** C9.  When the database answers the existence query with an error, the
    check reports [exists: False] with the error attached; then
    [delete_plugin] fails with "Plugin not found for user",
    [get_plugin_status] reports [installed: False], and [install_plugin]
    goes on with the steps of a first install, whatever rows the store
    holds. *)
Theorem failed_read_is_masked (self : obj) (u msg : string)
  (rest : list (option string)) (w : World) :
  db_faults (db w) = Some msg :: rest ->
  let w' := with_db_faults w rest in
  _check_existing_plugin u w =
    (Ok [("exists", PBool false); ("error", PStr msg)], w') /\
  delete_plugin u w = (Ok (failure "Plugin not found for user"), w') /\
  get_plugin_status u w = (Ok [("installed", PBool false)], w') /\
  install_plugin self u w =
    try_except (install_after_check self u)
               (fun e => bind rollback (fun _ => ret (failure (str_e e)))) w'.
Proof.
  intros H w'. pose proof (check_existing_fault u w msg rest H) as E.
  repeat split.
  - exact E.
  - unfold delete_plugin, try_except, bind. now rewrite E.
  - unfold get_plugin_status, try_except, bind. now rewrite E.
  - unfold install_plugin, try_except, bind. now rewrite E.
Qed.

(** C2.  When the session sees a plugin row of the user and the existence
    query is answered, [install_plugin] fails with "Plugin already installed
    for user" and the row's id, and nothing but the consumed fault-script
    entry changes: the tables, the files and the managers are as before. *)
Theorem reinstall_is_refused (self : obj) (u : string) (w : World)
  (r : PluginRow) (others : list PluginRow) :
  plugin_rows u (pending (db w)) = r :: others ->
  no_fault (db_faults (db w)) ->
  install_plugin self u w =
    (Ok [("success", PBool false);
         ("error", PStr "Plugin already installed for user");
         ("plugin_id", PStr (p_id r))], after_tick w) /\
  pending (db (after_tick w)) = pending (db w) /\
  committed (db (after_tick w)) = committed (db w) /\
  fs (after_tick w) = fs w /\
  managers (after_tick w) = managers w /\
  plugin_rows u (pending (db (after_tick w))) = r :: others.
Proof.
  intros Hrow Hq. split; [|now repeat split].
  unfold install_plugin, try_except, bind.
  rewrite (check_existing_ok u w Hq). unfold existing_result.
  rewrite Hrow. reflexivity.
Qed.

End ExistenceCheck.

(** ** Worlds reached from the empty store *)

(** [u1] has installed through manager 0. *)
Definition installed_world : World :=
  Eval vm_compute in
    exec (install_plugin (J := AsciiJson.codec) 0 "u1") fresh_world.

(** The same world, with a database that fails the next statement. *)
Definition unreadable_world : World :=
  with_db_faults installed_world [Some "connection lost"].

Lemma failed_read_is_masked_witness :
  eval (delete_plugin "u1") unreadable_world =
    Ok (failure "Plugin not found for user") /\
  eval (get_plugin_status "u1") unreadable_world =
    Ok [("installed", PBool false)].
Proof.
  destruct (failed_read_is_masked (J := AsciiJson.codec) 0 "u1"
              "connection lost" [] unreadable_world eq_refl)
    as (_ & Hd & Hs & _).
  unfold eval. rewrite Hd, Hs. split; reflexivity.
Defined.

(** With the read failing, a second install of [u1] copies the files again
    and is stopped only by the check of [install_for_user]. *)
Example failed_read_install_proceeds :
  eval (install_plugin (J := AsciiJson.codec) 0 "u1") unreadable_world =
    Ok (failure "Plugin already installed for user") /\
  eval (install_plugin (J := AsciiJson.codec) 1 "u1") unreadable_world =
    Ok (failure "Plugin already exists for user").
Proof. split; vm_compute; reflexivity. Qed.

Lemma reinstall_is_refused_witness :
  eval (install_plugin (J := AsciiJson.codec) 0 "u1") installed_world =
    Ok [("success", PBool false);
        ("error", PStr "Plugin already installed for user");
        ("plugin_id", PStr "u1_BrainDriveSettings")] /\
  List.length (plugin_rows "u1"
                 (pending (db (exec (install_plugin (J := AsciiJson.codec)
                                       0 "u1") installed_world)))) = 1%nat.
Proof.
  destruct (reinstall_is_refused (J := AsciiJson.codec) 0 "u1" installed_world
              (plugin_row (J := AsciiJson.codec) "u1" "2025-03-06 12:00:00") []
              eq_refl I) as (H & _ & _ & _ & _ & Hrows).
  unfold eval, exec. rewrite H. cbn [fst snd]. rewrite Hrows.
  split; reflexivity.
Defined.

(** ** Frames *)

(** [w'] agrees with [w] on an observation. *)
Definition same_on {X} (proj : World -> X) (w w' : World) : Prop :=
  proj w' = proj w.

#[export] Instance same_on_frame {X} (proj : World -> X) : Frame (same_on proj).
Proof. split; unfold same_on; intros; congruence. Qed.

Definition any_change : Tables -> Tables -> Prop := fun _ _ => True.

#[export] Instance any_delete : DeleteStmts any_change.
Proof. split; intros; exact I. Qed.
#[export] Instance any_defs : DefStmts any_change.
Proof. intros dd now t a t' _ _. exact I. Qed.
#[export] Instance any_insts : InstStmts any_change.
Proof. intros id u now d t a t' _ _. exact I. Qed.
#[export] Instance any_rows : RowStmts any_change.
Proof. split; intros; exact I. Qed.
#[export] Instance any_import : ImportStmts any_change.
Proof. split; intros; exact I. Qed.

Definition committed_of (w : World) : Tables := committed (db w).

#[export] Instance committed_db : DbFrame (same_on committed_of) any_change.
Proof. split; [apply tick_of_faults|]; intros; reflexivity. Qed.
#[export] Instance committed_rollback : RollbackFrame (same_on committed_of).
Proof. intros w. reflexivity. Qed.
#[export] Instance committed_io : IoFrame (same_on committed_of).
Proof. intros w f fl. reflexivity. Qed.
#[export] Instance committed_obj : ObjFrame (same_on committed_of).
Proof. split; intros; reflexivity. Qed.

#[export] Instance fs_db : DbFrame (same_on fs) any_change.
Proof. split; [apply tick_of_faults|]; intros; reflexivity. Qed.
#[export] Instance fs_commit : CommitFrame (same_on fs).
Proof.
  intros w. unfold commit, bind, db_tick.
  destruct (db_faults (db w)) as [|[m|] fl]; reflexivity.
Qed.
#[export] Instance fs_rollback : RollbackFrame (same_on fs).
Proof. intros w. reflexivity. Qed.
#[export] Instance fs_obj : ObjFrame (same_on fs).
Proof. split; intros; reflexivity. Qed.

#[export] Instance db_io : IoFrame (same_on db).
Proof. intros w f fl. reflexivity. Qed.
#[export] Instance db_obj : ObjFrame (same_on db).
Proof. split; intros; reflexivity. Qed.

(** The two settings tables. *)
Definition settings_of (t : Tables) : list DefRow * list InstRow :=
  (settings_definitions t, settings_instances t).

Definition same_settings (t t' : Tables) : Prop :=
  settings_of t' = settings_of t.

(** From a session without uncommitted settings rows, the settings tables
    stay as they are, in the session and in the committed store. *)
Definition keeps_settings (w w' : World) : Prop :=
  settings_of (pending (db w)) = settings_of (committed (db w)) ->
  settings_of (pending (db w')) = settings_of (pending (db w)) /\
  settings_of (committed (db w')) = settings_of (committed (db w)).

#[export] Instance keeps_settings_frame : Frame keeps_settings.
Proof.
  split; unfold keeps_settings.
  - intros w H. now split.
  - intros a b c Hab Hbc H. destruct (Hab H) as [H1 H2].
    destruct Hbc as [H3 H4]; [congruence|]. split; congruence.
Qed.

#[export] Instance keeps_settings_db : DbFrame keeps_settings same_settings.
Proof.
  split; [apply tick_of_faults|]; unfold keeps_settings, same_settings.
  - intros w fl H. now split.
  - intros w t Ht H. cbn. now split.
Qed.

#[export] Instance keeps_settings_commit : CommitFrame keeps_settings.
Proof.
  intros w H. unfold commit, bind, db_tick.
  destruct (db_faults (db w)) as [|[m|] fl]; cbn; split; congruence.
Qed.

#[export] Instance keeps_settings_rollback : RollbackFrame keeps_settings.
Proof. intros w H. cbn. split; congruence. Qed.

#[export] Instance same_settings_delete : DeleteStmts same_settings.
Proof.
  split; unfold same_settings, delete_modules, delete_plugin_row;
    intros; match goal with H : Ok _ = Ok _ |- _ => inversion H end;
    reflexivity.
Qed.

(** ** Running statements *)

Lemma statement_ok {A} (f : Tables -> res (A * Tables)) (w : World) :
  no_fault (db_faults (db w)) ->
  statement f w =
  match f (pending (db w)) with
  | Ok (a, t) => (Ok a, with_pending (after_tick w) t)
  | Raise e => (Raise e, after_tick w)
  end.
Proof.
  intros H. unfold statement, bind. rewrite (db_tick_ok w H).
  cbn [pending db after_tick with_db_faults with_db].
  destruct (f (pending (db w))) as [[a t]|e]; reflexivity.
Qed.

Lemma statement_fault {A} (f : Tables -> res (A * Tables)) (w : World)
  (msg : string) (rest : list (option string)) :
  db_faults (db w) = Some msg :: rest ->
  statement f w = (Raise (Exn DatabaseError msg), with_db_faults w rest).
Proof.
  intros H. unfold statement, bind. now rewrite (db_tick_fault w msg rest H).
Qed.

Lemma query_ok {A} (f : Tables -> res A) (w : World) :
  no_fault (db_faults (db w)) ->
  query f w = (f (pending (db w)), after_tick w).
Proof.
  intros H. unfold query, bind. rewrite (db_tick_ok w H). reflexivity.
Qed.

(** The world after a commit that is answered. *)
Definition after_commit (w : World) : World :=
  with_db (after_tick w)
    {| committed := pending (db w); pending := pending (db w);
       db_faults := tl (db_faults (db w)) |}.

Lemma commit_ok (w : World) :
  no_fault (db_faults (db w)) -> commit w = (Ok tt, after_commit w).
Proof.
  intros H. unfold commit, bind. rewrite (db_tick_ok w H). reflexivity.
Qed.

Lemma commit_fault (w : World) (msg : string) (rest : list (option string)) :
  db_faults (db w) = Some msg :: rest ->
  commit w = (Raise (Exn DatabaseError msg), with_db_faults w rest).
Proof.
  intros H. unfold commit, bind. now rewrite (db_tick_fault w msg rest H).
Qed.

(** A commit is answered or it raises and leaves the committed store. *)
Lemma commit_cases (w : World) :
  commit w = (Ok tt, after_commit w) \/
  exists e w', commit w = (Raise e, w') /\ committed (db w') = committed (db w).
Proof.
  destruct (db_faults (db w)) as [|[m|] fl] eqn:E.
  - left. apply commit_ok. now rewrite E.
  - right. eexists _, _. split; [apply (commit_fault w m fl E)|reflexivity].
  - left. apply commit_ok. now rewrite E.
Qed.

Lemma quiet_S (n : nat) (w : World) :
  quiet (S n) (db_faults (db w)) ->
  no_fault (db_faults (db w)) /\ quiet n (db_faults (db (after_tick w))).
Proof. cbn. tauto. Qed.

(** The tables a successful delete leaves. *)
Definition without_plugin (u pid : string) (t : Tables) : Tables :=
  {| plugin := filter (fun x => negb (plugin_with_id u pid x)) (plugin t);
     module := filter (fun x => negb (module_of u pid x)) (module t);
     settings_definitions := settings_definitions t;
     settings_instances := settings_instances t |}.

Definition deleted_count (u pid : string) (t : Tables) : Z :=
  Z.of_nat (List.length (filter (module_of u pid) (module t))).

Lemma delete_database_records_ok (u pid : string) (w : World) :
  quiet 2 (db_faults (db w)) ->
  _delete_database_records u pid w =
  (Ok [("success", PBool true);
       ("deleted_modules", PInt (deleted_count u pid (pending (db w))))],
   with_pending (after_tick (after_tick w))
                (without_plugin u pid (pending (db w)))).
Proof.
  intros Hq. apply quiet_S in Hq as [H1 Hq]. apply quiet_S in Hq as [H2 _].
  unfold _delete_database_records, try_except, bind.
  rewrite (statement_ok _ w H1). cbn [delete_modules].
  rewrite statement_ok by exact H2. reflexivity.
Qed.

(** ** Uninstall *)

Definition succeeded (d : dict) : bool :=
  truthy (dict_get_default d "success" PNone).

Lemma delete_plugin_ok (u : string) (w : World) (r : PluginRow)
  (others : list PluginRow) :
  plugin_rows u (pending (db w)) = r :: others ->
  quiet 4 (db_faults (db w)) ->
  delete_plugin u w =
  (Ok [("success", PBool true);
       ("deleted_modules", PInt (deleted_count u (p_id r) (pending (db w))))],
   after_commit
     (with_pending (after_tick (after_tick (after_tick w)))
                   (without_plugin u (p_id r) (pending (db w))))).
Proof.
  intros Hrow Hq. apply quiet_S in Hq as [H1 Hq].
  unfold delete_plugin, try_except, bind.
  rewrite (check_existing_ok u w H1). unfold existing_result. rewrite Hrow.
  cbn [getitem dict_get String.eqb Ascii.eqb Bool.eqb ret truthy negb sql_text].
  rewrite (delete_database_records_ok u (p_id r) (after_tick w))
    by (cbn in Hq |- *; tauto).
  cbn [getitem dict_get String.eqb Ascii.eqb Bool.eqb ret truthy].
  rewrite commit_ok; [reflexivity|].
  cbn in Hq |- *. tauto.
Qed.

Lemma delete_plugin_absent (u : string) (w : World) :
  plugin_rows u (pending (db w)) = [] ->
  exists w',
    delete_plugin u w = (Ok (failure "Plugin not found for user"), w') /\
    pending (db w') = pending (db w) /\ committed (db w') = committed (db w).
Proof.
  intros Hrow. unfold delete_plugin, try_except, bind.
  destruct (db_faults (db w)) as [|[m|] fl] eqn:E.
  - rewrite check_existing_ok by now rewrite E.
    unfold existing_result. rewrite Hrow. eexists. now repeat split.
  - rewrite (check_existing_fault u w m fl E). eexists. now repeat split.
  - rewrite check_existing_ok by now rewrite E.
    unfold existing_result. rewrite Hrow. eexists. now repeat split.
Qed.

(** The plugin delete failing after the module delete. *)
Lemma delete_plugin_second_fails (u : string) (w : World) (r : PluginRow)
  (others : list PluginRow) (msg : string) (rest : list (option string)) :
  plugin_rows u (pending (db w)) = r :: others ->
  db_faults (db w) = None :: None :: Some msg :: rest ->
  exists w',
    delete_plugin u w = (Ok (failure msg), w') /\
    module (pending (db w')) =
      filter (fun x => negb (module_of u (p_id r) x)) (module (pending (db w))) /\
    plugin (pending (db w')) = plugin (pending (db w)) /\
    committed (db w') = committed (db w).
Proof.
  intros Hrow Hf. unfold delete_plugin, try_except, bind.
  rewrite check_existing_ok by now rewrite Hf.
  unfold existing_result. rewrite Hrow.
  cbn [getitem dict_get String.eqb Ascii.eqb Bool.eqb ret truthy negb sql_text].
  unfold _delete_database_records, try_except, bind.
  rewrite statement_ok by (cbn; now rewrite Hf).
  cbn [delete_modules].
  erewrite statement_fault by (cbn; rewrite Hf; reflexivity).
  cbn. eexists. now repeat split.
Qed.

(** Without a success nothing is committed. *)
Lemma delete_plugin_commits_on_success (u : string) (w : World) :
  (exists d, eval (delete_plugin u) w = Ok d /\ succeeded d = true) \/
  committed (db (exec (delete_plugin u) w)) = committed (db w).
Proof.
  unfold eval, exec, delete_plugin, try_except, bind.
  pose proof (pres_check_existing_plugin (R := same_on committed_of) u w) as P1.
  destruct (_check_existing_plugin u w) as [[d|e] w1]; cbn [fst snd] in *;
    [|right; exact P1].
  destruct (getitem d "exists" w1) as [[ex|e] w1'] eqn:E1;
    [|unfold getitem in E1; destruct (dict_get d "exists"); inversion E1;
      subst; right; exact P1].
  assert (w1' = w1) as -> by
    (unfold getitem in E1; destruct (dict_get d "exists"); now inversion E1).
  destruct (truthy ex); cbn [negb]; [|right; exact P1].
  destruct (getitem d "plugin_id" w1) as [[pid|e] w1'] eqn:E2;
    [|unfold getitem in E2; destruct (dict_get d "plugin_id"); inversion E2;
      subst; right; exact P1].
  assert (w1' = w1) as -> by
    (unfold getitem in E2; destruct (dict_get d "plugin_id"); now inversion E2).
  pose proof (pres_delete_database_records (R := same_on committed_of)
                u (sql_text pid) w1) as P2.
  destruct (_delete_database_records u (sql_text pid) w1) as [[dr|e] w2];
    cbn [fst snd] in *;
    [|right; unfold same_on, committed_of in *; cbn; congruence].
  assert (P3 : committed (db w2) = committed (db w))
    by (unfold same_on, committed_of in *; congruence).
  unfold getitem. destruct (dict_get dr "success") as [s|] eqn:Es;
    cbn [ret raise fst snd]; [|right; exact P3].
  destruct (truthy s) eqn:Ts; [|right; exact P3].
  destruct (commit_cases w2) as [Hc|(e & w' & Hc & Hw')]; rewrite Hc;
    cbn [fst snd].
  - left. exists dr. split; [reflexivity|].
    unfold succeeded, dict_get_default. now rewrite Es.
  - right. cbn. congruence.
Qed.

(** C4.  [delete_plugin] never touches the files; from a session without
    uncommitted settings rows it leaves both settings tables as they are,
    in the session and in the committed store; it commits only when it
    reports success.  For a user whose plugin row [r] the session sees, with
    the four statements answered, it deletes the module rows of
    [(u, p_id r)] and the plugin row and commits exactly that; when the
    plugin delete is refused, the module rows are already gone from the open
    transaction, the plugin row is still there and nothing is committed.
    For a user without a plugin row it fails with "Plugin not found for
    user" and changes no table. *)
Theorem uninstall_deletes_modules_then_plugin (u : string) (w : World) :
  let w' := exec (delete_plugin u) w in
  fs w' = fs w /\
  (settings_of (pending (db w)) = settings_of (committed (db w)) ->
   settings_of (pending (db w')) = settings_of (pending (db w)) /\
   settings_of (committed (db w')) = settings_of (committed (db w))) /\
  ((exists d, eval (delete_plugin u) w = Ok d /\ succeeded d = true) \/
   committed (db w') = committed (db w)) /\
  (forall r others,
     plugin_rows u (pending (db w)) = r :: others ->
     quiet 4 (db_faults (db w)) ->
     eval (delete_plugin u) w =
       Ok [("success", PBool true);
           ("deleted_modules",
            PInt (deleted_count u (p_id r) (pending (db w))))] /\
     pending (db w') = without_plugin u (p_id r) (pending (db w)) /\
     committed (db w') = without_plugin u (p_id r) (pending (db w))) /\
  (forall r others msg rest,
     plugin_rows u (pending (db w)) = r :: others ->
     db_faults (db w) = None :: None :: Some msg :: rest ->
     eval (delete_plugin u) w = Ok (failure msg) /\
     module (pending (db w')) =
       filter (fun x => negb (module_of u (p_id r) x))
              (module (pending (db w))) /\
     plugin (pending (db w')) = plugin (pending (db w)) /\
     committed (db w') = committed (db w)) /\
  (plugin_rows u (pending (db w)) = [] ->
   eval (delete_plugin u) w = Ok (failure "Plugin not found for user") /\
   pending (db w') = pending (db w) /\
   committed (db w') = committed (db w)).
Proof.
  cbv zeta. split; [|split; [|split; [|split; [|split]]]].
  - exact (pres_delete_plugin (R := same_on fs) u w).
  - exact (pres_delete_plugin (R := keeps_settings) u w).
  - exact (delete_plugin_commits_on_success u w).
  - intros r others Hrow Hq. unfold eval, exec.
    rewrite (delete_plugin_ok u w r others Hrow Hq). now repeat split.
  - intros r others msg rest Hrow Hf. unfold eval, exec.
    destruct (delete_plugin_second_fails u w r others msg rest Hrow Hf)
      as (w' & -> & H). exact (conj eq_refl H).
  - intros Hrow. unfold eval, exec.
    destruct (delete_plugin_absent u w Hrow) as (w' & -> & H).
    exact (conj eq_refl H).
Qed.

(** After its install, [u1] is uninstalled: one plugin row and three module
    rows go, three definitions and three instances stay. *)
Lemma uninstall_deletes_modules_then_plugin_witness :
  let w' := exec (delete_plugin "u1") installed_world in
  eval (delete_plugin "u1") installed_world =
    Ok [("success", PBool true); ("deleted_modules", PInt 3)] /\
  plugin (committed (db w')) = [] /\
  module (committed (db w')) = [] /\
  List.length (settings_definitions (committed (db w'))) = 3%nat /\
  List.length (settings_instances (committed (db w'))) = 3%nat.
Proof.
  destruct (uninstall_deletes_modules_then_plugin "u1" installed_world)
    as (_ & _ & _ & H & _).
  destruct (H (plugin_row (J := AsciiJson.codec) "u1" "2025-03-06 12:00:00") []
              eq_refl (conj I (conj I (conj I (conj I I)))))
    as (Hr & _ & Hc).
  cbv zeta. rewrite Hr, Hc. repeat split.
Defined.

(** ** Settings definitions *)

Definition definition_ids : list string :=
  ["theme_settings"; "ollama_servers_settings"; "general_settings"].

Definition defs_of (t : Tables) : list string :=
  map d_id (settings_definitions t).

(** Relative to the definitions [base] of some earlier committed store: the
    committed rows are [base] and rows [a] of this adapter, the session sees
    further rows [e] of this adapter, and no id occurs twice. *)
Definition defs_inv (base : list DefRow) (w : World) : Prop :=
  exists a e,
    settings_definitions (committed (db w)) = (base ++ a)%list /\
    settings_definitions (pending (db w)) = (base ++ a ++ e)%list /\
    Forall (fun r => In (d_id r) definition_ids) (a ++ e) /\
    NoDup (map d_id (base ++ a ++ e)).

Definition keeps_defs (w w' : World) : Prop :=
  forall base, defs_inv base w -> defs_inv base w'.

(** A statement leaves the definitions or appends one of this adapter's,
    under a new id. *)
Definition def_step (t t' : Tables) : Prop :=
  settings_definitions t' = settings_definitions t \/
  exists r, settings_definitions t' = (settings_definitions t ++ [r])%list /\
            In (d_id r) definition_ids /\ ~ In (d_id r) (defs_of t).

#[export] Instance keeps_defs_frame : Frame keeps_defs.
Proof. split; unfold keeps_defs; auto. Qed.

Lemma NoDup_app_l {A} (l l' : list A) : NoDup (l ++ l') -> NoDup l.
Proof.
  induction l as [|x l IH]; cbn; intros H; [constructor|].
  inversion H; subst. constructor; [|auto].
  intros Hin. apply H2. apply in_or_app. now left.
Qed.

Lemma NoDup_snoc {A} (l : list A) (x : A) :
  NoDup l -> ~ In x l -> NoDup (l ++ [x]).
Proof.
  induction l as [|y l IH]; cbn; intros Hn Hx.
  - constructor; [tauto|constructor].
  - inversion Hn; subst. constructor.
    + rewrite in_app_iff. cbn. intros [H|[H|[]]]; [tauto|].
      subst. tauto.
    + apply IH; tauto.
Qed.

#[export] Instance keeps_defs_db : DbFrame keeps_defs def_step.
Proof.
  split; [apply tick_of_faults|]; unfold keeps_defs.
  - intros w fl base H. exact H.
  - intros w t Hst base (a & e & Hc & Hp & Hall & Hnd).
    destruct Hst as [Hsame|(r & Happ & Hid & Hnew)].
    + exists a, e. cbn. rewrite Hsame. auto.
    + exists a, (e ++ [r])%list. cbn. rewrite Happ, Hp.
      unfold defs_of in Hnew. rewrite Hp in Hnew.
      repeat split.
      * exact Hc.
      * now rewrite <- !app_assoc.
      * rewrite app_assoc. apply Forall_app. split; [exact Hall|].
        constructor; [exact Hid|constructor].
      * rewrite !app_assoc, map_app. cbn [map].
        apply NoDup_snoc; [now rewrite <- app_assoc|].
        now rewrite <- app_assoc.
Qed.

#[export] Instance keeps_defs_commit : CommitFrame keeps_defs.
Proof.
  intros w base (a & e & Hc & Hp & Hall & Hnd).
  unfold commit, bind, db_tick.
  destruct (db_faults (db w)) as [|[m|] fl]; cbn [snd].
  - exists (a ++ e)%list, []. cbn [with_db db committed pending].
    rewrite !app_nil_r. auto.
  - exists a, e. auto.
  - exists (a ++ e)%list, []. cbn [with_db with_db_faults db committed pending].
    rewrite !app_nil_r. auto.
Qed.

#[export] Instance keeps_defs_rollback : RollbackFrame keeps_defs.
Proof.
  intros w base (a & e & Hc & Hp & Hall & Hnd). unfold rollback.
  cbn [snd with_db db committed pending].
  exists a, []. rewrite !app_nil_r. repeat split; auto.
  - apply Forall_app in Hall. tauto.
  - rewrite app_assoc, map_app in Hnd. now apply NoDup_app_l in Hnd.
Qed.

#[export] Instance keeps_defs_io : IoFrame keeps_defs.
Proof. intros w f fl base H. exact H. Qed.

#[export] Instance keeps_defs_obj : ObjFrame keeps_defs.
Proof. split; intros; intros base H; exact H. Qed.

Lemma existsb_d_id (id : string) (l : list DefRow) :
  existsb (fun x => String.eqb (d_id x) id) l = false ->
  ~ In id (map d_id l).
Proof.
  induction l as [|x l IH]; cbn; [tauto|].
  destruct (String.eqb_spec (d_id x) id); cbn; [discriminate|].
  intros H [Hx|Hx]; [congruence|]. now apply IH.
Qed.

#[export] Instance def_step_defs : DefStmts def_step.
Proof.
  intros dd now t a t' Hin. unfold insert_definition.
  destruct (existsb _ _) eqn:E; [discriminate|].
  intros H. inversion H; subst. right. exists (definition_row dd now). cbn.
  split; [reflexivity|]. split.
  - unfold PLUGIN_SETTINGS_DEFINITIONS in Hin. cbn in Hin.
    destruct Hin as [<-|[<-|[<-|[]]]]; cbn; tauto.
  - now apply existsb_d_id.
Qed.

#[export] Instance def_step_insts : InstStmts def_step.
Proof.
  intros id u now d t a t' _. unfold insert_instance.
  destruct (existsb _ _); [discriminate|].
  intros H. inversion H; subst. now left.
Qed.

#[export] Instance def_step_rows : RowStmts def_step.
Proof.
  split; intros r t a t'; unfold insert_plugin, insert_module;
    destruct (existsb _ _); try discriminate;
    intros H; inversion H; subst; now left.
Qed.

#[export] Instance def_step_import : ImportStmts def_step.
Proof.
  split; unfold update_plugin_config, update_module_config; intros;
    match goal with H : Ok _ = Ok _ |- _ => inversion H end; now left.
Qed.

#[export] Instance def_step_delete : DeleteStmts def_step.
Proof.
  split; unfold delete_modules, delete_plugin_row; intros;
    match goal with H : Ok _ = Ok _ |- _ => inversion H end; now left.
Qed.

(** *** Create-if-absent on a database that answers *)

Lemma db_tick_nil (w : World) :
  db_faults (db w) = [] -> db_tick w = (Ok tt, w).
Proof. unfold db_tick. now intros ->. Qed.

Lemma query_nil {A} (f : Tables -> res A) (w : World) :
  db_faults (db w) = [] -> query f w = (f (pending (db w)), w).
Proof. intros H. unfold query, bind. now rewrite (db_tick_nil w H). Qed.

Lemma statement_nil {A} (f : Tables -> res (A * Tables)) (w : World) :
  db_faults (db w) = [] ->
  statement f w =
  match f (pending (db w)) with
  | Ok (a, t) => (Ok a, with_pending w t)
  | Raise e => (Raise e, w)
  end.
Proof. intros H. unfold statement, bind. now rewrite (db_tick_nil w H). Qed.

Definition def_present (id : string) (t : Tables) : bool :=
  existsb (fun x => String.eqb (d_id x) id) (settings_definitions t).

Definition add_definition (r : DefRow) (t : Tables) : Tables :=
  {| plugin := plugin t; module := module t;
     settings_definitions := (settings_definitions t ++ [r])%list;
     settings_instances := settings_instances t |}.

(** Create-if-absent, keyed by the definition's id. *)
Definition ensure_def (t : Tables) (r : DefRow) : Tables :=
  if def_present (d_id r) t then t else add_definition r t.

Definition ensured (now : string) (t : Tables) : Tables :=
  fold_left ensure_def
            (map (fun dd => definition_row dd now) PLUGIN_SETTINGS_DEFINITIONS) t.

Lemma filter_unique_id (id : string) (l : list DefRow) :
  NoDup (map d_id l) ->
  map d_id (filter (fun x => String.eqb (d_id x) id) l) =
  if existsb (fun x => String.eqb (d_id x) id) l then [id] else [].
Proof.
  induction l as [|x l IH]; cbn; [reflexivity|].
  intros Hnd. inversion Hnd as [|? ? Hx Hl]; subst.
  destruct (String.eqb_spec (d_id x) id) as [E|E]; cbn.
  - rewrite (IH Hl). subst id.
    destruct (existsb _ l) eqn:Ex; [|reflexivity].
    exfalso. apply Hx. apply existsb_exists in Ex as (y & Hy & Ey).
    apply String.eqb_eq in Ey. rewrite <- Ey. now apply in_map.
  - exact (IH Hl).
Qed.

Lemma select_definition_id_unique (id : string) (t : Tables) :
  NoDup (defs_of t) ->
  select_definition_id id t =
  Ok (if def_present id t then Some id else None).
Proof.
  intros H. unfold select_definition_id, def_present.
  rewrite (filter_unique_id id _ H). now destruct (existsb _ _).
Qed.

Lemma ensure_def_nodup (t : Tables) (r : DefRow) :
  NoDup (defs_of t) -> NoDup (defs_of (ensure_def t r)).
Proof.
  intros H. unfold ensure_def, def_present.
  destruct (existsb _ _) eqn:E; [exact H|].
  unfold defs_of, add_definition. cbn. rewrite map_app. cbn.
  apply NoDup_snoc; [exact H|]. now apply existsb_d_id.
Qed.

Section EnsureDefinitions.
Context {J : JsonCodec}.

(** One round of the loop of [_ensure_settings_definitions]. *)
Lemma ensure_round (dd : DefinitionData) (w : World) :
  dd_id dd <> EmptyString ->
  db_faults (db w) = [] ->
  NoDup (defs_of (pending (db w))) ->
  exists w',
    bind (query (select_definition_id (dd_id dd)))
         (fun existing =>
            if negb (truthy (opt_val existing)) then
              bind current_time
                   (fun now =>
                      statement (insert_definition (definition_row dd now)))
            else ret tt) w = (Ok tt, w') /\
    pending (db w') =
      ensure_def (pending (db w)) (definition_row dd (clock w)) /\
    committed (db w') = committed (db w) /\
    db_faults (db w') = [] /\ clock w' = clock w.
Proof.
  intros Hne Hf Hnd. unfold bind at 1. rewrite (query_nil _ w Hf).
  rewrite (select_definition_id_unique _ _ Hnd).
  unfold ensure_def. cbn [d_id definition_row].
  destruct (def_present (dd_id dd) (pending (db w))) eqn:E.
  - cbn [opt_val truthy].
    destruct (String.eqb_spec (dd_id dd) EmptyString); [contradiction|].
    cbn. exists w. now repeat split.
  - cbn [opt_val truthy negb]. unfold bind, current_time.
    rewrite (statement_nil _ w Hf). unfold insert_definition.
    cbn [d_id definition_row]. unfold def_present in E. rewrite E.
    eexists. split; [reflexivity|]. now repeat split.
Qed.

Lemma ensure_loop (l : list DefinitionData) :
  (forall dd, In dd l -> dd_id dd <> EmptyString) ->
  forall w,
    db_faults (db w) = [] ->
    NoDup (defs_of (pending (db w))) ->
    exists w',
      for_each l
        (fun (_ : unit) definition_data =>
           bind (query (select_definition_id (dd_id definition_data)))
                (fun existing =>
                   if negb (truthy (opt_val existing)) then
                     bind current_time
                          (fun now =>
                             statement (insert_definition
                                          (definition_row definition_data
                                                          now)))
                   else ret tt)) tt w = (Ok tt, w') /\
      pending (db w') =
        fold_left ensure_def (map (fun dd => definition_row dd (clock w)) l)
                  (pending (db w)) /\
      committed (db w') = committed (db w) /\
      db_faults (db w') = [] /\ clock w' = clock w.
Proof.
  induction l as [|dd l IH]; intros Hl w Hf Hnd; cbn [for_each map fold_left].
  - exists w. now repeat split.
  - pose proof (Hl dd (or_introl eq_refl)) as Hne.
    destruct (ensure_round dd w Hne Hf Hnd)
      as (w1 & E1 & Hp1 & Hc1 & Hf1 & Hk1).
    unfold bind at 1. rewrite E1.
    destruct (IH (fun d Hd => Hl d (or_intror Hd)) w1 Hf1) as
      (w2 & E2 & Hp2 & Hc2 & Hf2 & Hk2).
    { rewrite Hp1. now apply ensure_def_nodup. }
    exists w2. split; [exact E2|].
    rewrite Hp2, Hp1, Hk1, Hc2, Hk2. now repeat split.
Qed.

Lemma ensure_settings_definitions_ok (w : World) :
  db_faults (db w) = [] ->
  NoDup (defs_of (pending (db w))) ->
  exists w',
    _ensure_settings_definitions w = (Ok [("success", PBool true)], w') /\
    pending (db w') = ensured (clock w) (pending (db w)) /\
    committed (db w') = committed (db w) /\
    db_faults (db w') = [] /\ clock w' = clock w.
Proof.
  intros Hf Hnd.
  destruct (ensure_loop PLUGIN_SETTINGS_DEFINITIONS) with (w := w)
    as (w' & E & H); [|exact Hf|exact Hnd|].
  { intros dd [<-|[<-|[<-|[]]]]; cbn; discriminate. }
  exists w'. split; [|exact H].
  unfold _ensure_settings_definitions, try_except, bind at 1.
  now rewrite E.
Qed.

End EnsureDefinitions.

Lemma def_present_add (id : string) (r : DefRow) (t : Tables) :
  def_present id (add_definition r t) =
  def_present id t || String.eqb (d_id r) id.
Proof.
  unfold def_present, add_definition. cbn. rewrite existsb_app. cbn.
  now rewrite orb_false_r.
Qed.

Lemma def_present_ensure (id : string) (r : DefRow) (t : Tables) :
  def_present id (ensure_def t r) =
  def_present id t || String.eqb (d_id r) id.
Proof.
  unfold ensure_def. destruct (def_present (d_id r) t) eqn:E.
  - destruct (String.eqb_spec (d_id r) id) as [<-|]; [|now rewrite orb_false_r].
    now rewrite E.
  - apply def_present_add.
Qed.

Lemma ensure_def_grows (r : DefRow) (t : Tables) :
  exists added,
    settings_definitions (ensure_def t r) =
      (settings_definitions t ++ added)%list /\
    Forall (fun x => x = r /\ def_present (d_id x) t = false) added.
Proof.
  unfold ensure_def. destruct (def_present (d_id r) t) eqn:E.
  - exists []. now rewrite app_nil_r.
  - exists [r]. split; [reflexivity|]. now repeat constructor.
Qed.

(** What [ensured] adds: rows of this adapter whose ids were absent. *)
Lemma ensured_grows (now : string) (t : Tables) :
  exists added,
    settings_definitions (ensured now t) =
      (settings_definitions t ++ added)%list /\
    Forall (fun r => In (d_id r) definition_ids /\
                     def_present (d_id r) t = false) added.
Proof.
  unfold ensured. cbn [map PLUGIN_SETTINGS_DEFINITIONS fold_left].
  match goal with
  | |- context [ensure_def (ensure_def (ensure_def t ?a) ?b) ?c] =>
      set (r1 := a); set (r2 := b); set (r3 := c)
  end.
  destruct (ensure_def_grows r1 t) as (a1 & E1 & F1).
  destruct (ensure_def_grows r2 (ensure_def t r1)) as (a2 & E2 & F2).
  destruct (ensure_def_grows r3 (ensure_def (ensure_def t r1) r2))
    as (a3 & E3 & F3).
  exists (a1 ++ a2 ++ a3)%list. split.
  - rewrite E3, E2, E1. now rewrite <- !app_assoc.
  - rewrite !Forall_app. repeat split.
    + eapply Forall_impl; [|exact F1]. intros x [-> H]. split; [|exact H].
      cbn. tauto.
    + eapply Forall_impl; [|exact F2]. intros x [-> H].
      rewrite def_present_ensure in H. apply orb_false_iff in H as [H _].
      split; [cbn; tauto|exact H].
    + eapply Forall_impl; [|exact F3]. intros x [-> H].
      rewrite !def_present_ensure in H.
      apply orb_false_iff in H as [H _]. apply orb_false_iff in H as [H _].
      split; [cbn; tauto|exact H].
Qed.

Lemma ensured_present (now id : string) (t : Tables) :
  In id definition_ids -> def_present id (ensured now t) = true.
Proof.
  unfold ensured. cbn [map PLUGIN_SETTINGS_DEFINITIONS fold_left].
  rewrite !def_present_ensure.
  intros [<-|[<-|[<-|[]]]]; cbn;
    repeat rewrite ?orb_true_r, ?orb_true_l; reflexivity.
Qed.

Lemma ensured_when_present (now : string) (t : Tables) :
  (forall id, In id definition_ids -> def_present id t = true) ->
  ensured now t = t.
Proof.
  intros H. unfold ensured, ensure_def.
  cbn [map PLUGIN_SETTINGS_DEFINITIONS fold_left].
  cbn [d_id dd_id definition_row].
  rewrite (H "theme_settings") by (cbn; tauto).
  rewrite (H "ollama_servers_settings") by (cbn; tauto).
  rewrite (H "general_settings") by (cbn; tauto).
  reflexivity.
Qed.

Lemma ensured_nodup (now : string) (t : Tables) :
  NoDup (defs_of t) -> NoDup (defs_of (ensured now t)).
Proof.
  intros H. unfold ensured. cbn [map PLUGIN_SETTINGS_DEFINITIONS fold_left].
  now repeat apply ensure_def_nodup.
Qed.

(** *** Any sequence of verbs *)

Inductive verb :=
| Install (self : obj) (user_id : string)
| Uninstall (user_id : string)
| Update (self : obj) (user_id : string) (new_version_manager : obj)
| Status (user_id : string).

Definition run_verb {J : JsonCodec} (v : verb) : M dict :=
  match v with
  | Install self u => install_plugin self u
  | Uninstall u => delete_plugin u
  | Update self u new => update_plugin self u new
  | Status u => get_plugin_status u
  end.

Fixpoint run_verbs {J : JsonCodec} (l : list verb) (w : World) : World :=
  match l with
  | [] => w
  | v :: l' => run_verbs l' (exec (run_verb v) w)
  end.

Lemma pres_run_verb {J : JsonCodec} (v : verb) : pres keeps_defs (run_verb v).
Proof.
  destruct v; cbn [run_verb].
  - apply pres_install_plugin.
  - apply pres_delete_plugin.
  - apply pres_update_plugin.
  - apply pres_get_plugin_status.
Qed.

Lemma run_verbs_keeps_defs {J : JsonCodec} (l : list verb) (w : World) :
  keeps_defs w (run_verbs l w).
Proof.
  revert w. induction l as [|v l IH]; intros w; cbn [run_verbs].
  - apply frame_refl.
  - eapply frame_trans; [apply (pres_run_verb v w)|apply IH].
Qed.



(** ** What a computation returns *)

(** Every value [c] returns satisfies [P]. *)
Definition returns {A} (P : A -> Prop) (c : M A) : Prop :=
  forall w a w', c w = (Ok a, w') -> P a.

(** [c] never raises. *)
Definition total {A} (c : M A) : Prop :=
  forall w, exists a w', c w = (Ok a, w').

Lemma returns_ret {A} (P : A -> Prop) (a : A) : P a -> returns P (ret a).
Proof. intros H w a' w' E. inversion E; subst. exact H. Qed.

Lemma returns_bind {A B} (P : B -> Prop) (c : M A) (k : A -> M B) :
  (forall a, returns P (k a)) -> returns P (bind c k).
Proof.
  intros Hk w b w' E. unfold bind in E.
  destruct (c w) as [[a|e] w1]; [eapply Hk; eauto|discriminate].
Qed.

Lemma returns_try {A} (P : A -> Prop) (c : M A) (h : exn -> M A) :
  returns P c -> (forall e, returns P (h e)) -> returns P (try_except c h).
Proof.
  intros Hc Hh w a w' E. unfold try_except in E.
  destruct (c w) as [[a1|e] w1] eqn:Ec.
  - inversion E; subst. eapply Hc; eauto.
  - eapply Hh; eauto.
Qed.

Lemma total_ret {A} (a : A) : total (ret a).
Proof. intros w. now exists a, w. Qed.

Lemma total_bind {A B} (c : M A) (k : A -> M B) :
  total c -> (forall a, total (k a)) -> total (bind c k).
Proof.
  intros Hc Hk w. unfold bind. destruct (Hc w) as (a & w1 & ->). apply Hk.
Qed.

Lemma total_try {A} (c : M A) (h : exn -> M A) :
  (forall e, total (h e)) -> total (try_except c h).
Proof.
  intros Hh w. unfold try_except.
  destruct (c w) as [[a|e] w1]; [now exists a, w1|apply Hh].
Qed.

Lemma total_rollback : total rollback.
Proof. intros w. now eexists _, _. Qed.

(** A result dictionary with a "success" entry. *)
Definition has_success (d : dict) : Prop :=
  exists v, dict_get d "success" = Some v.

Lemma returns_bind_with {A B} (Q : A -> Prop) (P : B -> Prop) (c : M A)
  (k : A -> M B) :
  returns Q c -> (forall a, Q a -> returns P (k a)) -> returns P (bind c k).
Proof.
  intros Hc Hk w b w' E. unfold bind in E.
  destruct (c w) as [[a|e] w1] eqn:Ec; [|discriminate].
  eapply Hk; eauto.
Qed.

Lemma returns_raise {A} (P : A -> Prop) (e : exn) : returns P (raise e).
Proof. intros w a w' E. discriminate. Qed.

Lemma has_success_failure (msg : string) : has_success (failure msg).
Proof. now eexists. Qed.

Lemma succeeded_get (d : dict) :
  succeeded d = true ->
  exists v, dict_get d "success" = Some v /\ truthy v = true.
Proof.
  unfold succeeded, dict_get_default.
  destruct (dict_get d "success") as [v|]; [eauto|discriminate].
Qed.

Lemma getitem_some (d : dict) (k : string) (v : pyval) (w : World) :
  dict_get d k = Some v -> getitem d k w = (Ok v, w).
Proof. unfold getitem. now intros ->. Qed.

Section Totality.
Context {J : JsonCodec}.

Lemma export_has_success (u : string) :
  returns has_success (_export_user_data u).
Proof.
  unfold _export_user_data. apply returns_try.
  - repeat (apply returns_bind; intros ?).
    apply returns_ret. now eexists.
  - intros e. apply returns_ret. now eexists.
Qed.

Lemma export_total (u : string) : total (_export_user_data u).
Proof. apply total_try. intros e. apply total_ret. Qed.

Lemma import_total (u : string) (user_data : pyval) :
  total (_import_user_data u user_data).
Proof. apply total_try. intros e. apply total_ret. Qed.

End Totality.

(** ** Commits happen only with a success *)

(** [c] leaves the committed store unless it returns a success. *)
Definition guarded (c : M dict) : Prop :=
  forall w,
    match c w with
    | (Ok d, w') => succeeded d = true \/ committed (db w') = committed (db w)
    | (Raise _, w') => committed (db w') = committed (db w)
    end.

Lemma guarded_pres (c : M dict) : pres (same_on committed_of) c -> guarded c.
Proof.
  intros H w. specialize (H w). unfold same_on, committed_of in H.
  destruct (c w) as [[d|e] w']; cbn in H; auto.
Qed.

Lemma guarded_bind {A} (c : M A) (k : A -> M dict) :
  pres (same_on committed_of) c -> (forall a, guarded (k a)) ->
  guarded (bind c k).
Proof.
  intros Hc Hk w. specialize (Hc w). unfold same_on, committed_of in Hc.
  unfold bind. destruct (c w) as [[a|e] w1]; cbn in Hc; [|exact Hc].
  specialize (Hk a w1). destruct (k a w1) as [[d|e] w2].
  - destruct Hk; [now left|right; congruence].
  - congruence.
Qed.

Lemma guarded_try (c : M dict) (h : exn -> M dict) :
  guarded c -> (forall e, pres (same_on committed_of) (h e)) ->
  guarded (try_except c h).
Proof.
  intros Hc Hh w. specialize (Hc w). unfold try_except.
  destruct (c w) as [[d|e] w1]; [exact Hc|].
  specialize (Hh e w1). unfold same_on, committed_of in Hh.
  destruct (h e w1) as [[d|e'] w2]; cbn in Hh; [right|]; congruence.
Qed.

Lemma guarded_commit (d : dict) :
  succeeded d = true -> guarded (bind commit (fun _ => ret d)).
Proof.
  intros Hd w. unfold bind.
  destruct (commit_cases w) as [->|(e & w' & -> & H)]; [now left|exact H].
Qed.

Lemma dict_get_set (d : dict) (k k' : string) (v : pyval) :
  dict_get (dict_set d k v) k' =
  if String.eqb k' k then Some v else dict_get d k'.
Proof.
  induction d as [|[k0 v0] d IH]; cbn.
  - reflexivity.
  - destruct (String.eqb_spec k k0) as [->|Hk]; cbn.
    + destruct (String.eqb_spec k' k0); reflexivity.
    + destruct (String.eqb_spec k' k0) as [->|Hk'].
      * destruct (String.eqb_spec k0 k); [congruence|reflexivity].
      * exact IH.
Qed.

Lemma install_result_succeeded (result : dict) (a b : pyval) :
  succeeded (dict_update result [("shared_path", a); ("files_copied", b)]) =
  succeeded result.
Proof.
  unfold succeeded, dict_get_default, dict_update. cbn [fold_left fst snd].
  now rewrite !dict_get_set.
Qed.

Ltac guarded_step :=
  lazymatch goal with
  | |- guarded (try_except _ _) => apply guarded_try; [|intros ?; pres_auto]
  | |- guarded (bind commit _) => apply guarded_commit
  | |- guarded (bind _ _) => apply guarded_bind; [pres_auto|intros ?]
  | |- guarded (if ?b then _ else _) => destruct b eqn:?
  | |- guarded (let _ := _ in _) => cbv zeta
  | |- guarded (ret _) => apply guarded_pres; pres_auto
  end.

Section Guarded.
Context {J : JsonCodec}.

Lemma guarded_install_transaction (self : obj) (u : string) (shared : Path)
  (copy_result : dict) :
  guarded (install_transaction self u shared copy_result).
Proof.
  unfold install_transaction.
  repeat guarded_step;
    try apply (pres_install_for_user (R := same_on committed_of));
    try apply (pres_check_existing_plugin (R := same_on committed_of)).
  rewrite install_result_succeeded. assumption.
Qed.

Lemma guarded_install_after_check (self : obj) (u : string) :
  guarded (install_after_check self u).
Proof.
  unfold install_after_check.
  repeat guarded_step;
    try apply (pres_copy_plugin_files_impl (R := same_on committed_of)).
  apply guarded_install_transaction.
Qed.

Lemma guarded_install_plugin (self : obj) (u : string) :
  guarded (install_plugin self u).
Proof.
  unfold install_plugin.
  repeat guarded_step;
    try apply (pres_check_existing_plugin (R := same_on committed_of)).
  all: first [apply guarded_install_after_check|apply guarded_pres; pres_auto].
Qed.

End Guarded.

Lemma fault_cases (fl : list (option string)) :
  no_fault fl \/ exists m rest, fl = Some m :: rest.
Proof. destruct fl as [|[m|] fl]; cbn; eauto. Qed.

(** A successful uninstall, under any fault script, found a plugin row and
    committed its removal. *)
Lemma delete_plugin_success_inv (u : string) (w w' : World) (d : dict) :
  delete_plugin u w = (Ok d, w') ->
  succeeded d = true ->
  exists r others,
    plugin_rows u (pending (db w)) = r :: others /\
    pending (db w') = without_plugin u (p_id r) (pending (db w)) /\
    committed (db w') = without_plugin u (p_id r) (pending (db w)).
Proof.
  unfold delete_plugin, try_except, bind.
  destruct (fault_cases (db_faults (db w))) as [H1|(m & rest & H1)].
  2:{ rewrite (check_existing_fault u w m rest H1). cbn.
      intros E; inversion E; subst. discriminate. }
  rewrite (check_existing_ok u w H1). unfold existing_result.
  destruct (plugin_rows u (pending (db w))) as [|r others] eqn:Hrows.
  { cbn. intros E; inversion E; subst. discriminate. }
  cbn [getitem dict_get String.eqb Ascii.eqb Bool.eqb ret truthy negb sql_text].
  unfold _delete_database_records, try_except, bind.
  destruct (fault_cases (db_faults (db (after_tick w)))) as [H2|(m & rest & H2)].
  2:{ rewrite (statement_fault _ _ m rest H2). cbn.
      intros E; inversion E; subst. discriminate. }
  rewrite (statement_ok _ _ H2). cbn [delete_modules].
  match goal with
  | |- context [statement ?f ?w0] =>
      destruct (fault_cases (db_faults (db w0))) as [H3|(m & rest & H3)];
      [rewrite (statement_ok f w0 H3)
      |rewrite (statement_fault f w0 m rest H3); cbn;
       intros E; inversion E; subst; discriminate]
  end.
  cbn [delete_plugin_row ret getitem dict_get String.eqb Ascii.eqb Bool.eqb
       truthy].
  match goal with
  | |- context [commit ?w0] =>
      destruct (fault_cases (db_faults (db w0))) as [H4|(m & rest & H4)];
      [rewrite (commit_ok w0 H4)
      |rewrite (commit_fault w0 m rest H4); cbn;
       intros E; inversion E; subst; discriminate]
  end.
  intros E _. inversion E; subst. exists r, others. now repeat split.
Qed.

(** ** Every result carries "success" *)

Ltac returns_step :=
  lazymatch goal with
  | |- returns _ (try_except _ _) => apply returns_try; [|intros ?]
  | |- returns _ (ret (failure _)) => apply returns_ret, has_success_failure
  | |- returns _ (ret _) => apply returns_ret; first [assumption|now eexists]
  | |- returns _ (raise _) => apply returns_raise
  | |- returns _ (if ?b then _ else _) => destruct b
  | |- returns _ (let _ := _ in _) => cbv zeta
  | |- returns _ (bind _ _) => apply returns_bind; intros ?
  end.

Section HasSuccess.
Context {J : JsonCodec}.

Lemma ensure_has_success : returns has_success _ensure_settings_definitions.
Proof. unfold _ensure_settings_definitions. repeat returns_step. Qed.

Lemma create_instances_has_success (u : string) :
  returns has_success (_create_settings_instances u).
Proof. unfold _create_settings_instances. repeat returns_step. Qed.

Lemma create_records_has_success (u : string) :
  returns has_success (_create_database_records u).
Proof.
  unfold _create_database_records. apply returns_try; [|intros e; returns_step].
  do 2 (apply returns_bind; intros ?). destruct (truthy _); [returns_step|].
  eapply returns_bind_with; [apply ensure_has_success|intros d Hd].
  apply returns_bind; intros ?. destruct (negb _); [returns_step|].
  eapply returns_bind_with; [apply create_instances_has_success|intros d' Hd'].
  repeat returns_step.
Qed.

Lemma perform_installation_has_success (u : string) :
  returns has_success (_perform_user_installation u).
Proof.
  unfold _perform_user_installation.
  apply returns_try; [|intros e; returns_step].
  eapply returns_bind_with; [apply create_records_has_success|intros d Hd].
  repeat returns_step.
Qed.

Lemma install_for_user_has_success (self : obj) (u : string) :
  returns has_success (install_for_user self u).
Proof.
  unfold install_for_user. apply returns_bind; intros w0.
  destruct (existsb _ _); [returns_step|].
  eapply returns_bind_with;
    [apply perform_installation_has_success|intros d Hd].
  repeat returns_step.
Qed.

Lemma copy_has_success (u : string) (target : Path) (b : bool) :
  returns has_success (_copy_plugin_files_impl u target b).
Proof.
  unfold _copy_plugin_files_impl. apply returns_try; [|intros e; returns_step].
  do 4 (apply returns_bind; intros ?). returns_step.
Qed.

Lemma install_transaction_has_success (self : obj) (u : string)
  (shared : Path) (copy_result : dict) :
  returns has_success (install_transaction self u shared copy_result).
Proof.
  unfold install_transaction. apply returns_try; [|intros e; repeat returns_step].
  eapply returns_bind_with; [apply install_for_user_has_success|intros d Hd].
  destruct (truthy _); [|repeat returns_step].
  do 2 (apply returns_bind; intros ?). destruct (negb _); [returns_step|].
  cbv zeta. apply returns_bind; intros _. apply returns_ret.
  destruct Hd as [v Hv]. exists v.
  unfold dict_update. cbn [fold_left fst snd]. now rewrite !dict_get_set.
Qed.

Lemma install_plugin_has_success (self : obj) (u : string) :
  returns has_success (install_plugin self u).
Proof.
  unfold install_plugin. apply returns_try; [|intros e; repeat returns_step].
  do 2 (apply returns_bind; intros ?). destruct (truthy _);
    [repeat returns_step|].
  unfold install_after_check. do 2 (apply returns_bind; intros ?).
  eapply returns_bind_with; [apply copy_has_success|intros d Hd].
  apply returns_bind; intros ?. destruct (negb _); [returns_step|].
  apply install_transaction_has_success.
Qed.

End HasSuccess.

(** ** Update *)

Definition pending_of (w : World) : Tables := pending (db w).

Definition unchanged : Tables -> Tables -> Prop := fun t t' => t' = t.

#[export] Instance pending_db : DbFrame (same_on pending_of) unchanged.
Proof.
  split; [apply tick_of_faults; intros; reflexivity|].
  intros w t Ht. unfold same_on, pending_of, unchanged in *. now subst.
Qed.

Lemma status_absent (u : string) (w : World) :
  plugin_rows u (pending (db w)) = [] ->
  eval (get_plugin_status u) w = Ok [("installed", PBool false)].
Proof.
  intros Hrows. unfold eval, get_plugin_status, try_except, bind.
  destruct (fault_cases (db_faults (db w))) as [H|(m & rest & H)].
  - rewrite (check_existing_ok u w H). unfold existing_result.
    now rewrite Hrows.
  - now rewrite (check_existing_fault u w m rest H).
Qed.

Lemma filter_filter_nil {A} (p q : A -> bool) (l : list A) :
  filter p l = [] -> filter p (filter q l) = [].
Proof.
  induction l as [|x l IH]; cbn; [reflexivity|].
  destruct (p x) eqn:Ep; [discriminate|]. intros H.
  destruct (q x); cbn; [rewrite Ep|]; auto.
Qed.

(** Removing the only plugin row of a user leaves the user without one. *)
Lemma plugin_rows_without (u : string) (r : PluginRow) (t : Tables) :
  plugin_rows u t = [r] ->
  plugin_rows u (without_plugin u (p_id r) t) = [].
Proof.
  unfold plugin_rows, without_plugin. cbn [plugin].
  induction (plugin t) as [|x l IH]; cbn [filter]; [discriminate|].
  destruct (plugin_of u (pd_plugin_slug plugin_data) x) eqn:Ex.
  - intros H. injection H as -> Hl.
    assert (Hw : plugin_with_id u (p_id r) r = true).
    { unfold plugin_with_id. unfold plugin_of in Ex.
      apply andb_prop in Ex as [Eu _]. rewrite Eu. cbn.
      apply String.eqb_refl. }
    rewrite Hw. cbn [negb]. now apply filter_filter_nil.
  - intros H. destruct (negb (plugin_with_id u (p_id r) x)); cbn [filter];
      [rewrite Ex|]; auto.
Qed.

Section UpdateProperties.
Context {J : JsonCodec}.

Lemma run_pair {A} (c : M A) (w : World) : c w = (eval c w, exec c w).
Proof. unfold eval, exec. now destruct (c w). Qed.


End UpdateProperties.


Section ImportProperties.
Context {J : JsonCodec}.


End ImportProperties.

(** Evaluates the left-hand side of an equation. *)
Ltac compute_lhs :=
  lazymatch goal with
  | |- ?l = _ =>
      let v := eval vm_compute in l in
      transitivity v; [vm_cast_no_check (eq_refl v)|reflexivity]
  end.

(** [u1] is installed; the database refuses the twenty-first statement of
    the update, which is the UPDATE of the plugin row in the import. *)
Definition import_fault_world : World :=
  with_db_faults installed_world (repeat None 20 ++ [Some "lock timeout"]).


(** ** Inverting a run that returned *)

(** Projections of an updated world. *)
Ltac simpl_world_goal :=
  cbn [with_pending after_tick with_db_faults with_db with_uuid_next
       with_manager with_fs after_commit db pending committed db_faults
       clock fs managers plugin module settings_definitions
       settings_instances fst snd].

Ltac simpl_world H :=
  cbn [with_pending after_tick with_db_faults with_db with_uuid_next
       with_manager with_fs after_commit db pending committed db_faults
       clock fs managers plugin module settings_definitions
       settings_instances fst snd] in H.

Lemma bind_inv {A B} (c : M A) (k : A -> M B) (w w' : World) (b : B) :
  bind c k w = (Ok b, w') ->
  exists a w1, c w = (Ok a, w1) /\ k a w1 = (Ok b, w').
Proof.
  unfold bind. destruct (c w) as [[a|e] w1]; [eauto|discriminate].
Qed.

Lemma try_inv {A} (c : M A) (h : exn -> M A) (w w' : World) (a : A) :
  try_except c h w = (Ok a, w') ->
  c w = (Ok a, w') \/ exists e w1, c w = (Raise e, w1) /\ h e w1 = (Ok a, w').
Proof.
  unfold try_except. destruct (c w) as [[a1|e] w1]; eauto.
Qed.

Lemma ret_inv {A} (a b : A) (w w' : World) :
  ret a w = (Ok b, w') -> b = a /\ w' = w.
Proof. unfold ret. intros H. now inversion H. Qed.

Lemma getitem_inv (d : dict) (k : string) (v : pyval) (w w' : World) :
  getitem d k w = (Ok v, w') -> dict_get d k = Some v /\ w' = w.
Proof.
  unfold getitem. destruct (dict_get d k); intros H; inversion H; auto.
Qed.

Lemma db_tick_inv (w w' : World) :
  db_tick w = (Ok tt, w') -> w' = after_tick w.
Proof.
  destruct (fault_cases (db_faults (db w))) as [H|(m & rest & H)].
  - rewrite (db_tick_ok w H). intros E. now inversion E.
  - rewrite (db_tick_fault w m rest H). discriminate.
Qed.

Lemma query_inv {A} (f : Tables -> res A) (w w' : World) (a : A) :
  query f w = (Ok a, w') ->
  f (pending (db w)) = Ok a /\ w' = after_tick w.
Proof.
  unfold query. intros H. apply bind_inv in H as ([] & w1 & H1 & H2).
  apply db_tick_inv in H1. subst w1. now inversion H2.
Qed.

Lemma statement_inv {A} (f : Tables -> res (A * Tables)) (w w' : World)
  (a : A) :
  statement f w = (Ok a, w') ->
  exists t, f (pending (db w)) = Ok (a, t) /\
            w' = with_pending (after_tick w) t.
Proof.
  unfold statement. intros H. apply bind_inv in H as ([] & w1 & H1 & H2).
  apply db_tick_inv in H1. subst w1.
  cbn [after_tick with_db_faults with_db db pending] in H2.
  destruct (f (pending (db w))) as [[a' t]|e]; inversion H2; subst. eauto.
Qed.

Lemma commit_inv (w w' : World) :
  commit w = (Ok tt, w') -> w' = after_commit w.
Proof.
  unfold commit. intros H. apply bind_inv in H as ([] & w1 & H1 & H2).
  apply db_tick_inv in H1. subst w1. now inversion H2.
Qed.

Lemma succeeded_failure (msg : string) : succeeded (failure msg) = false.
Proof. reflexivity. Qed.

(** What the session sees, with the clock and the committed store. *)
Definition view {X} (proj : Tables -> X) (w : World) : X * string * Tables :=
  (proj (pending (db w)), clock w, committed (db w)).

Definition keeps {X} (proj : Tables -> X) (t t' : Tables) : Prop :=
  proj t' = proj t.

#[export] Instance view_db {X} (proj : Tables -> X) :
  DbFrame (same_on (view proj)) (keeps proj).
Proof.
  split; [apply tick_of_faults; intros; reflexivity|].
  intros w t Ht. unfold same_on, view, keeps in *. cbn. now rewrite Ht.
Qed.

#[export] Instance view_io {X} (proj : Tables -> X) :
  IoFrame (same_on (view proj)).
Proof. intros w f fl. reflexivity. Qed.

#[export] Instance view_obj {X} (proj : Tables -> X) :
  ObjFrame (same_on (view proj)).
Proof. split; intros; reflexivity. Qed.

(** The tables but the settings definitions. *)
Definition but_definitions (t : Tables)
  : list PluginRow * list ModuleRow * list InstRow :=
  (plugin t, module t, settings_instances t).

#[export] Instance but_definitions_defs : DefStmts (keeps but_definitions).
Proof.
  intros dd now t a t' _. unfold insert_definition, keeps.
  destruct (existsb _ _); [discriminate|]. intros H. now inversion H.
Qed.

Definition whole (t : Tables) : Tables := t.

(** ** Settings instances *)

(** The instances the lookup of [_create_settings_instances] selects. *)
Definition matching (u : string) (d : InstanceData) (l : list InstRow)
  : list InstRow :=
  filter (instance_matches (id_definition_id d) u (id_scope d)) l.

(** The user has no instance of the definition in its scope. *)
Definition lacks (u : string) (l : list InstRow) (d : InstanceData) : bool :=
  match matching u d l with [] => true | _ => false end.

(** The instances the lookups of [ds] select carry non-empty ids. *)
Definition ids_ok (u : string) (l : list InstRow) (ds : list InstanceData)
  : Prop :=
  forall d, In d ds -> Forall (fun x => i_id x <> EmptyString) (matching u d l).

Definition but_instances (t : Tables)
  : list PluginRow * list ModuleRow * list DefRow :=
  (plugin t, module t, settings_definitions t).

(** [new] are fresh rows of [u] for the data [ds], one for one. *)
Definition created_for (u now : string) (new : list InstRow)
  (ds : list InstanceData) : Prop :=
  Forall2 (fun i d => exists id, i = instance_row id u now d) new ds.

Lemma matching_app (u : string) (d : InstanceData) (l l' : list InstRow) :
  matching u d (l ++ l') = (matching u d l ++ matching u d l')%list.
Proof. apply filter_app. Qed.

Lemma matching_other (u now id : string) (d d' : InstanceData)
  (l : list InstRow) :
  id_definition_id d <> id_definition_id d' ->
  matching u d' (l ++ [instance_row id u now d]) = matching u d' l.
Proof.
  intros Hne. rewrite matching_app. unfold matching at 2. cbn.
  unfold instance_matches. cbn [instance_row i_definition_id].
  destruct (String.eqb_spec (id_definition_id d) (id_definition_id d'));
    [contradiction|]. cbn. apply app_nil_r.
Qed.

(** One round of the loop of [_create_settings_instances]. *)
Lemma instance_round (u now : string) (acc acc' : list string)
  (d : InstanceData) (w w' : World) :
  bind (query (select_instance_id (id_definition_id d) u (id_scope d)))
       (fun existing =>
          if negb (truthy (opt_val existing)) then
            bind fresh_uuid (fun instance_id =>
              bind (statement (insert_instance
                                 (instance_row instance_id u now d)))
                   (fun _ => ret (acc ++ [id_name d])%list))
          else ret acc) w = (Ok acc', w') ->
  ids_ok u (settings_instances (pending (db w))) [d] ->
  let ds := if lacks u (settings_instances (pending (db w))) d
            then [d] else [] in
  exists new,
    settings_instances (pending (db w')) =
      (settings_instances (pending (db w)) ++ new)%list /\
    created_for u now new ds /\
    acc' = (acc ++ map id_name ds)%list /\
    but_instances (pending (db w')) = but_instances (pending (db w)) /\
    clock w' = clock w /\ committed (db w') = committed (db w).
Proof.
  intros H Hids. cbv zeta.
  apply bind_inv in H as (existing & w1 & Hq & H).
  apply query_inv in Hq as [Hsel ->].
  unfold select_instance_id in Hsel.
  specialize (Hids d (or_introl eq_refl)). unfold lacks, matching in *.
  destruct (filter _ (settings_instances (pending (db w))))
    as [|x [|y rest]]; cbn in Hsel; [| |discriminate];
    injection Hsel as <-.
  - cbn [opt_val truthy negb] in H.
    apply bind_inv in H as (id & w2 & Hu & H).
    unfold fresh_uuid in Hu. inversion Hu; subst id w2. clear Hu.
    apply bind_inv in H as ([] & w3 & Hs & H).
    apply statement_inv in Hs as (t & Hins & ->).
    apply ret_inv in H as [-> ->].
    unfold insert_instance in Hins.
    destruct (existsb _ _); [discriminate|]. inversion Hins; subst t.
    eexists [_]. cbn. repeat split.
    constructor; [now eexists|constructor].
  - inversion Hids as [|? ? Hx _]; subst.
    cbn [opt_val truthy] in H.
    destruct (String.eqb_spec (i_id x) EmptyString); [contradiction|].
    cbn [negb] in H. apply ret_inv in H as [-> ->].
    exists []. cbn. rewrite !app_nil_r. repeat split. constructor.
Qed.

Lemma created_for_other (u now : string) (d d' : InstanceData) (b : bool)
  (new l : list InstRow) :
  created_for u now new (if b then [d] else []) ->
  id_definition_id d <> id_definition_id d' ->
  matching u d' (l ++ new) = matching u d' l.
Proof.
  intros Hc Hne. destruct b; inversion Hc as [|i ? ? ? [id ->] Hrest]; subst.
  - inversion Hrest; subst. now apply matching_other.
  - now rewrite app_nil_r.
Qed.

(** The loop of [_create_settings_instances] over data with distinct
    definition ids. *)
Lemma instance_loop (u now : string) (l : list InstanceData) :
  NoDup (map id_definition_id l) ->
  forall acc acc' w w',
    for_each l
      (fun created_instances instance_data =>
         bind (query (select_instance_id (id_definition_id instance_data) u
                                         (id_scope instance_data)))
              (fun existing =>
                 if negb (truthy (opt_val existing)) then
                   bind fresh_uuid (fun instance_id =>
                     bind (statement
                             (insert_instance
                                (instance_row instance_id u now instance_data)))
                          (fun _ =>
                             ret (created_instances
                                  ++ [id_name instance_data])%list))
                 else ret created_instances)) acc w = (Ok acc', w') ->
    ids_ok u (settings_instances (pending (db w))) l ->
    let ds := filter (lacks u (settings_instances (pending (db w)))) l in
    exists new,
      settings_instances (pending (db w')) =
        (settings_instances (pending (db w)) ++ new)%list /\
      created_for u now new ds /\
      acc' = (acc ++ map id_name ds)%list /\
      but_instances (pending (db w')) = but_instances (pending (db w)) /\
      clock w' = clock w /\ committed (db w') = committed (db w).
Proof.
  induction l as [|d l IH]; intros Hnd acc acc' w w' H Hids; cbv zeta.
  - cbn in H. apply ret_inv in H as [-> ->]. exists [].
    cbn. rewrite !app_nil_r. repeat split. constructor.
  - cbn [for_each] in H. apply bind_inv in H as (acc1 & w1 & H1 & H2).
    inversion Hnd as [|? ? Hd Hl]; subst.
    destruct (instance_round u now acc acc1 d w w1 H1)
      as (new1 & Hi1 & Hc1 & Ha1 & Hb1 & Hk1 & Hm1).
    { intros d0 [<-|[]]. apply Hids. now left. }
    assert (Hsame : forall d', In d' l ->
              matching u d' (settings_instances (pending (db w1))) =
              matching u d' (settings_instances (pending (db w)))).
    { intros d' Hd'. rewrite Hi1. eapply created_for_other; [exact Hc1|].
      intros E. apply Hd. rewrite E. now apply in_map. }
    destruct (IH Hl acc1 acc' w1 w' H2)
      as (new2 & Hi2 & Hc2 & Ha2 & Hb2 & Hk2 & Hm2).
    { intros d' Hd'. rewrite (Hsame d' Hd'). apply Hids. now right. }
    assert (Hf : filter (lacks u (settings_instances (pending (db w1)))) l =
                 filter (lacks u (settings_instances (pending (db w)))) l).
    { apply filter_ext_in. intros d' Hd'. unfold lacks.
      now rewrite (Hsame d' Hd'). }
    rewrite Hf in Hc2, Ha2.
    exists (new1 ++ new2)%list. cbn [filter].
    replace (if lacks u (settings_instances (pending (db w))) d
             then d :: filter (lacks u (settings_instances (pending (db w)))) l
             else filter (lacks u (settings_instances (pending (db w)))) l)
      with ((if lacks u (settings_instances (pending (db w))) d
             then [d] else [])
            ++ filter (lacks u (settings_instances (pending (db w)))) l)%list
      by now destruct (lacks u _ d).
    repeat split.
    + rewrite Hi2, Hi1. now rewrite app_assoc.
    + now apply Forall2_app.
    + rewrite Ha2, Ha1, map_app. now rewrite app_assoc.
    + congruence.
    + congruence.
    + congruence.
Qed.

Lemma settings_instances_data_nodup :
  NoDup (map id_definition_id settings_instances_data).
Proof.
  cbn. repeat constructor; cbn; intuition discriminate.
Qed.

Lemma not_truthy_not_succeeded (d : dict) (v : pyval) :
  dict_get d "success" = Some v -> truthy v = false -> succeeded d = false.
Proof. unfold succeeded, dict_get_default. now intros ->. Qed.

Lemma succeeded_truthy (d : dict) (v : pyval) :
  dict_get d "success" = Some v -> succeeded d = truthy v.
Proof. unfold succeeded, dict_get_default. now intros ->. Qed.

Section InstallEffects.
Context {J : JsonCodec}.

Lemma create_instances_inv (u : string) (w w' : World) (d : dict) :
  _create_settings_instances u w = (Ok d, w') ->
  succeeded d = true ->
  ids_ok u (settings_instances (pending (db w))) settings_instances_data ->
  let ds := filter (lacks u (settings_instances (pending (db w))))
                   settings_instances_data in
  exists new,
    settings_instances (pending (db w')) =
      (settings_instances (pending (db w)) ++ new)%list /\
    created_for u (clock w) new ds /\
    dict_get d "created_instances" = Some (PStrs (map id_name ds)) /\
    but_instances (pending (db w')) = but_instances (pending (db w)) /\
    clock w' = clock w /\ committed (db w') = committed (db w).
Proof.
  intros H Hs Hids. cbv zeta. unfold _create_settings_instances in H.
  apply try_inv in H as [H|(e & w1 & _ & H)].
  2:{ apply ret_inv in H as [-> _]. discriminate. }
  apply bind_inv in H as (now & w1 & Hn & H).
  unfold current_time in Hn. inversion Hn; subst now w1. clear Hn.
  apply bind_inv in H as (created & w2 & Hl & H).
  apply ret_inv in H as [-> ->].
  destruct (instance_loop u (clock w) settings_instances_data
              settings_instances_data_nodup [] created w w2 Hl Hids)
    as (new & Hi & Hc & Ha & Hb & Hk & Hm).
  exists new. cbn [app] in Ha. subst created. now repeat split.
Qed.

(** The loop that inserts the module rows. *)
Lemma module_loop (u now : string) (l : list ModuleData) :
  forall acc acc' w w',
    for_each l
      (fun modules_created md =>
         bind (statement (insert_module (module_row u now md)))
              (fun _ => ret (modules_created ++ [md_name md])%list))
      acc w = (Ok acc', w') ->
    module (pending (db w')) =
      (module (pending (db w)) ++ map (module_row u now) l)%list /\
    acc' = (acc ++ map md_name l)%list /\
    plugin (pending (db w')) = plugin (pending (db w)) /\
    settings_of (pending (db w')) = settings_of (pending (db w)) /\
    clock w' = clock w /\ committed (db w') = committed (db w).
Proof.
  induction l as [|md l IH]; intros acc acc' w w' H.
  - cbn in H. apply ret_inv in H as [-> ->]. cbn. now rewrite !app_nil_r.
  - cbn [for_each] in H. apply bind_inv in H as (acc1 & w1 & H1 & H2).
    apply bind_inv in H1 as ([] & w0 & Hs & Hr).
    apply ret_inv in Hr as [-> ->].
    apply statement_inv in Hs as (t & Hins & ->).
    unfold insert_module in Hins. destruct (existsb _ _); [discriminate|].
    inversion Hins; subst t. clear Hins.
    destruct (IH _ _ _ _ H2) as (Hm & Ha & Hp & Hse & Hk & Hc).
    unfold settings_of in *. simpl_world Hm; simpl_world Hp; simpl_world Hse;
    simpl_world Hk; simpl_world Hc. cbn [map].
    repeat split; try assumption.
    + rewrite Hm. now rewrite <- app_assoc.
    + rewrite Ha. now rewrite <- app_assoc.
Qed.

(** The rows an install adds to what the session sees. *)
Definition installed_tables (u now : string) (new : list InstRow)
  (t t' : Tables) : Prop :=
  plugin t' = (plugin t ++ [plugin_row u now])%list /\
  module t' = (module t ++ map (module_row u now) module_data)%list /\
  settings_instances t' = (settings_instances t ++ new)%list /\
  created_for u now new
    (filter (lacks u (settings_instances t)) settings_instances_data).

Lemma create_records_inv (u : string) (w w' : World) (d : dict) :
  _create_database_records u w = (Ok d, w') ->
  succeeded d = true ->
  ids_ok u (settings_instances (pending (db w))) settings_instances_data ->
  exists new,
    installed_tables u (clock w) new (pending (db w)) (pending (db w')) /\
    dict_get d "plugin_id" = Some (PStr (plugin_id_of u)) /\
    dict_get d "modules_created" = Some (PStrs (map md_name module_data)) /\
    dict_get d "settings_created" =
      Some (PStrs (map id_name
                     (filter (lacks u (settings_instances (pending (db w))))
                             settings_instances_data))) /\
    clock w' = clock w /\ committed (db w') = committed (db w).
Proof.
  intros H Hs Hids. unfold _create_database_records in H.
  apply try_inv in H as [H|(e & w1 & _ & H)].
  2:{ apply ret_inv in H as [-> _]. discriminate. }
  apply bind_inv in H as (ec & w1 & Hc & H).
  pose proof (pres_check_existing_plugin (R := same_on (view whole)) u w) as F1.
  rewrite Hc in F1. unfold same_on, view, whole in F1. cbn [snd] in F1.
  injection F1 as Fp1 Fk1 Fc1.
  apply bind_inv in H as (ex & w1' & Hg & H).
  apply getitem_inv in Hg as [_ ->].
  destruct (truthy ex).
  { apply ret_inv in H as [-> _]. discriminate. }
  apply bind_inv in H as (sd & w2 & He & H).
  pose proof (pres_ensure_settings_definitions
                (R := same_on (view but_definitions)) w1) as F2.
  rewrite He in F2. unfold same_on, view, but_definitions in F2.
  cbn [snd] in F2. injection F2 as Fp2 Fm2 Fi2 Fk2 Fc2.
  apply bind_inv in H as (ds & w2' & Hg & H).
  apply getitem_inv in Hg as [Hds ->].
  destruct (truthy ds) eqn:Tds; cbn [negb] in H.
  2:{ apply ret_inv in H as [-> _].
      rewrite (not_truthy_not_succeeded _ _ Hds Tds) in Hs. discriminate. }
  apply bind_inv in H as (si & w3 & Hi & H).
  apply bind_inv in H as (io & w3' & Hg & H).
  apply getitem_inv in Hg as [Hio ->].
  destruct (truthy io) eqn:Tio; cbn [negb] in H.
  2:{ apply ret_inv in H as [-> _].
      rewrite (not_truthy_not_succeeded _ _ Hio Tio) in Hs. discriminate. }
  assert (Ei2 : settings_instances (pending (db w2)) =
                settings_instances (pending (db w))) by congruence.
  assert (Ek2 : clock w2 = clock w) by congruence.
  destruct (create_instances_inv u w2 w3 si Hi)
    as (new & Hn & Hcr & Hci & Hb3 & Hk3 & Hc3).
  { now rewrite (succeeded_truthy _ _ Hio). }
  { now rewrite Ei2. }
  rewrite Ei2 in Hn, Hcr, Hci. rewrite Ek2 in Hcr.
  remember (filter (lacks u (settings_instances (pending (db w))))
                   settings_instances_data) as dsl eqn:Edsl.
  unfold but_instances in Hb3. injection Hb3 as Hp3 Hm3 Hd3.
  apply bind_inv in H as (now & w4 & Ht & H).
  unfold current_time in Ht. injection Ht as <- <-.
  apply bind_inv in H as ([] & w5 & Hst & H).
  apply statement_inv in Hst as (t & Hins & ->).
  unfold insert_plugin in Hins. destruct (existsb _ _); [discriminate|].
  injection Hins as <-.
  apply bind_inv in H as (mc & w6 & Hml & H).
  apply module_loop in Hml as (Hm6 & Hmc & Hp6 & Hs6 & Hk6 & Hc6).
  unfold settings_of in Hs6.
  simpl_world Hm6; simpl_world Hp6; simpl_world Hs6; simpl_world Hk6;
  simpl_world Hc6.
  injection Hs6 as Hd6 Hi6.
  apply bind_inv in H as (cr & w6' & Hg & H).
  apply getitem_inv in Hg as [Hcr' ->].
  apply ret_inv in H as [-> ->].
  rewrite Hci in Hcr'. injection Hcr' as <-.
  assert (Hk : clock w3 = clock w) by congruence.
  rewrite Hk in Hm6, Hp6.
  exists new. unfold installed_tables. rewrite <- Edsl. repeat split.
  - rewrite Hp6, Hp3, Fp2, Fp1. reflexivity.
  - rewrite Hm6, Hm3, Fm2, Fp1. reflexivity.
  - rewrite Hi6. exact Hn.
  - exact Hcr.
  - cbn [app] in Hmc. now rewrite Hmc.
  - congruence.
  - congruence.
Qed.

(** What a successful install leaves and returns. *)
Definition install_effect (u : string) (w w' : World) (d : dict)
  (new : list InstRow) : Prop :=
  installed_tables u (clock w) new (pending (db w)) (pending (db w')) /\
  dict_get d "plugin_id" = Some (PStr (plugin_id_of u)) /\
  dict_get d "modules_created" = Some (PStrs (map md_name module_data)) /\
  clock w' = clock w.

Lemma perform_installation_inv (u : string) (w w' : World) (d : dict) :
  _perform_user_installation u w = (Ok d, w') ->
  succeeded d = true ->
  ids_ok u (settings_instances (pending (db w))) settings_instances_data ->
  exists new,
    install_effect u w w' d new /\ committed (db w') = committed (db w).
Proof.
  intros H Hs Hids. unfold _perform_user_installation in H.
  apply try_inv in H as [H|(e & w1 & _ & H)].
  2:{ apply ret_inv in H as [-> _]. discriminate. }
  apply bind_inv in H as (r & w1 & Hr & H).
  apply bind_inv in H as (s & w1' & Hg & H).
  apply getitem_inv in Hg as [Hsr ->].
  destruct (truthy s) eqn:Ts; cbn [negb] in H.
  2:{ apply ret_inv in H as [-> _].
      rewrite (not_truthy_not_succeeded _ _ Hsr Ts) in Hs. discriminate. }
  destruct (create_records_inv u w w1 r Hr)
    as (new & Ht & Hpid & Hmc & _ & Hk & Hc); [|exact Hids|].
  { now rewrite (succeeded_truthy _ _ Hsr). }
  apply bind_inv in H as (pid & w2 & Hg & H).
  apply getitem_inv in Hg as [Hg1 ->].
  apply bind_inv in H as (mc & w2 & Hg & H).
  apply getitem_inv in Hg as [Hg2 ->].
  apply ret_inv in H as [-> ->].
  rewrite Hpid in Hg1. injection Hg1 as <-.
  rewrite Hmc in Hg2. injection Hg2 as <-.
  exists new. unfold install_effect. split; [|exact Hc].
  split; [exact Ht|]. repeat split; first [reflexivity|assumption].
Qed.

Lemma install_for_user_inv (self : obj) (u : string) (w w' : World)
  (d : dict) :
  install_for_user self u w = (Ok d, w') ->
  succeeded d = true ->
  ids_ok u (settings_instances (pending (db w))) settings_instances_data ->
  exists new,
    install_effect u w w' d new /\ committed (db w') = committed (db w).
Proof.
  intros H Hs Hids. unfold install_for_user in H.
  apply bind_inv in H as (w0 & w0' & Hw & H).
  unfold get_world in Hw. injection Hw as <- <-.
  destruct (existsb _ _).
  { apply ret_inv in H as [-> _]. discriminate. }
  apply bind_inv in H as (r & w1 & Hr & H).
  apply bind_inv in H as (s & w1' & Hg & H).
  apply getitem_inv in Hg as [Hsr ->].
  apply bind_inv in H as ([] & w2 & Ha & H).
  apply ret_inv in H as [-> ->].
  destruct (perform_installation_inv u w w1 r Hr Hs Hids)
    as (new & (Ht & Hpid & Hmc & Hk) & Hc).
  exists new.
  assert (Hv : view whole w2 = view whole w1).
  { destruct (truthy s).
    - unfold add_active_user in Ha. now injection Ha as <-.
    - now apply ret_inv in Ha as [_ ->]. }
  unfold view, whole in Hv. injection Hv as Hp' Hk' Hc'.
  unfold install_effect. rewrite Hp', Hk', Hc'.
  split; [|exact Hc]. split; [exact Ht|]. now repeat split.
Qed.

Lemma install_transaction_inv (self : obj) (u : string) (shared : Path)
  (copy_result : dict) (w w' : World) (d : dict) :
  install_transaction self u shared copy_result w = (Ok d, w') ->
  succeeded d = true ->
  ids_ok u (settings_instances (pending (db w))) settings_instances_data ->
  exists new,
    install_effect u w w' d new /\ committed (db w') = pending (db w').
Proof.
  intros H Hs Hids. unfold install_transaction in H.
  apply try_inv in H as [H|(e & w1 & _ & H)].
  2:{ apply bind_inv in H as ([] & w2 & _ & H).
      apply ret_inv in H as [-> _]. discriminate. }
  apply bind_inv in H as (r & w1 & Hr & H).
  destruct (truthy (dict_get_default r "success" PNone)) eqn:Tr.
  2:{ apply bind_inv in H as ([] & w2 & _ & H).
      apply ret_inv in H as [-> _]. unfold succeeded in Hs. congruence. }
  destruct (install_for_user_inv self u w w1 r Hr Tr Hids)
    as (new & (Ht & Hpid & Hmc & Hk) & Hc).
  apply bind_inv in H as (vc & w2 & Hv & H).
  pose proof (pres_check_existing_plugin (R := same_on (view whole)) u w1)
    as F. rewrite Hv in F. unfold same_on, view, whole in F. cbn [snd] in F.
  injection F as Fp Fk Fc.
  apply bind_inv in H as (vex & w2' & Hg & H).
  apply getitem_inv in Hg as [_ ->].
  destruct (negb (truthy vex)).
  { apply ret_inv in H as [-> _]. discriminate. }
  cbv zeta in H. apply bind_inv in H as ([] & w3 & Hcm & H).
  apply commit_inv in Hcm as ->. apply ret_inv in H as [-> ->].
  exists new. unfold install_effect, dict_update.
  cbn [fold_left fst snd]. rewrite !dict_get_set.
  simpl_world_goal. rewrite Fp, Fk.
  split; [|reflexivity]. split; [exact Ht|]. now repeat split.
Qed.

Lemma install_after_check_inv (self : obj) (u : string) (w w' : World)
  (d : dict) :
  install_after_check self u w = (Ok d, w') ->
  succeeded d = true ->
  ids_ok u (settings_instances (pending (db w))) settings_instances_data ->
  exists new,
    install_effect u w w' d new /\ committed (db w') = pending (db w').
Proof.
  intros H Hs Hids. unfold install_after_check in H.
  apply bind_inv in H as (w0 & w0' & Hw & H).
  unfold get_world in Hw. injection Hw as <- <-.
  apply bind_inv in H as ([] & w1 & Hm & H).
  pose proof (pres_mkdir_p (R := same_on (view whole))
                (shared_path (managers w self)) w) as F1.
  rewrite Hm in F1. unfold same_on, view, whole in F1. cbn [snd] in F1.
  injection F1 as Fp1 Fk1 Fc1.
  apply bind_inv in H as (cr & w2 & Hc & H).
  pose proof (pres_copy_plugin_files_impl (R := same_on (view whole)) u
                (shared_path (managers w self)) false w1) as F2.
  rewrite Hc in F2. unfold same_on, view, whole in F2. cbn [snd] in F2.
  injection F2 as Fp2 Fk2 Fc2.
  apply bind_inv in H as (cs & w2' & Hg & H).
  apply getitem_inv in Hg as [Hcs ->].
  destruct (truthy cs) eqn:Tcs; cbn [negb] in H.
  2:{ apply ret_inv in H as [-> _].
      rewrite (not_truthy_not_succeeded _ _ Hcs Tcs) in Hs. discriminate. }
  destruct (install_transaction_inv _ _ _ _ _ _ _ H Hs)
    as (new & (Ht & Hpid & Hmc & Hk) & Hcm).
  { now rewrite Fp2, Fp1. }
  exists new. unfold install_effect.
  rewrite Fp2, Fp1, Fk2, Fk1 in Ht. rewrite Hk, Fk2, Fk1.
  split; [|exact Hcm]. split; [exact Ht|]. now repeat split.
Qed.

Lemma install_plugin_inv (self : obj) (u : string) (w w' : World) (d : dict) :
  install_plugin self u w = (Ok d, w') ->
  succeeded d = true ->
  ids_ok u (settings_instances (pending (db w))) settings_instances_data ->
  exists new,
    install_effect u w w' d new /\ committed (db w') = pending (db w').
Proof.
  intros H Hs Hids. unfold install_plugin in H.
  apply try_inv in H as [H|(e & w1 & _ & H)].
  2:{ apply bind_inv in H as ([] & w2 & _ & H).
      apply ret_inv in H as [-> _]. discriminate. }
  apply bind_inv in H as (ec & w1 & Hc & H).
  pose proof (pres_check_existing_plugin (R := same_on (view whole)) u w) as F.
  rewrite Hc in F. unfold same_on, view, whole in F. cbn [snd] in F.
  injection F as Fp Fk Fc.
  apply bind_inv in H as (ex & w1' & Hg & H).
  apply getitem_inv in Hg as [_ ->].
  destruct (truthy ex).
  { apply bind_inv in H as (pid & w2 & _ & H).
    apply ret_inv in H as [-> _]. discriminate. }
  destruct (install_after_check_inv _ _ _ _ _ H Hs)
    as (new & (Ht & Hpid & Hmc & Hk) & Hcm).
  { now rewrite Fp. }
  exists new. unfold install_effect. rewrite Fp, Fk in Ht. rewrite Hk, Fk.
  split; [|exact Hcm]. split; [exact Ht|]. now repeat split.
Qed.

End InstallEffects.

(** ** Install *)

Lemma created_for_columns (u now : string) (new : list InstRow)
  (ds : list InstanceData) :
  created_for u now new ds ->
  map (fun i => (i_definition_id i, i_scope i, i_user_id i)) new =
  map (fun d => (id_definition_id d, id_scope d, u)) ds.
Proof.
  induction 1 as [|i d new ds [id ->] _ IH]; cbn; [reflexivity|].
  now rewrite IH.
Qed.

Lemma lacks_all (u : string) (l : list InstRow) :
  (forall i, In i l -> i_user_id i <> u) ->
  filter (lacks u l) settings_instances_data = settings_instances_data.
Proof.
  intros H.
  assert (Hl : forall d, lacks u l d = true).
  { intros d. unfold lacks, matching.
    destruct (filter _ l) as [|x rest] eqn:E; [reflexivity|].
    assert (Hx : In x (filter (instance_matches (id_definition_id d) u
                                                (id_scope d)) l))
      by (rewrite E; now left).
    apply filter_In in Hx as [Hin Hm]. unfold instance_matches in Hm.
    apply andb_prop in Hm as [Hm _]. apply andb_prop in Hm as [_ Hu].
    apply String.eqb_eq in Hu. now apply H in Hin. }
  cbn. now rewrite !Hl.
Qed.

Lemma plugin_rows_app (u : string) (t : Tables) (l : list PluginRow) :
  filter (plugin_of u (pd_plugin_slug plugin_data)) (plugin t ++ l) =
  (plugin_rows u t ++ filter (plugin_of u (pd_plugin_slug plugin_data)) l)%list.
Proof. apply filter_app. Qed.

Section InstallTheorem.
Context {J : JsonCodec}.


End InstallTheorem.

Lemma run_ok {A} (c : M A) (w : World) (a : A) :
  eval c w = Ok a -> c w = (Ok a, exec c w).
Proof. unfold eval, exec. destruct (c w) as [r w']. cbn. now intros ->. Qed.

(** [u1] has installed and uninstalled: no plugin row, three settings
    instances left behind. *)
Definition reinstall_world : World :=
  Eval vm_compute in exec (delete_plugin "u1") installed_world.

(** C1 as the specification words it, for the settings instances: every
    successful install for a user without a plugin row creates three. *)
Definition install_creates_three_instances {J : JsonCodec} : Prop :=
  forall self u w r w',
    plugin_rows u (pending (db w)) = [] ->
    install_plugin self u w = (Ok r, w') ->
    succeeded r = true ->
    exists new,
      settings_instances (pending (db w')) =
        (settings_instances (pending (db w)) ++ new)%list /\
      List.length new = 3%nat.



(** ** The round trip of an update *)

(** A database that answers every statement keeps doing so. *)
Definition stays_quiet (w w' : World) : Prop :=
  db_faults (db w) = [] -> db_faults (db w') = [].

#[export] Instance stays_quiet_frame : Frame stays_quiet.
Proof. split; unfold stays_quiet; auto. Qed.

#[export] Instance stays_quiet_db : DbFrame stays_quiet any_change.
Proof.
  split; unfold stays_quiet.
  - intros w H. now rewrite (db_tick_nil w H).
  - intros w t _ H. exact H.
Qed.

#[export] Instance stays_quiet_commit : CommitFrame stays_quiet.
Proof.
  intros w H. unfold commit, bind. now rewrite (db_tick_nil w H).
Qed.

#[export] Instance stays_quiet_rollback : RollbackFrame stays_quiet.
Proof. intros w H. exact H. Qed.

#[export] Instance stays_quiet_io : IoFrame stays_quiet.
Proof. intros w f fl H. exact H. Qed.

#[export] Instance stays_quiet_obj : ObjFrame stays_quiet.
Proof. split; intros; intros H; exact H. Qed.

Section ExportImport.
Context {J : JsonCodec}.

(** The plugin-level configuration [_export_user_data] reads from the
    tables. *)
Definition plugin_config_of (u : string) (t : Tables) : dict :=
  match select_plugin_config u (pd_plugin_slug plugin_data) t with
  | Ok (Some row) =>
      match rcatch (decode_plugin_config row) [JSONDecodeError]
                   (fun _ => Ok []) with
      | Ok d => d
      | Raise _ => []
      end
  | _ => []
  end.

Definition add_module_config (modules_config : dict) (row : ModuleConfig)
  : dict :=
  match decode_module_config row with
  | Ok c => dict_set modules_config (module_row_name row) c
  | Raise _ => modules_config
  end.

(** The module-level configuration it reads. *)
Definition modules_config_of (u : string) (t : Tables) : dict :=
  match select_module_config u (plugin_id_of u) t with
  | Ok rows => fold_left add_module_config rows []
  | Raise _ => []
  end.

Lemma decode_cell_raise (c : option string) (dflt : pyval) (e : exn) :
  decode_cell c dflt = Raise e -> kind e = JSONDecodeError.
Proof.
  unfold decode_cell. destruct (truthy _); [|discriminate].
  destruct (json_loads _); [discriminate|]. intros H. now inversion H.
Qed.

Lemma decode_plugin_config_raise row (e : exn) :
  decode_plugin_config row = Raise e -> kind e = JSONDecodeError.
Proof.
  destruct row as [[cf ms] deps]. unfold decode_plugin_config, rbind.
  destruct (decode_cell cf _) eqn:E1; [|intros H; inversion H; subst;
    eapply decode_cell_raise; eauto].
  destruct (decode_cell ms _) eqn:E2; [|intros H; inversion H; subst;
    eapply decode_cell_raise; eauto].
  destruct (decode_cell deps _) eqn:E3; [discriminate|].
  intros H; inversion H; subst. eapply decode_cell_raise; eauto.
Qed.

Lemma decode_module_config_raise (row : ModuleConfig) (e : exn) :
  decode_module_config row = Raise e -> kind e = JSONDecodeError.
Proof.
  destruct row as [[[[n pr] cf] ms] ly]. unfold decode_module_config, rbind.
  destruct (decode_cell pr _) eqn:E1; [|intros H; inversion H; subst;
    eapply decode_cell_raise; eauto].
  destruct (decode_cell cf _) eqn:E2; [|intros H; inversion H; subst;
    eapply decode_cell_raise; eauto].
  destruct (decode_cell ms _) eqn:E3; [|intros H; inversion H; subst;
    eapply decode_cell_raise; eauto].
  destruct (decode_cell ly _) eqn:E4; [discriminate|].
  intros H; inversion H; subst. eapply decode_cell_raise; eauto.
Qed.

Lemma export_module_step (row : ModuleConfig) (acc : dict) :
  rcatch (rbind (decode_module_config row)
                (fun c => Ok (dict_set acc (module_row_name row) c)))
         [JSONDecodeError] (fun _ => Ok acc) =
  Ok (add_module_config acc row).
Proof.
  unfold add_module_config.
  destruct (decode_module_config row) as [c|e] eqn:E; cbn [rbind rcatch].
  - reflexivity.
  - now rewrite (decode_module_config_raise row e E).
Qed.

Lemma export_modules_loop (rows : list ModuleConfig) (acc : dict) (w : World) :
  for_each rows
    (fun modules_config row =>
       lift (rcatch
               (rbind (decode_module_config row)
                      (fun c => Ok (dict_set modules_config
                                             (module_row_name row) c)))
               [JSONDecodeError]
               (fun _ => Ok modules_config))) acc w =
  (Ok (fold_left add_module_config rows acc), w).
Proof.
  revert acc. induction rows as [|row rows IH]; intros acc;
    cbn [for_each fold_left].
  - reflexivity.
  - unfold bind, lift. rewrite export_module_step. apply IH.
Qed.

(** [_export_user_data] on a database that answers. *)
Lemma export_run (u : string) (w : World) :
  db_faults (db w) = [] ->
  _export_user_data u w =
  (Ok [("success", PBool true);
       ("data", PDict [("plugin_config", PDict (plugin_config_of u (pending (db w))));
                       ("modules_config",
                        PDict (modules_config_of u (pending (db w))));
                       ("export_timestamp", PStr (clock w))])], w).
Proof.
  intros Hf. unfold _export_user_data, try_except.
  unfold bind at 1. rewrite (query_nil _ w Hf).
  unfold plugin_config_of, modules_config_of, select_plugin_config,
    select_module_config.
  destruct (fetchone _) as [row|].
  - unfold bind at 1, lift.
    destruct (decode_plugin_config row) as [d|e] eqn:E; cbn [rcatch].
    + unfold bind at 1. rewrite (query_nil _ w Hf).
      unfold bind at 1. rewrite export_modules_loop. reflexivity.
    + rewrite (decode_plugin_config_raise row e E). cbn.
      unfold bind at 1. rewrite (query_nil _ w Hf).
      unfold bind at 1. rewrite export_modules_loop. reflexivity.
  - unfold bind at 1, ret. unfold bind at 1. rewrite (query_nil _ w Hf).
    unfold bind at 1. rewrite export_modules_loop. reflexivity.
Qed.

(** The tables after a statement. *)
Definition tables_after {A} (r : res (A * Tables)) (t : Tables) : Tables :=
  match r with
  | Ok (_, t') => t'
  | Raise _ => t
  end.

Definition cfg_get (c : pyval) (k : string) (dflt : pyval) : pyval :=
  match c with
  | PDict d => dict_get_default d k dflt
  | _ => dflt
  end.

(** The UPDATE of [_import_user_data] for one exported module. *)
Definition import_module (u : string) (t : Tables) (item : string * pyval)
  : Tables :=
  tables_after
    (update_module_config u (u ++ "_" ++ fst item)
       (json_dumps (cfg_get (snd item) "props" (PDict [])))
       (json_dumps (cfg_get (snd item) "config_fields" (PDict [])))
       (json_dumps (cfg_get (snd item) "messages" (PDict [])))
       (json_dumps (cfg_get (snd item) "layout" (PDict []))) t) t.

(** Its UPDATE of the plugin row. *)
Definition import_plugin (u : string) (pc : dict) (t : Tables) : Tables :=
  if truthy (PDict pc) then
    tables_after
      (update_plugin_config u (plugin_id_of u)
         (json_dumps (dict_get_default pc "config_fields" (PDict [])))
         (json_dumps (dict_get_default pc "messages" (PDict [])))
         (json_dumps (dict_get_default pc "dependencies" (PList []))) t) t
  else t.

Definition import_tables (u : string) (pc mc : dict) (t : Tables) : Tables :=
  fold_left (import_module u) mc (import_plugin u pc t).

Definition is_dict (v : pyval) : Prop := exists d, v = PDict d.

Lemma import_modules_loop (u : string) (mc : dict) :
  Forall (fun item => is_dict (snd item)) mc ->
  forall w,
    db_faults (db w) = [] ->
    exists w',
      for_each mc
        (fun (_ : unit) item =>
           let module_name := fst item in
           let module_config := snd item in
           let module_id := u ++ "_" ++ module_name in
           bind (py_get module_config "props" (PDict [])) (fun props =>
           bind (py_get module_config "config_fields" (PDict []))
                (fun config_fields =>
           bind (py_get module_config "messages" (PDict [])) (fun messages =>
           bind (py_get module_config "layout" (PDict [])) (fun layout =>
           statement (update_module_config u module_id
                        (json_dumps props) (json_dumps config_fields)
                        (json_dumps messages) (json_dumps layout)))))))
        tt w = (Ok tt, w') /\
      pending (db w') = fold_left (import_module u) mc (pending (db w)) /\
      committed (db w') = committed (db w) /\
      db_faults (db w') = [] /\ clock w' = clock w.
Proof.
  induction 1 as [|[name cfg] mc [d Hd] _ IH]; intros w Hf;
    cbn [for_each fold_left].
  - exists w. now repeat split.
  - cbn [snd] in Hd. subst cfg. cbv zeta. cbn [fst snd py_get]. unfold bind at 1.
    unfold bind at 1, ret at 1. unfold bind at 1, ret at 1.
    unfold bind at 1, ret at 1. unfold bind at 1, ret at 1.
    rewrite (statement_nil _ w Hf). unfold update_module_config at 1.
    destruct (IH (with_pending w
                (tables_after
                   (update_module_config u (u ++ "_" ++ name)
                      (json_dumps (dict_get_default d "props" (PDict [])))
                      (json_dumps (dict_get_default d "config_fields" (PDict [])))
                      (json_dumps (dict_get_default d "messages" (PDict [])))
                      (json_dumps (dict_get_default d "layout" (PDict [])))
                      (pending (db w))) (pending (db w)))) Hf)
      as (w' & E & Hp & Hc & Hq & Hk).
    exists w'. split; [exact E|]. split; [|now repeat split].
    rewrite Hp. reflexivity.
Qed.

(** [_import_user_data] on a database that answers, for exported data. *)
Lemma import_run (u : string) (pc mc : dict) (ts : pyval) (w : World) :
  db_faults (db w) = [] ->
  Forall (fun item => is_dict (snd item)) mc ->
  exists w',
    _import_user_data u
      (PDict [("data", PDict [("plugin_config", PDict pc);
                              ("modules_config", PDict mc);
                              ("export_timestamp", ts)])]) w = (Ok tt, w') /\
    pending (db w') = import_tables u pc mc (pending (db w)) /\
    committed (db w') = committed (db w) /\
    db_faults (db w') = [] /\ clock w' = clock w.
Proof.
  intros Hf Hmc. unfold _import_user_data, try_except.
  unfold bind at 1, lift. cbn [truthy py_in dict_get String.eqb Ascii.eqb
                               Bool.eqb negb].
  unfold bind at 1. cbn [py_getitem getitem dict_get String.eqb Ascii.eqb
                         Bool.eqb ret].
  unfold bind at 1. cbn [py_get dict_get_default dict_get String.eqb
                         Ascii.eqb Bool.eqb ret].
  unfold bind at 1. cbn [py_get dict_get_default dict_get String.eqb
                         Ascii.eqb Bool.eqb ret].
  unfold import_tables, import_plugin.
  destruct (truthy (PDict pc)).
  - unfold bind at 1. unfold bind at 1, ret at 1.
    unfold bind at 1, ret at 1. unfold bind at 1, ret at 1.
    rewrite (statement_nil _ w Hf). unfold update_plugin_config at 1.
    unfold bind at 1. cbn [py_items ret].
    destruct (import_modules_loop u mc Hmc
                (with_pending w
                   (tables_after
                      (update_plugin_config u (plugin_id_of u)
                         (json_dumps (dict_get_default pc "config_fields" (PDict [])))
                         (json_dumps (dict_get_default pc "messages" (PDict [])))
                         (json_dumps (dict_get_default pc "dependencies" (PList [])))
                         (pending (db w))) (pending (db w)))) Hf)
      as (w' & E & Hp & Hc & Hq & Hk).
    exists w'.
    match goal with
    | |- context [for_each mc ?b tt ?W] =>
        replace (for_each mc b tt W) with (@Ok unit tt, w')
          by (symmetry; exact E)
    end.
    now repeat split.
  - unfold bind at 1, ret at 1. unfold bind at 1. cbn [py_items ret].
    destruct (import_modules_loop u mc Hmc w Hf)
      as (w' & E & Hp & Hc & Hq & Hk).
    exists w'.
    match goal with
    | |- context [for_each mc ?b tt ?W] =>
        replace (for_each mc b tt W) with (@Ok unit tt, w')
          by (symmetry; exact E)
    end.
    now repeat split.
Qed.

End ExportImport.

Lemma sql_like_refl (p : string) : sql_like p p = true.
Proof.
  induction p as [|c p IH]; [reflexivity|].
  cbn [sql_like]. destruct (Ascii.eqb c "%"%char).
  - match goal with |- _ || ?F p = true => set (any := F) end.
    assert (Hany : forall s, sql_like p s = true -> any s = true).
    { intros s Hs. subst any. destruct s; cbn; now rewrite Hs. }
    now rewrite (Hany p IH), orb_true_r.
  - now rewrite Ascii.eqb_refl, orb_true_r, IH.
Qed.

Lemma eqb_app_prefix (u a b : string) :
  String.eqb (u ++ a) (u ++ b) = String.eqb a b.
Proof.
  induction u as [|c u IH]; cbn; [reflexivity|].
  now rewrite Ascii.eqb_refl.
Qed.

Lemma filter_map_comm {A} (P : A -> bool) (f : A -> A) (l : list A) :
  (forall x, P (f x) = P x) ->
  filter P (map f l) = map f (filter P l).
Proof.
  intros H. induction l as [|x l IH]; cbn; [reflexivity|].
  rewrite H. destruct (P x); cbn; now rewrite IH.
Qed.

Lemma filter_removed {A} (P Q : A -> bool) (l : list A) :
  (forall x, In x l -> P x = true -> Q x = true) ->
  filter P (filter (fun x => negb (Q x)) l) = [].
Proof.
  induction l as [|x l IH]; intros H; cbn; [reflexivity|].
  destruct (Q x) eqn:Eq; cbn.
  - apply IH. intros y Hy. apply H. now right.
  - destruct (P x) eqn:Ep.
    + rewrite (H x (or_introl eq_refl) Ep) in Eq. discriminate.
    + apply IH. intros y Hy. apply H. now right.
Qed.

Lemma Forall2_cons_l {A B} (R : A -> B -> Prop) (x : A) (l : list A)
  (l2 : list B) :
  Forall2 R (x :: l) l2 ->
  exists y l2', l2 = y :: l2' /\ R x y /\ Forall2 R l l2'.
Proof. intros H. inversion H; subst. eauto. Qed.

Lemma Forall2_cons_r {A B} (R : A -> B -> Prop) (y : B) (l : list A)
  (l2 : list B) :
  Forall2 R l (y :: l2) ->
  exists x l', l = x :: l' /\ R x y /\ Forall2 R l' l2.
Proof. intros H. inversion H; subst. eauto. Qed.

Lemma Forall2_nil_l {A B} (R : A -> B -> Prop) (l2 : list B) :
  Forall2 R [] l2 -> l2 = [].
Proof. intros H. now inversion H. Qed.

Lemma Forall2_nil_r {A B} (R : A -> B -> Prop) (l : list A) :
  Forall2 R l [] -> l = [].
Proof. intros H. now inversion H. Qed.

(** An installation's module rows and their values, three of each. *)
Ltac three_modules Hn Hd :=
  let m1 := fresh "m1" in let m2 := fresh "m2" in let m3 := fresh "m3" in
  let v1 := fresh "v1" in let v2 := fresh "v2" in let v3 := fresh "v3" in
  unfold module_data in Hn;
  apply Forall2_cons_r in Hn as (m1 & ?l & -> & [?N1 ?P1] & Hn);
  apply Forall2_cons_r in Hn as (m2 & ?l & -> & [?N2 ?P2] & Hn);
  apply Forall2_cons_r in Hn as (m3 & ?l & -> & [?N3 ?P3] & Hn);
  apply Forall2_nil_r in Hn; subst;
  apply Forall2_cons_l in Hd as (v1 & ?l & -> & ?D1 & Hd);
  apply Forall2_cons_l in Hd as (v2 & ?l & -> & ?D2 & Hd);
  apply Forall2_cons_l in Hd as (v3 & ?l & -> & ?D3 & Hd);
  apply Forall2_nil_l in Hd; subst;
  cbn [md_name] in *.

Section RoundTrip.
Context {J : JsonCodec}.

(** A value that survives [json.dumps] and [json.loads], with a non-empty
    text. *)
Definition stable (v : pyval) : Prop :=
  json_loads (json_dumps v) = Some v /\ json_dumps v <> EmptyString.

Lemma decode_cell_stable (v dflt : pyval) :
  stable v -> decode_cell (Some (json_dumps v)) dflt = Ok v.
Proof.
  intros [Hl Hne]. unfold decode_cell. cbn [opt_val truthy sql_text].
  destruct (String.eqb_spec (json_dumps v) EmptyString); [contradiction|].
  cbn [negb]. now rewrite Hl.
Qed.

Definition plugin_cells (p : PluginRow)
  : option string * option string * option string :=
  (p_config_fields p, p_messages p, p_dependencies p).

Definition module_cells (m : ModuleRow) : ModuleConfig :=
  (m_name m, m_props m, m_config_fields m, m_messages m, m_layout m).

Definition plugin_dict (v : pyval * pyval * pyval) : dict :=
  let '(cf, ms, deps) := v in
  [("config_fields", cf); ("messages", ms); ("dependencies", deps)].

Definition module_dict (v : pyval * pyval * pyval * pyval) : pyval :=
  let '(pr, cf, ms, ly) := v in
  PDict [("props", pr); ("config_fields", cf); ("messages", ms);
         ("layout", ly)].

(** The user's installation as the adapter lays it out: one plugin row
    under the adapter's id, the rows of the three modules, and cells that
    decode to the values [pv] and [mv]. *)
Definition installation (u : string) (t : Tables)
  (pv : pyval * pyval * pyval)
  (mv : list (pyval * pyval * pyval * pyval)) : Prop :=
  (exists p,
     plugin_rows u t = [p] /\ p_id p = plugin_id_of u /\
     decode_plugin_config (plugin_cells p) = Ok (plugin_dict pv)) /\
  (exists ms,
     filter (module_like u (plugin_id_of u)) (module t) = ms /\
     Forall2 (fun m md => m_name m = md_name md /\
                          m_plugin_id m = plugin_id_of u) ms module_data /\
     Forall2 (fun m v => decode_module_config (module_cells m) =
                         Ok (module_dict v)) ms mv).

Definition stable_plugin (pv : pyval * pyval * pyval) : Prop :=
  let '(cf, ms, deps) := pv in stable cf /\ stable ms /\ stable deps.

Definition stable_module (v : pyval * pyval * pyval * pyval) : Prop :=
  let '(pr, cf, ms, ly) := v in
  stable pr /\ stable cf /\ stable ms /\ stable ly.

(** What [_export_user_data] reads from an installation. *)
Lemma installation_export (u : string) (t : Tables) pv mv :
  installation u t pv mv ->
  plugin_config_of u t = plugin_dict pv /\
  modules_config_of u t =
    combine (map md_name module_data) (map module_dict mv).
Proof.
  intros [(p & Hp & _ & Hdp) (ms & Hms & Hn & Hd)]. split.
  - unfold plugin_config_of, select_plugin_config.
    unfold plugin_rows in Hp. rewrite Hp. cbn [map fetchone hd_error].
    fold (plugin_cells p). now rewrite Hdp.
  - unfold modules_config_of, select_module_config. rewrite Hms.
    clear Hms. three_modules Hn Hd.
    cbn [map fold_left]. unfold add_module_config.
    fold (module_cells m1). fold (module_cells m2). fold (module_cells m3).
    rewrite D1, D2, D3. unfold module_cells, module_row_name.
    rewrite N1, N2, N3. reflexivity.
Qed.

Lemma import_module_plugin (u : string) (mc : dict) (t : Tables) :
  plugin (fold_left (import_module u) mc t) = plugin t.
Proof.
  revert t. induction mc as [|item mc IH]; intros t; cbn [fold_left];
    [reflexivity|]. now rewrite IH.
Qed.

Lemma import_plugin_module (u : string) (pc : dict) (t : Tables) :
  module (import_plugin u pc t) = module t.
Proof. unfold import_plugin. now destruct (truthy _). Qed.

(** The plugin row after delete, install and import. *)
Lemma round_trip_plugin (u now : string) (t t3 : Tables) (p : PluginRow)
  (pv : pyval * pyval * pyval) (mc : dict) :
  plugin_rows u t = [p] ->
  p_id p = plugin_id_of u ->
  stable_plugin pv ->
  plugin t3 =
    (plugin (without_plugin u (plugin_id_of u) t) ++ [plugin_row u now])%list ->
  exists p',
    plugin_rows u (import_tables u (plugin_dict pv) mc t3) = [p'] /\
    p_id p' = plugin_id_of u /\
    decode_plugin_config (plugin_cells p') = Ok (plugin_dict pv).
Proof.
  intros Hp Hid Hst H3. destruct pv as [[cf ms] deps].
  destruct Hst as (Scf & Sms & Sdeps).
  unfold import_tables, plugin_rows. rewrite import_module_plugin.
  unfold import_plugin. cbn [plugin_dict truthy]. cbn [tables_after
    update_plugin_config plugin].
  rewrite filter_map_comm.
  2:{ intros x. destruct (plugin_with_id _ _ x); reflexivity. }
  rewrite H3, filter_app. fold (plugin_rows u (without_plugin u (plugin_id_of u) t)).
  pose proof (plugin_rows_without u p t Hp) as Hw. rewrite Hid in Hw.
  rewrite Hw.
  cbn [app filter]. unfold plugin_of at 1.
  cbn [p_user_id p_plugin_slug plugin_row]. rewrite !String.eqb_refl.
  cbn [andb map]. unfold plugin_with_id.
  cbn [p_user_id p_id plugin_row]. rewrite !String.eqb_refl. cbn [andb].
  eexists. split; [reflexivity|]. split; [reflexivity|].
  unfold plugin_cells, decode_plugin_config.
  cbn [set_plugin_config p_config_fields p_messages p_dependencies
       dict_get_default dict_get String.eqb Ascii.eqb Bool.eqb].
  now rewrite !decode_cell_stable.
Qed.

Lemma module_like_row (u now : string) (md : ModuleData) :
  module_like u (plugin_id_of u) (module_row u now md) = true.
Proof.
  unfold module_like. cbn [m_user_id m_plugin_id module_row].
  now rewrite String.eqb_refl, sql_like_refl.
Qed.

Lemma module_like_set (u pat : string) (a b c d : option string)
  (x : ModuleRow) :
  module_like u pat (set_module_config a b c d x) = module_like u pat x.
Proof. reflexivity. Qed.

(** The module rows after delete, install and import. *)
Lemma round_trip_modules (u now : string) (t t3 : Tables) (pc : dict)
  (ms : list ModuleRow) (mv : list (pyval * pyval * pyval * pyval)) :
  filter (module_like u (plugin_id_of u)) (module t) = ms ->
  Forall2 (fun m md => m_name m = md_name md /\
                       m_plugin_id m = plugin_id_of u) ms module_data ->
  Forall2 (fun m v => decode_module_config (module_cells m) =
                      Ok (module_dict v)) ms mv ->
  Forall stable_module mv ->
  module t3 =
    (module (without_plugin u (plugin_id_of u) t)
     ++ map (module_row u now) module_data)%list ->
  exists ms',
    filter (module_like u (plugin_id_of u))
           (module (import_tables u pc
                      (combine (map md_name module_data) (map module_dict mv))
                      t3)) = ms' /\
    Forall2 (fun m md => m_name m = md_name md /\
                         m_plugin_id m = plugin_id_of u) ms' module_data /\
    Forall2 (fun m v => decode_module_config (module_cells m) =
                        Ok (module_dict v)) ms' mv.
Proof.
  intros Hms Hn Hd Hst H3. three_modules Hn Hd.
  assert (Hold : filter (module_like u (plugin_id_of u))
                   (module (without_plugin u (plugin_id_of u) t)) = []).
  { unfold without_plugin. cbn [module]. apply filter_removed.
    intros x Hx Hl.
    assert (Hin : In x [m1; m2; m3])
      by (rewrite <- Hms; apply filter_In; auto).
    unfold module_of. unfold module_like in Hl.
    apply andb_prop in Hl as [Hu _]. rewrite Hu. cbn [andb].
    destruct Hin as [<-|[<-|[<-|[]]]]; apply String.eqb_eq; assumption. }
  clear Hms.
  destruct v1 as [[[a1 b1] c1] d1], v2 as [[[a2 b2] c2] d2],
    v3 as [[[a3 b3] c3] d3].
  apply Forall_cons_iff in Hst as [(Sa1 & Sb1 & Sc1 & Sd1) Hst].
  apply Forall_cons_iff in Hst as [(Sa2 & Sb2 & Sc2 & Sd2) Hst].
  apply Forall_cons_iff in Hst as [(Sa3 & Sb3 & Sc3 & Sd3) _].
  unfold import_tables.
  change (map md_name module_data)
    with ["ComponentTheme"; "ComponentGeneralSettings";
          "ComponentOllamaServer"].
  cbn [map combine module_dict fold_left].
  unfold import_module. cbn [tables_after update_module_config module fst snd].
  rewrite import_plugin_module, !map_map.
  rewrite filter_map_comm.
  2:{ intros x. repeat match goal with
                       | |- context [if ?b then _ else _] => destruct b
                       end; reflexivity. }
  rewrite H3, filter_app, Hold. cbn [app].
  unfold module_data at 1. cbn [map filter].
  rewrite !module_like_row. cbn [map].
  unfold module_with_id.
  repeat (progress
            (cbn [m_user_id m_id module_row md_name set_module_config andb];
             rewrite ?String.eqb_refl, ?eqb_app_prefix;
             cbn [String.eqb Ascii.eqb Bool.eqb andb append])).
  eexists. split; [reflexivity|]. split.
  - unfold module_data. repeat constructor.
  - unfold module_cells. cbn [set_module_config m_name m_props
      m_config_fields m_messages m_layout module_row md_name].
    unfold decode_module_config.
    cbn [cfg_get dict_get_default dict_get String.eqb Ascii.eqb Bool.eqb].
    repeat (first [apply Forall2_cons|apply Forall2_nil]);
      cbn [set_module_config m_props m_config_fields m_messages m_layout];
      rewrite !decode_cell_stable by assumption; reflexivity.
Qed.

Lemma combine_module_dicts (names : list string)
  (mv : list (pyval * pyval * pyval * pyval)) :
  Forall (fun item : string * pyval => is_dict (snd item))
         (combine names (map module_dict mv)).
Proof.
  revert mv. induction names as [|n names IH]; intros mv; cbn;
    [constructor|].
  destruct mv as [|[[[a b] c] d] mv]; cbn; constructor; [|apply IH].
  now eexists.
Qed.


End RoundTrip.

(** [u1]'s installation after the user changed the configuration: a
    plugin-level language, a dependency, and dark theme props. *)
Definition customised_world : World :=
  Eval vm_compute in
    exec (_import_user_data (J := AsciiJson.codec) "u1"
            (PDict [("data",
               PDict [("plugin_config",
                       PDict [("config_fields", PDict [("lang", PStr "en")]);
                              ("messages", PDict []);
                              ("dependencies", PList [PStr "core"])]);
                      ("modules_config",
                       PDict [("ComponentTheme",
                               PDict [("props", PDict [("theme", PStr "dark")]);
                                      ("config_fields", PDict []);
                                      ("messages", no_messages);
                                      ("layout", layout_of 6 2 12 2)])])])]))
         installed_world.

Definition customised_plugin_values : pyval * pyval * pyval :=
  (PDict [("lang", PStr "en")], PDict [], PList [PStr "core"]).

Definition customised_module_values : list (pyval * pyval * pyval * pyval) :=
  [ (PDict [("theme", PStr "dark")], PDict [], no_messages, layout_of 6 2 12 2);
    (PDict [], PDict [], no_messages, layout_of 6 1 12 1);
    (PDict [], PDict [], no_messages, layout_of 6 4 8 5) ].


(** The round trip is one of values, not of stored text: a fresh install
    leaves the plugin's JSON cells NULL, and the update writes the decoded
    defaults back as text. *)
Example update_rewrites_null_cells :
  map plugin_cells (plugin (pending (db installed_world))) =
    [(None, None, None)] /\
  map plugin_cells
      (plugin (pending (db (exec (update_plugin (J := AsciiJson.codec)
                                    0 "u1" 1) installed_world)))) =
    [(Some "{}", Some "{}", Some "[]")].
Proof. split; vm_compute; reflexivity. Qed.

(** * Further properties of the adapter *)

(** ** The file copy *)

(** Of the exclusion patterns only [*.pyc] carries a wildcard. *)
Lemma should_copy_patterns (path : Path) :
  existsb (fun pattern =>
             contains "*" pattern
             && endswith (last path EmptyString) (remove_char "*"%char pattern))
          exclude_patterns =
  endswith (last path EmptyString) ".pyc".
Proof.
  unfold exclude_patterns. cbn [existsb].
  repeat match goal with
         | |- context [contains "*" ?s] =>
             let b := eval vm_compute in (contains "*" s) in
             change (contains "*" s) with b
         end.
  cbn [andb orb].
  change (remove_char "*"%char "*.pyc") with ".pyc".
  now rewrite orb_false_r.
Qed.

(** X1.  [should_copy] accepts a relative path exactly when none of its
    components is one of the excluded names and its last component does not
    end in [.pyc]. *)
Theorem should_copy_spec (path : Path) :
  should_copy path = true <->
  (forall part, In part path -> ~ In part exclude_patterns) /\
  endswith (last path EmptyString) ".pyc" = false.
Proof.
  unfold should_copy. rewrite should_copy_patterns.
  destruct (existsb _ path) eqn:E.
  - split; [discriminate|]. intros [H _].
    apply existsb_exists in E as (part & Hin & Hex).
    apply existsb_exists in Hex as (x & Hx & Heq).
    apply String.eqb_eq in Heq. subst x. exfalso. exact (H part Hin Hx).
  - destruct (endswith _ _) eqn:E2.
    + split; [discriminate|]. intros [_ H]. discriminate.
    + split; [|reflexivity]. intros _. split; [|reflexivity].
      intros part Hin Hex.
      assert (existsb (fun part => existsb (String.eqb part) exclude_patterns)
                      path = true).
      { apply existsb_exists. exists part. split; [exact Hin|].
        apply existsb_exists. exists part.
        split; [exact Hex|apply String.eqb_refl]. }
      congruence.
Qed.

(** A compiled module below an accepted directory is left out; so is
    everything below [node_modules]. *)
Example should_copy_examples :
  should_copy ["src"; "index.tsx"] = true /\
  should_copy ["src"; "tools"; "gen.pyc"] = false /\
  should_copy ["node_modules"; "left-pad.js"] = false /\
  should_copy ["docs"; ".git"; "config"] = false.
Proof. repeat split. Qed.

Lemma for_each_invariant {A S} (P : S -> Prop) (l : list A)
  (body : S -> A -> M S) :
  (forall acc x w acc' w',
     In x l -> P acc -> body acc x w = (Ok acc', w') -> P acc') ->
  forall acc w acc' w',
    P acc -> for_each l body acc w = (Ok acc', w') -> P acc'.
Proof.
  induction l as [|x l IH]; intros Hb acc w acc' w' Hacc H; cbn [for_each] in H.
  - apply ret_inv in H as [-> _]. exact Hacc.
  - apply bind_inv in H as (acc1 & w1 & H1 & H2).
    eapply IH; [|eapply Hb; [now left|exact Hacc|exact H1]|exact H2].
    intros a y v a' v' Hy. apply Hb. now right.
Qed.

(** A name the copy may report: [lifecycle_manager.py], or the relative path
    of an entry below the source directory that [should_copy] accepts. *)
Definition allowed_name (w : World) (name : string) : Prop :=
  name = "lifecycle_manager.py" \/
  exists item,
    In item (rglob (fs w) (removelast (module_file w))) /\
    should_copy (skipn (List.length (removelast (module_file w))) item) = true /\
    name = path_str (skipn (List.length (removelast (module_file w))) item).

(** X2.  Every name in the [copied_files] of a successful copy is
    [lifecycle_manager.py] or the relative path of an entry below the source
    directory that [should_copy] accepts: an excluded entry is never
    reported as copied. *)
Theorem copied_files_pass_should_copy (u : string) (target : Path)
  (update : bool) (w w' : World) (d : dict) :
  _copy_plugin_files_impl u target update w = (Ok d, w') ->
  succeeded d = true ->
  exists names,
    dict_get d "copied_files" = Some (PStrs names) /\
    Forall (allowed_name w) names.
Proof.
  intros H Hs. unfold _copy_plugin_files_impl in H.
  apply try_inv in H as [H|(e & w1 & _ & H)].
  2:{ apply ret_inv in H as [-> _]. discriminate. }
  apply bind_inv in H as (w0 & w0' & Hw & H).
  unfold get_world in Hw. injection Hw as <- <-. cbv zeta in H.
  apply bind_inv in H as (copied & w1 & Hloop & H).
  assert (Hcopied : Forall (allowed_name w) copied).
  { revert Hloop. apply for_each_invariant; [|constructor].
    intros acc item v acc' v' Hin Hacc Hb.
    destruct (_ && _).
    { apply ret_inv in Hb as [-> _]. exact Hacc. }
    destruct (should_copy _) eqn:Hsc; cbn [negb] in Hb.
    2:{ apply ret_inv in Hb as [-> _]. exact Hacc. }
    apply try_inv in Hb as [Hb|(e & v1 & _ & Hb)].
    2:{ apply ret_inv in Hb as [-> _]. exact Hacc. }
    apply bind_inv in Hb as (v0 & v0' & Hv & Hb).
    unfold get_world in Hv. injection Hv as <- <-.
    destruct (is_file _ _).
    { apply bind_inv in Hb as ([] & v2 & _ & Hb).
      apply ret_inv in Hb as [-> _].
      apply Forall_app. split; [exact Hacc|]. constructor; [|constructor].
      right. exists item. auto. }
    destruct (is_dir _ _).
    { apply bind_inv in Hb as ([] & v2 & _ & Hb).
      apply ret_inv in Hb as [-> _]. exact Hacc. }
    apply ret_inv in Hb as [-> _]. exact Hacc. }
  apply bind_inv in H as (w2 & w2' & Hw & H).
  unfold get_world in Hw. injection Hw as <- <-.
  apply bind_inv in H as (copied' & w3 & Hlast & H).
  apply ret_inv in H as [-> _].
  exists copied'. split; [reflexivity|].
  destruct (fs_exists _ _).
  - apply bind_inv in Hlast as ([] & w4 & _ & Hlast).
    apply ret_inv in Hlast as [-> _].
    apply Forall_app. split; [exact Hcopied|].
    constructor; [now left|constructor].
  - apply ret_inv in Hlast as [-> _]. exact Hcopied.
Qed.

(** The checkout is copied without [node_modules]. *)
Lemma copied_files_pass_should_copy_witness :
  exists names,
    Forall (allowed_name fresh_world) names /\
    names = ["package.json"; "dist/remoteEntry.js"; "src/index.tsx";
             "lifecycle_manager.py"].
Proof.
  edestruct (copied_files_pass_should_copy "u1" ["shared"] false fresh_world)
    as (names & Hn & Hall).
  - apply run_ok. compute_lhs.
  - reflexivity.
  - exists names. split; [exact Hall|].
    cbn in Hn. injection Hn as Hn. revert Hn. clear. intros Hn.
    destruct names as [|a [|b [|c [|d [|? ?]]]]]; try discriminate.
    cbn in Hn. now injection Hn as -> -> -> ->.
Defined.

#[export] Instance managers_io : IoFrame (same_on managers).
Proof. intros w f fl. reflexivity. Qed.

(** The loop of [_copy_plugin_files_impl] over the entries of the source
    directory, [w0] being the world the copy starts in. *)
Definition copy_items (target_dir : Path) (update : bool) (w0 : World)
  : M (list string) :=
  let source_dir := removelast (module_file w0) in
  for_each (rglob (fs w0) source_dir)
    (fun copied_files item =>
       if String.eqb (last item EmptyString) "lifecycle_manager.py"
          && path_eqb item (module_file w0)
       then ret copied_files
       else
         let relative_path := skipn (List.length source_dir) item in
         if negb (should_copy relative_path) then ret copied_files else
         let target_path := (target_dir ++ relative_path)%list in
         try_except
           (bind get_world (fun w =>
              if is_file (fs w) item then
                bind (copy_file update item target_path) (fun _ =>
                  ret (copied_files ++ [path_str relative_path])%list)
              else if is_dir (fs w) item then
                bind (mkdir_p target_path) (fun _ => ret copied_files)
              else ret copied_files))
           (fun _ => ret copied_files)) [].

Lemma total_for_each {A S} (l : list A) (body : S -> A -> M S) :
  (forall acc x, total (body acc x)) -> forall acc, total (for_each l body acc).
Proof.
  intros Hb. induction l as [|x l IH]; intros acc; cbn [for_each].
  - apply total_ret.
  - apply total_bind; [apply Hb|exact IH].
Qed.

Lemma copy_items_total (target : Path) (update : bool) (w0 : World) :
  total (copy_items target update w0).
Proof.
  unfold copy_items. cbv zeta. apply total_for_each. intros acc item.
  destruct (_ && _); [apply total_ret|].
  destruct (negb _); [apply total_ret|].
  apply total_try. intros e. apply total_ret.
Qed.

Definition copy_success (copied_files : list string) : dict :=
  [("success", PBool true); ("copied_files", PStrs copied_files)].

(** X3.  Whatever the filesystem answers, the loop over the entries of the
    source directory runs to its end: an entry whose copy raises is skipped.
    The result of the copy is decided by the last step alone: a success
    with the names collected when there is no [lifecycle_manager.py] to
    copy or when its copy returns, a failure with the error when its copy
    raises. *)
Theorem item_failures_are_skipped (u : string) (target : Path) (update : bool)
  (w : World) :
  let source := path_join (removelast (module_file w)) "lifecycle_manager.py" in
  let dest := path_join target "lifecycle_manager.py" in
  exists copied w1,
    copy_items target update w w = (Ok copied, w1) /\
    (fs_exists (fs w1) source = false ->
     _copy_plugin_files_impl u target update w =
       (Ok (copy_success copied), w1)) /\
    (fs_exists (fs w1) source = true ->
     forall w2, copy_file update source dest w1 = (Ok tt, w2) ->
       _copy_plugin_files_impl u target update w =
         (Ok (copy_success (copied ++ ["lifecycle_manager.py"])), w2)) /\
    (fs_exists (fs w1) source = true ->
     forall e w2, copy_file update source dest w1 = (Raise e, w2) ->
       _copy_plugin_files_impl u target update w =
         (Ok (failure (str_e e)), w2)).
Proof.
  cbv zeta. destruct (copy_items_total target update w w) as (copied & w1 & E).
  exists copied, w1. split; [exact E|].
  assert (Hrun :
    _copy_plugin_files_impl u target update w =
    try_except
      (bind (if fs_exists (fs w1)
                  (path_join (removelast (module_file w)) "lifecycle_manager.py")
             then bind (copy_file update
                          (path_join (removelast (module_file w))
                                     "lifecycle_manager.py")
                          (path_join target "lifecycle_manager.py"))
                       (fun _ => ret (copied ++ ["lifecycle_manager.py"])%list)
             else ret copied)
            (fun copied_files => ret (copy_success copied_files)))
      (fun e => ret (failure (str_e e))) w1).
  { unfold _copy_plugin_files_impl, try_except.
    unfold bind at 1, get_world at 1. cbv zeta. unfold bind at 1.
    match goal with
    | |- context [for_each ?l ?b [] w] =>
        change (for_each l b [] w) with (copy_items target update w w)
    end.
    rewrite E. reflexivity. }
  rewrite Hrun. unfold try_except, bind.
  split; [|split].
  - intros ->. reflexivity.
  - intros -> w2 Hc. now rewrite Hc.
  - intros -> e w2 Hc. now rewrite Hc.
Qed.

(** The first file operation is refused: [package.json] is skipped and the
    copy still succeeds. *)
Example copy_skips_a_failed_item :
  eval (_copy_plugin_files_impl "u1" ["shared"] false)
       (with_fs fresh_world checkout [Some "disk full"]) =
  Ok (copy_success ["dist/remoteEntry.js"; "src/index.tsx";
                    "lifecycle_manager.py"]).
Proof. vm_compute. reflexivity. Qed.

(** X4.  The copy never raises, always answers with a "success" entry, and
    leaves the database session and the manager objects as they are. *)
Theorem copy_touches_files_only (u : string) (target : Path) (update : bool)
  (w : World) :
  (exists d, eval (_copy_plugin_files_impl u target update) w = Ok d /\
             has_success d) /\
  db (exec (_copy_plugin_files_impl u target update) w) = db w /\
  managers (exec (_copy_plugin_files_impl u target update) w) = managers w.
Proof.
  split; [|split].
  - assert (T : total (_copy_plugin_files_impl u target update))
      by (apply total_try; intros e; apply total_ret).
    destruct (T w) as (d & w' & E). exists d. unfold eval. rewrite E.
    split; [reflexivity|]. exact (copy_has_success u target update w d w' E).
  - exact (pres_copy_plugin_files_impl (R := same_on db) u target update w).
  - exact (pres_copy_plugin_files_impl (R := same_on managers) u target update w).
Qed.

(** ** Finer frames: the statements of one user, the active sets *)

Class UuidFrame (R : World -> World -> Prop) : Prop :=
  frame_next_uuid : forall w n, R w (with_uuid_next w n).

Class AddFrame (R : World -> World -> Prop) : Prop :=
  frame_add_active : forall w o u, R w (snd (add_active_user o u w)).

Class DiscardFrame (R : World -> World -> Prop) : Prop :=
  frame_discard_active : forall w o u, R w (snd (discard_active_user o u w)).

(** The statements the verbs issue for the user [u]. *)
Class UserStmts {J : JsonCodec} (u : string) (St : Tables -> Tables -> Prop)
  : Prop := {
  ust_insert_instance : forall id now d t a t',
    In d settings_instances_data ->
    insert_instance (instance_row id u now d) t = Ok (a, t') -> St t t';
  ust_insert_plugin : forall now t a t',
    insert_plugin (plugin_row u now) t = Ok (a, t') -> St t t';
  ust_insert_module : forall now md t a t',
    In md module_data ->
    insert_module (module_row u now md) t = Ok (a, t') -> St t t';
  ust_delete_modules : forall pid t a t',
    delete_modules u pid t = Ok (a, t') -> St t t';
  ust_delete_plugin_row : forall pid t a t',
    delete_plugin_row u pid t = Ok (a, t') -> St t t';
  ust_update_plugin_config : forall pid a b c t x t',
    update_plugin_config u pid a b c t = Ok (x, t') -> St t t';
  ust_update_module_config : forall mid a b c d t x t',
    update_module_config u mid a b c d t = Ok (x, t') -> St t t'
}.

Ltac user_step :=
  lazymatch goal with
  | |- pres _ (statement _) =>
      eapply pres_statement; intros;
      first [ eapply ust_insert_instance; eassumption
            | eapply ust_insert_plugin; eassumption
            | eapply ust_insert_module; eassumption
            | eapply ust_delete_modules; eassumption
            | eapply ust_delete_plugin_row; eassumption
            | eapply ust_update_plugin_config; eassumption
            | eapply ust_update_module_config; eassumption
            | eapply st_insert_definition; eassumption ]
  | |- pres _ fresh_uuid => intros ?; apply frame_next_uuid
  | |- pres _ (add_active_user _ _) => intros ?; apply frame_add_active
  | |- pres _ (discard_active_user _ _) => intros ?; apply frame_discard_active
  | |- _ => pres_step
  end.

Ltac user_auto := repeat user_step.

Section UserPreservation.
Context {J : JsonCodec}.
Context {R : World -> World -> Prop} {St : Tables -> Tables -> Prop}.
Context {F : Frame R} {D : DbFrame R St} {DfS : DefStmts St}.
Context {C : CommitFrame R} {RB : RollbackFrame R} {I : IoFrame R}
        {UF : UuidFrame R} {AF : AddFrame R}.
Variable u : string.
Context {US : UserStmts u St}.

Lemma user_create_settings_instances : pres R (_create_settings_instances u).
Proof. unfold _create_settings_instances. user_auto. Qed.

Lemma user_create_database_records : pres R (_create_database_records u).
Proof.
  unfold _create_database_records.
  user_auto; first [ apply pres_check_existing_plugin
                   | apply pres_ensure_settings_definitions
                   | apply user_create_settings_instances ].
Qed.

Lemma user_perform_user_installation : pres R (_perform_user_installation u).
Proof.
  unfold _perform_user_installation.
  user_auto; apply user_create_database_records.
Qed.

Lemma user_install_for_user (self : obj) : pres R (install_for_user self u).
Proof.
  unfold install_for_user. user_auto; apply user_perform_user_installation.
Qed.

Lemma user_install_transaction (self : obj) (shared : Path) (cr : dict) :
  pres R (install_transaction self u shared cr).
Proof.
  unfold install_transaction.
  user_auto; first [ apply user_install_for_user
                   | apply pres_check_existing_plugin ].
Qed.

Lemma user_install_after_check (self : obj) :
  pres R (install_after_check self u).
Proof.
  unfold install_after_check.
  user_auto; first [ apply pres_copy_plugin_files_impl
                   | apply user_install_transaction ].
Qed.

Lemma user_install_plugin (self : obj) : pres R (install_plugin self u).
Proof.
  unfold install_plugin.
  user_auto; first [ apply pres_check_existing_plugin
                   | apply user_install_after_check ].
Qed.

Lemma user_delete_database_records (pid : string) :
  pres R (_delete_database_records u pid).
Proof. unfold _delete_database_records. user_auto. Qed.

Lemma user_delete_plugin : pres R (delete_plugin u).
Proof.
  unfold delete_plugin.
  user_auto; first [ apply pres_check_existing_plugin
                   | apply user_delete_database_records ].
Qed.

Lemma user_perform_user_uninstallation :
  pres R (_perform_user_uninstallation u).
Proof.
  unfold _perform_user_uninstallation.
  user_auto; first [ apply pres_check_existing_plugin
                   | apply user_delete_database_records ].
Qed.

Lemma user_uninstall_for_user {DF : DiscardFrame R} (self : obj) :
  pres R (uninstall_for_user self u).
Proof.
  unfold uninstall_for_user.
  user_auto; apply user_perform_user_uninstallation.
Qed.

Lemma user_import_user_data (user_data : pyval) :
  pres R (_import_user_data u user_data).
Proof.
  unfold _import_user_data, py_getitem, py_get, py_items. user_auto.
Qed.

Lemma user_update_import (user_data : pyval) :
  pres R (update_import u user_data).
Proof. unfold update_import. user_auto; apply user_import_user_data. Qed.

Lemma user_update_plugin (self new : obj) : pres R (update_plugin self u new).
Proof.
  unfold update_plugin.
  user_auto; first [ apply pres_export_user_data
                   | apply user_delete_plugin
                   | apply user_install_plugin
                   | apply user_update_import ].
Qed.

End UserPreservation.

(** ** The active users of a manager object *)

#[export] Instance any_user {J : JsonCodec} (u : string) : UserStmts u any_change.
Proof. split; intros; exact I. Qed.

#[export] Instance managers_db : DbFrame (same_on managers) any_change.
Proof. split; [apply tick_of_faults|]; intros; reflexivity. Qed.
#[export] Instance managers_commit : CommitFrame (same_on managers).
Proof.
  intros w. unfold commit, bind, db_tick.
  destruct (db_faults (db w)) as [|[m|] fl]; reflexivity.
Qed.
#[export] Instance managers_rollback : RollbackFrame (same_on managers).
Proof. intros w. reflexivity. Qed.
#[export] Instance managers_uuid : UuidFrame (same_on managers).
Proof. intros w n. reflexivity. Qed.

Definition is_active (self : obj) (u : string) (w : World) : bool :=
  existsb (String.eqb u) (active_users (managers w self)).

(** No user leaves an active set. *)
Definition stays_active (w w' : World) : Prop :=
  forall o v, is_active o v w = true -> is_active o v w' = true.

#[export] Instance stays_active_frame : Frame stays_active.
Proof. split; unfold stays_active; auto. Qed.
#[export] Instance stays_active_db : DbFrame stays_active any_change.
Proof.
  split; [apply tick_of_faults; intros w fl o v Ha; exact Ha|].
  intros w t _ o v Ha. exact Ha.
Qed.
#[export] Instance stays_active_commit : CommitFrame stays_active.
Proof.
  intros w o v H. unfold commit, bind, db_tick.
  destruct (db_faults (db w)) as [|[m|] fl]; exact H.
Qed.
#[export] Instance stays_active_rollback : RollbackFrame stays_active.
Proof. intros w o v H. exact H. Qed.
#[export] Instance stays_active_io : IoFrame stays_active.
Proof. intros w f fl o v H. exact H. Qed.
#[export] Instance stays_active_uuid : UuidFrame stays_active.
Proof. intros w n o v H. exact H. Qed.
#[export] Instance stays_active_add : AddFrame stays_active.
Proof.
  intros w o u o' v H. unfold is_active in *. cbn.
  destruct (Nat.eqb o' o) eqn:E; [|exact H].
  apply Nat.eqb_eq in E. subst o'. cbn.
  destruct (existsb (String.eqb u) _); [exact H|].
  rewrite existsb_app, H. reflexivity.
Qed.

Section ActiveUsers.
Context {J : JsonCodec}.

Lemma pres_run_verb_active (v : verb) : pres stays_active (run_verb v).
Proof.
  destruct v as [self u|u|self u new|u]; cbn [run_verb].
  - apply (user_install_plugin u (US := any_user u)).
  - apply (user_delete_plugin u (US := any_user u)).
  - apply (user_update_plugin u (US := any_user u)).
  - apply (pres_get_plugin_status (St := any_change)).
Qed.

Lemma run_verbs_stays_active (l : list verb) (w : World) :
  stays_active w (run_verbs l w).
Proof.
  revert w. induction l as [|v l IH]; intros w; cbn [run_verbs].
  - apply frame_refl.
  - eapply frame_trans; [apply (pres_run_verb_active v w)|apply IH].
Qed.

Lemma install_for_user_active (self : obj) (u : string) (w w' : World)
  (d : dict) :
  install_for_user self u w = (Ok d, w') ->
  succeeded d = true ->
  is_active self u w = false /\ is_active self u w' = true.
Proof.
  intros H Hs. unfold install_for_user in H.
  apply bind_inv in H as (w0 & w0' & Hw & H).
  unfold get_world in Hw. injection Hw as <- <-.
  fold (is_active self u w) in H.
  destruct (is_active self u w) eqn:Ea.
  { apply ret_inv in H as [-> _]. discriminate. }
  split; [reflexivity|].
  apply bind_inv in H as (r & w1 & Hr & H).
  pose proof (user_perform_user_installation (R := same_on managers) u
                (US := any_user u) w) as Fm.
  rewrite Hr in Fm. unfold same_on in Fm. cbn [snd] in Fm.
  apply bind_inv in H as (s & w1' & Hg & H).
  apply getitem_inv in Hg as [Hsr ->].
  apply bind_inv in H as ([] & w2 & Ha & H).
  apply ret_inv in H as [-> ->].
  rewrite (succeeded_truthy _ _ Hsr) in Hs. rewrite Hs in Ha.
  unfold add_active_user in Ha. injection Ha as <-.
  unfold is_active. cbn. rewrite Nat.eqb_refl. cbn.
  destruct (existsb (String.eqb u) (active_users (managers w1 self))) eqn:E;
    [exact E|].
  rewrite existsb_app. cbn. now rewrite String.eqb_refl, orb_true_r.
Qed.

Lemma install_transaction_active (self : obj) (u : string) (shared : Path)
  (cr : dict) (w w' : World) (d : dict) :
  install_transaction self u shared cr w = (Ok d, w') ->
  succeeded d = true ->
  is_active self u w = false /\ is_active self u w' = true.
Proof.
  intros H Hs. unfold install_transaction in H.
  apply try_inv in H as [H|(e & w1 & _ & H)].
  2:{ apply bind_inv in H as ([] & w2 & _ & H).
      apply ret_inv in H as [-> _]. discriminate. }
  apply bind_inv in H as (r & w1 & Hr & H).
  destruct (truthy (dict_get_default r "success" PNone)) eqn:Tr.
  2:{ apply bind_inv in H as ([] & w2 & _ & H).
      apply ret_inv in H as [-> _]. unfold succeeded in Hs. congruence. }
  destruct (install_for_user_active self u w w1 r Hr Tr) as [H0 H1].
  split; [exact H0|].
  apply bind_inv in H as (vc & w2 & Hv & H).
  pose proof (pres_check_existing_plugin (R := same_on managers) u w1) as F.
  rewrite Hv in F. unfold same_on in F. cbn [snd] in F.
  apply bind_inv in H as (vex & w2' & Hg & H).
  apply getitem_inv in Hg as [_ ->].
  destruct (negb (truthy vex)).
  { apply ret_inv in H as [-> _]. discriminate. }
  cbv zeta in H. apply bind_inv in H as ([] & w3 & Hcm & H).
  apply ret_inv in H as [_ ->].
  pose proof (pres_commit (R := same_on managers) w2) as Fc.
  rewrite Hcm in Fc. unfold same_on in Fc. cbn [snd] in Fc.
  unfold is_active in *. now rewrite Fc, F.
Qed.

Lemma install_plugin_active (self : obj) (u : string) (w w' : World)
  (d : dict) :
  install_plugin self u w = (Ok d, w') ->
  succeeded d = true ->
  is_active self u w = false /\ is_active self u w' = true.
Proof.
  intros H Hs. unfold install_plugin in H.
  apply try_inv in H as [H|(e & w1 & _ & H)].
  2:{ apply bind_inv in H as ([] & w2 & _ & H).
      apply ret_inv in H as [-> _]. discriminate. }
  apply bind_inv in H as (ec & w1 & Hc & H).
  pose proof (pres_check_existing_plugin (R := same_on managers) u w) as F.
  rewrite Hc in F. unfold same_on in F. cbn [snd] in F.
  apply bind_inv in H as (ex & w1' & Hg & H).
  apply getitem_inv in Hg as [_ ->].
  destruct (truthy ex).
  { apply bind_inv in H as (pid & w2 & _ & H).
    apply ret_inv in H as [-> _]. discriminate. }
  unfold install_after_check in H.
  apply bind_inv in H as (w0 & w0' & Hw & H).
  unfold get_world in Hw. injection Hw as <- <-.
  apply bind_inv in H as ([] & w2 & Hm & H).
  pose proof (pres_mkdir_p (R := same_on managers)
                (shared_path (managers w1 self)) w1) as F1.
  rewrite Hm in F1. unfold same_on in F1. cbn [snd] in F1.
  apply bind_inv in H as (cr & w3 & Hcp & H).
  pose proof (pres_copy_plugin_files_impl (R := same_on managers) u
                (shared_path (managers w1 self)) false w2) as F2.
  rewrite Hcp in F2. unfold same_on in F2. cbn [snd] in F2.
  apply bind_inv in H as (cs & w3' & Hg & H).
  apply getitem_inv in Hg as [Hcs ->].
  destruct (truthy cs) eqn:Tcs; cbn [negb] in H.
  2:{ apply ret_inv in H as [-> _].
      rewrite (not_truthy_not_succeeded _ _ Hcs Tcs) in Hs. discriminate. }
  destruct (install_transaction_active _ _ _ _ _ _ _ H Hs) as [H0 H1].
  split; [|exact H1]. unfold is_active in *. now rewrite <- F, <- F1, <- F2.
Qed.


End ActiveUsers.


(** ** The hooks of the base class *)

#[export] Instance obj_uuid (R : World -> World -> Prop) {O : ObjFrame R}
  : UuidFrame R.
Proof. intros w n. apply frame_uuid. Qed.
#[export] Instance obj_add (R : World -> World -> Prop) {O : ObjFrame R}
  : AddFrame R.
Proof. intros w o u. apply frame_manager. Qed.
#[export] Instance obj_discard (R : World -> World -> Prop) {O : ObjFrame R}
  : DiscardFrame R.
Proof. intros w o u. apply frame_manager. Qed.

Lemma discard_not_active (u : string) (l : list string) :
  existsb (String.eqb u) (filter (fun x => negb (String.eqb u x)) l) = false.
Proof.
  induction l as [|x l IH]; cbn; [reflexivity|].
  destruct (String.eqb u x) eqn:E; cbn; [exact IH|]. now rewrite E.
Qed.

Section Hooks.
Context {J : JsonCodec}.

(** A successful [_perform_user_uninstallation] found a plugin row and
    deleted, in the open transaction, the module rows and the plugin row. *)
Lemma perform_uninstallation_inv (u : string) (w w' : World) (d : dict) :
  _perform_user_uninstallation u w = (Ok d, w') ->
  succeeded d = true ->
  exists r others,
    plugin_rows u (pending (db w)) = r :: others /\
    pending (db w') = without_plugin u (p_id r) (pending (db w)) /\
    managers w' = managers w /\
    dict_get d "plugin_id" = Some (PStr (p_id r)) /\
    dict_get d "deleted_modules" =
      Some (PInt (deleted_count u (p_id r) (pending (db w)))).
Proof.
  unfold _perform_user_uninstallation, try_except, bind.
  destruct (fault_cases (db_faults (db w))) as [H1|(m & rest & H1)].
  2:{ rewrite (check_existing_fault u w m rest H1). cbn.
      intros E; inversion E; subst. discriminate. }
  rewrite (check_existing_ok u w H1). unfold existing_result.
  destruct (plugin_rows u (pending (db w))) as [|r others] eqn:Hrows.
  { cbn. intros E; inversion E; subst. discriminate. }
  cbn [getitem dict_get String.eqb Ascii.eqb Bool.eqb ret truthy negb sql_text].
  unfold _delete_database_records, try_except, bind.
  destruct (fault_cases (db_faults (db (after_tick w)))) as [H2|(m & rest & H2)].
  2:{ rewrite (statement_fault _ _ m rest H2). cbn.
      intros E; inversion E; subst. discriminate. }
  rewrite (statement_ok _ _ H2). cbn [delete_modules].
  match goal with
  | |- context [statement ?f ?w0] =>
      destruct (fault_cases (db_faults (db w0))) as [H3|(m & rest & H3)];
      [rewrite (statement_ok f w0 H3)
      |rewrite (statement_fault f w0 m rest H3); cbn;
       intros E; inversion E; subst; discriminate]
  end.
  cbn [delete_plugin_row ret getitem dict_get String.eqb Ascii.eqb Bool.eqb
       truthy negb].
  intros E _. inversion E; subst. exists r, others. now repeat split.
Qed.

(** X6.  The two hooks of the base class leave the transaction to their
    caller: [install_for_user] and [uninstall_for_user] never change the
    committed store.  [uninstall_for_user] refuses a user who is not in
    the manager's [active_users] without a statement; when it succeeds the
    user was active and is no longer, and the module rows and the plugin
    row of the first plugin row found are deleted in the open
    transaction. *)
Theorem hooks_leave_the_commit_to_the_caller (self : obj) (u : string)
  (w : World) :
  committed (db (exec (install_for_user self u) w)) = committed (db w) /\
  committed (db (exec (uninstall_for_user self u) w)) = committed (db w) /\
  (is_active self u w = false ->
   uninstall_for_user self u w =
     (Ok (failure "Plugin not installed for user"), w)) /\
  (forall d w',
     uninstall_for_user self u w = (Ok d, w') ->
     succeeded d = true ->
     is_active self u w = true /\ is_active self u w' = false /\
     exists r others,
       plugin_rows u (pending (db w)) = r :: others /\
       pending (db w') = without_plugin u (p_id r) (pending (db w))).
Proof.
  split; [|split; [|split]].
  - exact (pres_install_for_user (R := same_on committed_of) self u w).
  - exact (user_uninstall_for_user (R := same_on committed_of) u
             (US := any_user u) self w).
  - intros Ha. unfold uninstall_for_user, bind, get_world.
    fold (is_active self u w). now rewrite Ha.
  - intros d w' H Hs. unfold uninstall_for_user in H.
    apply bind_inv in H as (w0 & w0' & Hw & H).
    unfold get_world in Hw. injection Hw as <- <-.
    fold (is_active self u w) in H.
    destruct (is_active self u w) eqn:Ea; cbn [negb] in H.
    2:{ apply ret_inv in H as [-> _]. discriminate. }
    split; [reflexivity|].
    apply bind_inv in H as (r & w1 & Hr & H).
    apply bind_inv in H as (s & w1' & Hg & H).
    apply getitem_inv in Hg as [Hsr ->].
    apply bind_inv in H as ([] & w2 & Hd & H).
    apply ret_inv in H as [-> ->].
    destruct (perform_uninstallation_inv u w w1 r Hr Hs)
      as (p & others & Hrows & Hp & _).
    rewrite (succeeded_truthy _ _ Hsr) in Hs. rewrite Hs in Hd.
    unfold discard_active_user in Hd. injection Hd as <-.
    split.
    + unfold is_active. cbn. rewrite Nat.eqb_refl. cbn.
      apply discard_not_active.
    + exists p, others. split; [exact Hrows|exact Hp].
Qed.

End Hooks.

(** [u1], installed through manager 0, is uninstalled through its hook:
    the rows are gone from the open transaction, not from the committed
    store, and manager 0 installs the user again. *)
Example uninstall_hook_then_install :
  let w1 := exec (uninstall_for_user 0 "u1")
                 installed_world in
  plugin (pending (db w1)) = [] /\
  List.length (plugin (committed (db w1))) = 1%nat /\
  is_active 0 "u1" w1 = false /\
  succeeded (match eval (install_plugin (J := AsciiJson.codec) 0 "u1") w1 with
             | Ok d => d
             | Raise _ => []
             end) = true.
Proof. repeat split; vm_compute; reflexivity. Qed.

(** ** Reads *)

(** Everything but the script of the database's answers. *)
Definition but_faults (w : World) :=
  (committed (db w), pending (db w), fs w, io_faults w, managers w, clock w,
   uuid_next w).

#[export] Instance but_faults_db : DbFrame (same_on but_faults) unchanged.
Proof.
  split; [apply tick_of_faults; intros; reflexivity|].
  intros w t Ht. unfold same_on, but_faults, unchanged in *. cbn. now subst.
Qed.

Section Reads.
Context {J : JsonCodec}.

(** X7.  The existence check, [get_plugin_status] and [_export_user_data]
    only read: they never raise, and they leave the tables (in the
    transaction and committed), the files and the manager objects as they
    are; each consumes only answers of the database.  The status carries
    "installed", the export carries "success". *)
Theorem reads_change_nothing (u : string) (w : World) :
  but_faults (exec (_check_existing_plugin u) w) = but_faults w /\
  but_faults (exec (get_plugin_status u) w) = but_faults w /\
  but_faults (exec (_export_user_data u) w) = but_faults w /\
  (exists d v, eval (_check_existing_plugin u) w = Ok d /\
               dict_get d "exists" = Some v) /\
  (exists d v, eval (get_plugin_status u) w = Ok d /\
               dict_get d "installed" = Some v) /\
  (exists d, eval (_export_user_data u) w = Ok d /\ has_success d).
Proof.
  split; [|split; [|split; [|split; [|split]]]].
  - exact (pres_check_existing_plugin (R := same_on but_faults) u w).
  - exact (pres_get_plugin_status (R := same_on but_faults) u w).
  - exact (pres_export_user_data (R := same_on but_faults) u w).
  - unfold eval.
    destruct (fault_cases (db_faults (db w))) as [H|(m & rest & H)].
    + rewrite (check_existing_ok u w H). unfold existing_result.
      destruct (plugin_rows u (pending (db w))); now eexists _, _.
    + rewrite (check_existing_fault u w m rest H). now eexists _, _.
  - unfold eval, get_plugin_status, try_except, bind.
    destruct (fault_cases (db_faults (db w))) as [H|(m & rest & H)].
    + rewrite (check_existing_ok u w H). unfold existing_result.
      destruct (plugin_rows u (pending (db w))); now eexists _, _.
    + rewrite (check_existing_fault u w m rest H). now eexists _, _.
  - destruct (export_total u w) as (d & w' & E). exists d.
    unfold eval. rewrite E. split; [reflexivity|].
    exact (export_has_success u w d w' E).
Qed.

End Reads.

(** ** Status after install and after uninstall *)

Definition status_installed (plugin_id : string) : dict :=
  [("installed", PBool true);
   ("plugin_id", PStr plugin_id);
   ("plugin_slug", PStr (pd_plugin_slug plugin_data));
   ("plugin_name", PStr (pd_name plugin_data));
   ("version", PStr (pd_version plugin_data))].

Lemma status_present (u : string) (w : World) (r : PluginRow)
  (others : list PluginRow) :
  plugin_rows u (pending (db w)) = r :: others ->
  no_fault (db_faults (db w)) ->
  eval (get_plugin_status u) w = Ok (status_installed (p_id r)).
Proof.
  intros Hrows H. unfold eval, get_plugin_status, try_except, bind.
  rewrite (check_existing_ok u w H). unfold existing_result.
  now rewrite Hrows.
Qed.

Section StatusAfter.
Context {J : JsonCodec}.

Lemma installed_plugin_rows (u now : string) (new : list InstRow)
  (t t' : Tables) :
  plugin_rows u t = [] ->
  installed_tables u now new t t' ->
  plugin_rows u t' = [plugin_row u now].
Proof.
  intros Hrows (Hp & _). unfold plugin_rows at 1.
  rewrite Hp, plugin_rows_app, Hrows. cbn [app filter]. unfold plugin_of.
  cbn [p_user_id p_plugin_slug plugin_row]. now rewrite !String.eqb_refl.
Qed.


(** X9.  After a successful uninstall of a user who had one plugin row, the
    status query reports [installed: False], in the same transaction and
    in a new one and whatever the database answers, and a second uninstall
    fails with "Plugin not found for user" and changes no table. *)
Theorem uninstall_then_status (u : string) (w w1 : World) (d : dict)
  (r : PluginRow) :
  plugin_rows u (pending (db w)) = [r] ->
  delete_plugin u w = (Ok d, w1) ->
  succeeded d = true ->
  eval (get_plugin_status u) w1 = Ok [("installed", PBool false)] /\
  eval (get_plugin_status u) (exec rollback w1) =
    Ok [("installed", PBool false)] /\
  exists w2,
    delete_plugin u w1 = (Ok (failure "Plugin not found for user"), w2) /\
    pending (db w2) = pending (db w1) /\
    committed (db w2) = committed (db w1).
Proof.
  intros Hrows H Hs.
  destruct (delete_plugin_success_inv u w w1 d H Hs)
    as (r' & others & Hr' & Hp & Hc).
  rewrite Hrows in Hr'. injection Hr' as <- <-.
  pose proof (plugin_rows_without u r _ Hrows) as Hnone.
  split; [|split].
  - apply status_absent. now rewrite Hp.
  - apply status_absent. unfold exec, rollback. cbn. now rewrite Hc.
  - apply delete_plugin_absent. now rewrite Hp.
Qed.

End StatusAfter.


Lemma uninstall_then_status_witness :
  eval (get_plugin_status "u1") reinstall_world =
    Ok [("installed", PBool false)] /\
  eval (get_plugin_status "u1") (exec rollback reinstall_world) =
    Ok [("installed", PBool false)] /\
  exists w2,
    delete_plugin "u1" reinstall_world =
      (Ok (failure "Plugin not found for user"), w2) /\
    pending (db w2) = pending (db reinstall_world) /\
    committed (db w2) = committed (db reinstall_world).
Proof.
  apply (uninstall_then_status "u1" installed_world reinstall_world
           [("success", PBool true); ("deleted_modules", PInt 3)]
           (plugin_row (J := AsciiJson.codec) "u1" "2025-03-06 12:00:00")).
  - vm_compute. reflexivity.
  - vm_compute. reflexivity.
  - reflexivity.
Defined.

(** ** Uninstall after install, update without an installation *)

Lemma filter_none {A} (p : A -> bool) (l : list A) :
  filter p l = [] -> filter (fun x => negb (p x)) l = l.
Proof.
  induction l as [|x l IH]; cbn; [reflexivity|].
  destruct (p x); [discriminate|]. intros H. cbn. now rewrite IH.
Qed.

Lemma filter_all_false {A} (p : A -> bool) (l : list A) :
  (forall x, In x l -> p x = false) -> filter p l = [].
Proof.
  induction l as [|x l IH]; cbn; [reflexivity|]. intros H.
  rewrite (H x (or_introl eq_refl)). apply IH. intros y Hy. apply H. now right.
Qed.

Section InstallUninstall.
Context {J : JsonCodec}.

Lemma module_of_row (u now : string) (md : ModuleData) :
  module_of u (plugin_id_of u) (module_row u now md) = true.
Proof.
  unfold module_of. cbn [m_user_id m_plugin_id module_row].
  now rewrite !String.eqb_refl.
Qed.

Lemma module_rows_removed (u now : string) (l : list ModuleData) :
  filter (fun x => negb (module_of u (plugin_id_of u) x))
         (map (module_row u now) l) = [] /\
  filter (module_of u (plugin_id_of u)) (map (module_row u now) l) =
    map (module_row u now) l.
Proof.
  induction l as [|md l [IH1 IH2]]; cbn [map filter]; [now split|].
  rewrite module_of_row. cbn [negb]. split; [exact IH1|now rewrite IH2].
Qed.


(** X11.  An update for a user without a plugin row fails with "Plugin not
    found for user", whatever the database answers, and changes no table,
    no file and no manager object: nothing is installed. *)
Theorem update_without_installation (self : obj) (u : string) (new : obj)
  (w : World) :
  plugin_rows u (pending (db w)) = [] ->
  exists w',
    update_plugin self u new w =
      (Ok (failure "Plugin not found for user"), w') /\
    but_faults w' = but_faults w.
Proof.
  intros Hrows. unfold update_plugin, try_except.
  destruct (export_total u w) as (er & w1 & E1).
  pose proof (pres_export_user_data (R := same_on but_faults) u w) as F1.
  rewrite E1 in F1. unfold same_on in F1. cbn [snd] in F1.
  destruct (export_has_success u w er w1 E1) as [es Hes].
  assert (Hrows1 : plugin_rows u (pending (db w1)) = []).
  { unfold but_faults in F1. injection F1 as _ Hp _ _ _ _ _.
    now rewrite Hp. }
  assert (Hdel : exists w2,
            delete_plugin u w1 =
              (Ok (failure "Plugin not found for user"), w2) /\
            but_faults w2 = but_faults w1).
  { unfold delete_plugin, try_except, bind.
    destruct (fault_cases (db_faults (db w1))) as [Hq|(m & rest & Hq)].
    - rewrite (check_existing_ok u w1 Hq). unfold existing_result.
      rewrite Hrows1. eexists. split; reflexivity.
    - rewrite (check_existing_fault u w1 m rest Hq).
      eexists. split; reflexivity. }
  destruct Hdel as (w2 & E2 & F2).
  exists w2. split; [|congruence].
  unfold bind at 1. rewrite E1. unfold bind at 1.
  rewrite (getitem_some _ _ _ _ Hes). unfold bind at 1. rewrite E2.
  reflexivity.
Qed.

End InstallUninstall.


Lemma update_without_installation_witness :
  exists w',
    update_plugin (J := AsciiJson.codec) 0 "u2" 1 installed_world =
      (Ok (failure "Plugin not found for user"), w') /\
    but_faults w' = but_faults installed_world.
Proof.
  apply (update_without_installation (J := AsciiJson.codec) 0 "u2" 1
           installed_world).
  vm_compute. reflexivity.
Defined.

(** ** The transaction of an install *)

Section InstallTransaction.
Context {J : JsonCodec}.

Lemma install_transaction_committed (self : obj) (u : string) (shared : Path)
  (cr : dict) (w w' : World) (d : dict) :
  install_transaction self u shared cr w = (Ok d, w') ->
  succeeded d = true ->
  committed (db w') = pending (db w').
Proof.
  intros H Hs. unfold install_transaction in H.
  apply try_inv in H as [H|(e & w1 & _ & H)].
  2:{ apply bind_inv in H as ([] & w2 & _ & H).
      apply ret_inv in H as [-> _]. discriminate. }
  apply bind_inv in H as (r & w1 & Hr & H).
  destruct (truthy (dict_get_default r "success" PNone)) eqn:Tr.
  2:{ apply bind_inv in H as ([] & w2 & _ & H).
      apply ret_inv in H as [-> _]. unfold succeeded in Hs. congruence. }
  apply bind_inv in H as (vc & w2 & Hv & H).
  apply bind_inv in H as (vex & w2' & Hg & H).
  apply getitem_inv in Hg as [_ ->].
  destruct (negb (truthy vex)).
  { apply ret_inv in H as [-> _]. discriminate. }
  cbv zeta in H. apply bind_inv in H as ([] & w3 & Hcm & H).
  apply commit_inv in Hcm as ->. apply ret_inv in H as [_ ->]. reflexivity.
Qed.

Lemma install_plugin_committed (self : obj) (u : string) (w w' : World)
  (d : dict) :
  install_plugin self u w = (Ok d, w') ->
  succeeded d = true ->
  committed (db w') = pending (db w').
Proof.
  intros H Hs. unfold install_plugin in H.
  apply try_inv in H as [H|(e & w1 & _ & H)].
  2:{ apply bind_inv in H as ([] & w2 & _ & H).
      apply ret_inv in H as [-> _]. discriminate. }
  apply bind_inv in H as (ec & w1 & Hc & H).
  apply bind_inv in H as (ex & w1' & Hg & H).
  apply getitem_inv in Hg as [_ ->].
  destruct (truthy ex).
  { apply bind_inv in H as (pid & w2 & _ & H).
    apply ret_inv in H as [-> _]. discriminate. }
  unfold install_after_check in H.
  apply bind_inv in H as (w0 & w0' & Hw & H).
  unfold get_world in Hw. injection Hw as <- <-.
  apply bind_inv in H as ([] & w2 & Hm & H).
  apply bind_inv in H as (cr & w3 & Hcp & H).
  apply bind_inv in H as (cs & w3' & Hg & H).
  apply getitem_inv in Hg as [Hcs ->].
  destruct (truthy cs) eqn:Tcs; cbn [negb] in H.
  2:{ apply ret_inv in H as [-> _].
      rewrite (not_truthy_not_succeeded _ _ Hcs Tcs) in Hs. discriminate. }
  eapply install_transaction_committed; eauto.
Qed.

(** X12.  [install_plugin] never raises and always answers with a "success"
    entry.  It commits only with a success: a failed install leaves the
    committed store as it was, and after a successful one the committed
    store is what the session sees. *)
Theorem install_commits_only_on_success (self : obj) (u : string)
  (w : World) :
  exists d w',
    install_plugin self u w = (Ok d, w') /\
    has_success d /\
    (succeeded d = false -> committed (db w') = committed (db w)) /\
    (succeeded d = true -> committed (db w') = pending (db w')).
Proof.
  assert (T : total (install_plugin self u)).
  { apply total_try. intros e. apply total_bind; [apply total_rollback|].
    intros _. apply total_ret. }
  destruct (T w) as (d & w' & E). exists d, w'.
  split; [exact E|]. split; [exact (install_plugin_has_success self u w d w' E)|].
  split.
  - intros Hf. pose proof (guarded_install_plugin self u w) as G.
    rewrite E in G. destruct G as [G|G]; [congruence|exact G].
  - intros Hs. exact (install_plugin_committed self u w w' d E Hs).
Qed.


End InstallTransaction.

(** A database that refuses the nineteenth statement of an install: the
    verification query. *)
Definition unverified_world : World :=
  with_db_faults fresh_world (repeat None 18 ++ [Some "connection lost"]).

(** The world in which the inner transaction of that install starts: after
    the existence check and the copy. *)
Definition unverified_transaction_world : World :=
  Eval vm_compute in
    exec (bind (_check_existing_plugin "u1")
               (fun _ =>
                  bind (mkdir_p ["plugins"; "shared"; "BrainDriveSettings";
                                 "v1.0.3"])
                       (fun _ =>
                          _copy_plugin_files_impl "u1"
                            ["plugins"; "shared"; "BrainDriveSettings";
                             "v1.0.3"] false)))
         unverified_world.


(** The install of [u1] reports a failure and leaves its rows in the open
    transaction; the install of [u2] that follows commits them. *)
Example unverified_install_is_committed_later :
  let w1 := exec (install_plugin (J := AsciiJson.codec) 0 "u1")
                 unverified_world in
  let w2 := exec (install_plugin (J := AsciiJson.codec) 0 "u2") w1 in
  eval (install_plugin (J := AsciiJson.codec) 0 "u1") unverified_world =
    Ok (failure "Installation verification failed") /\
  map p_id (plugin (pending (db w1))) = ["u1_BrainDriveSettings"] /\
  plugin (committed (db w1)) = [] /\
  map p_id (plugin (committed (db w2))) =
    ["u1_BrainDriveSettings"; "u2_BrainDriveSettings"].
Proof. cbv zeta. repeat split; vm_compute; reflexivity. Qed.

(** ** What the export reads *)

Section ExportProperties.
Context {J : JsonCodec}.

(** A cell that is not empty and that [json.loads] refuses. *)
Definition undecodable (cell : option string) : bool :=
  truthy (opt_val cell) &&
  match json_loads (sql_text (opt_val cell)) with
  | Some _ => false
  | None => true
  end.

Definition row_undecodable (row : ModuleConfig) : bool :=
  let '(_, pr, cf, ms, ly) := row in
  existsb undecodable [pr; cf; ms; ly].

Lemma decode_cell_undecodable (cell : option string) (dflt : pyval) :
  undecodable cell = true -> exists e, decode_cell cell dflt = Raise e.
Proof.
  unfold undecodable, decode_cell. destruct (truthy _); [|discriminate].
  destruct (json_loads _); [discriminate|]. eauto.
Qed.

Lemma decode_cell_decodable (cell : option string) (dflt : pyval) :
  undecodable cell = false -> exists v, decode_cell cell dflt = Ok v.
Proof.
  unfold undecodable, decode_cell. destruct (truthy _); [|eauto].
  destruct (json_loads _); [eauto|discriminate].
Qed.

Lemma decode_module_config_undecodable (row : ModuleConfig) :
  row_undecodable row = true -> exists e, decode_module_config row = Raise e.
Proof.
  destruct row as [[[[n pr] cf] ms] ly]. unfold row_undecodable.
  cbn [existsb]. rewrite orb_false_r. unfold decode_module_config, rbind.
  destruct (undecodable pr) eqn:E1.
  { destruct (decode_cell_undecodable pr (PDict []) E1) as [e ->]. eauto. }
  destruct (decode_cell_decodable pr (PDict []) E1) as [v1 ->].
  destruct (undecodable cf) eqn:E2.
  { destruct (decode_cell_undecodable cf (PDict []) E2) as [e ->]. eauto. }
  destruct (decode_cell_decodable cf (PDict []) E2) as [v2 ->].
  destruct (undecodable ms) eqn:E3.
  { destruct (decode_cell_undecodable ms (PDict []) E3) as [e ->]. eauto. }
  destruct (decode_cell_decodable ms (PDict []) E3) as [v3 ->].
  cbn [orb]. intros E4.
  destruct (decode_cell_undecodable ly (PDict []) E4) as [e ->]. eauto.
Qed.

Lemma decode_plugin_config_undecodable
  (row : option string * option string * option string) :
  (let '(cf, ms, deps) := row in existsb undecodable [cf; ms; deps]) = true ->
  exists e, decode_plugin_config row = Raise e.
Proof.
  destruct row as [[cf ms] deps]. cbn [existsb]. rewrite orb_false_r.
  unfold decode_plugin_config, rbind.
  destruct (undecodable cf) eqn:E1.
  { destruct (decode_cell_undecodable cf (PDict []) E1) as [e ->]. eauto. }
  destruct (decode_cell_decodable cf (PDict []) E1) as [v1 ->].
  destruct (undecodable ms) eqn:E2.
  { destruct (decode_cell_undecodable ms (PDict []) E2) as [e ->]. eauto. }
  destruct (decode_cell_decodable ms (PDict []) E2) as [v2 ->].
  cbn [orb]. intros E3.
  destruct (decode_cell_undecodable deps (PList []) E3) as [e ->]. eauto.
Qed.

Lemma fold_skips_undecodable (rows : list ModuleConfig) (acc : dict) :
  fold_left add_module_config rows acc =
  fold_left add_module_config
    (filter (fun row => negb (row_undecodable row)) rows) acc.
Proof.
  revert acc. induction rows as [|row rows IH]; intros acc; cbn [fold_left filter];
    [reflexivity|].
  destruct (row_undecodable row) eqn:E; cbn [negb fold_left].
  - destruct (decode_module_config_undecodable row E) as [e He].
    unfold add_module_config at 2. rewrite He. apply IH.
  - apply IH.
Qed.


Lemma sql_like_app (u p s : string) :
  sql_like p s = true -> sql_like (u ++ p) (u ++ s) = true.
Proof.
  intros H. induction u as [|c u IH]; [exact H|].
  cbn [append sql_like]. destruct (Ascii.eqb c "%"%char).
  - match goal with |- _ || ?F (u ++ s) = true => set (any := F) end.
    assert (Hany : forall x, sql_like (u ++ p) x = true -> any x = true).
    { intros x Hx. subst any. destruct x; cbn; now rewrite Hx. }
    now rewrite (Hany _ IH), orb_true_r.
  - now rewrite Ascii.eqb_refl, orb_true_r, IH.
Qed.

Lemma like_separator (u slug : string) (c : ascii) :
  sql_like (u ++ "_" ++ slug) (u ++ String c slug) = true.
Proof.
  apply sql_like_app. cbn [append sql_like].
  replace (Ascii.eqb "_" "%") with false by reflexivity.
  replace (Ascii.eqb "_" "_") with true by reflexivity.
  cbn [orb andb]. apply sql_like_refl.
Qed.

Lemma eqb_separator (u slug : string) (c : ascii) :
  c <> "_"%char -> String.eqb (u ++ String c slug) (u ++ "_" ++ slug) = false.
Proof.
  intros Hc. rewrite eqb_app_prefix. cbn [append String.eqb].
  destruct (Ascii.eqb_spec c "_"); [contradiction|reflexivity].
Qed.

(** X15.  The module query of the export filters with [LIKE], so the [_]
    between the user id and the slug in its pattern stands for any one
    character: a module row of the user whose [plugin_id] is the user id,
    any character and the slug is exported, while the [DELETE] of an
    uninstall, which compares with [=], leaves it unless that character is
    the underscore. *)
Theorem export_pattern_is_a_wildcard (u : string) (c : ascii) (m : ModuleRow) :
  m_user_id m = u ->
  m_plugin_id m = u ++ String c (pd_plugin_slug plugin_data) ->
  module_like u (plugin_id_of u) m = true /\
  (c <> "_"%char -> module_of u (plugin_id_of u) m = false).
Proof.
  intros Hu Hp. unfold module_like, module_of, plugin_id_of.
  rewrite Hu, Hp, String.eqb_refl. cbn [andb].
  generalize (pd_plugin_slug plugin_data). intros slug. split.
  - apply like_separator.
  - intros Hc. now apply eqb_separator.
Qed.

End ExportProperties.

(** [u1]'s installation with a plugin cell and the props of one module that
    are not JSON. *)
Definition corrupted_world : World :=
  let t := pending (db installed_world) in
  with_pending installed_world
    {| plugin := map (set_plugin_config (Some "{oops") (Some "{}") (Some "[]"))
                     (plugin t);
       module := map (fun m => if String.eqb (m_name m) "ComponentTheme"
                               then set_module_config (Some "nope")
                                      (m_config_fields m) (m_messages m)
                                      (m_layout m) m
                               else m) (module t);
       settings_definitions := settings_definitions t;
       settings_instances := settings_instances t |}.


(** A module row of [u1] under the plugin id [u1-BrainDriveSettings]. *)
Definition stray_module : ModuleRow :=
  {| m_id := "u1_Stray"; m_plugin_id := "u1-BrainDriveSettings";
     m_name := "Stray"; m_display_name := "Stray"; m_description := EmptyString;
     m_icon := EmptyString; m_category := EmptyString; m_enabled := true; m_priority := 1;
     m_props := None; m_config_fields := None; m_messages := None;
     m_required_services := None; m_dependencies := None; m_layout := None;
     m_tags := None; m_created_at := EmptyString; m_updated_at := EmptyString;
     m_user_id := "u1" |}.

Lemma export_pattern_is_a_wildcard_witness :
  module_like "u1" (plugin_id_of "u1") stray_module = true /\
  module_of "u1" (plugin_id_of "u1") stray_module = false.
Proof.
  destruct (export_pattern_is_a_wildcard "u1" "-"%char stray_module
              eq_refl eq_refl) as [H1 H2].
  split; [exact H1|]. apply H2. discriminate.
Defined.

(** ** Validation and health together *)

Section ValidHealthy.
Context {J : JsonCodec}.

(** What a passed validation found. *)
Lemma validate_valid_inv (f : FS) (u : string) (d : Path) :
  _validate_installation_impl f u d = [("valid", PBool true)] ->
  exists c v sz,
    fs_lookup f (manifest_of d) = Some (File c) /\
    json_loads c = Some v /\
    py_in "name" v = Ok true /\ py_in "version" v = Ok true /\
    fs_exists f (bundle_of d) = true /\
    stat_size f (bundle_of d) = Ok sz /\ sz <> 0%Z.
Proof.
  intros H.
  destruct (fs_exists f (manifest_of d)) eqn:Em.
  2:{ rewrite validate_missing in H by now left. discriminate. }
  destruct (fs_exists f (bundle_of d)) eqn:Eb.
  2:{ rewrite validate_missing in H by now right. discriminate. }
  unfold fs_exists in Em.
  destruct (fs_lookup f (manifest_of d)) as [[c|sz]|] eqn:El; [| |discriminate].
  - rewrite (validate_after_files f u d c El Eb) in H.
    destruct (json_loads c) as [v|] eqn:Ev; [|discriminate].
    cbn [first_missing_field rbind] in H.
    destruct (py_in "name" v) as [[|]|e1] eqn:E1; cbn [rbind] in H;
      try discriminate.
    destruct (py_in "version" v) as [[|]|e2] eqn:E2; cbn [rbind] in H;
      try discriminate.
    destruct (stat_size f (bundle_of d)) as [sz|e3] eqn:E3; [|discriminate].
    destruct (Z.eqb_spec sz 0); [discriminate|].
    exists c, v, sz. now repeat split.
  - exfalso. unfold _validate_installation_impl in H. cbv zeta in H.
    rewrite (validate_present f u d) in H
      by (try exact Eb; unfold fs_exists; now rewrite El).
    cbn [truthy PStrs map] in H. rewrite manifest_path in H.
    unfold json_load, read_text in H. rewrite El in H.
    cbn in H. discriminate.
Qed.

(** X16.  An installation that passes [_validate_installation_impl] and
    whose [src] is not a regular file is reported healthy by
    [_get_plugin_health_impl], with [bundle_exists] and
    [package_json_valid] true and the bundle's non-zero size. *)
Theorem valid_installation_is_healthy (f : FS) (u : string) (d : Path) :
  _validate_installation_impl f u d = [("valid", PBool true)] ->
  is_file f (assets_of d) = false ->
  exists sz assets,
    sz <> 0%Z /\
    _get_plugin_health_impl f u d =
      [("healthy", PBool true);
       ("details", PDict [("bundle_exists", PBool true);
                          ("bundle_size", PInt sz);
                          ("package_json_valid", PBool true);
                          ("assets_present", PBool assets)])].
Proof.
  intros Hv Ha.
  destruct (validate_valid_inv f u d Hv)
    as (c & v & sz & Hm & Hl & _ & _ & Hb & Hsz & Hne).
  exists sz. unfold _get_plugin_health_impl, health_inspect. cbv zeta.
  rewrite bundle_path_nested, manifest_path, assets_path, Hb, Hsz.
  cbn [rbind]. rewrite (fs_exists_lookup _ _ _ Hm).
  unfold json_load, read_text. rewrite Hm. cbn [rbind]. rewrite Hl.
  cbn [rbind rcatch dict_set String.eqb Ascii.eqb Bool.eqb].
  unfold fs_exists, iterdir. unfold is_file in Ha.
  destruct (fs_lookup f (assets_of d)) as [[ca|sa]|]; [discriminate| |].
  - cbn [rbind]. destruct (truthy _); eexists; (split; [exact Hne|reflexivity]).
  - eexists. split; [exact Hne|reflexivity].
Qed.

End ValidHealthy.

Lemma valid_installation_is_healthy_witness :
  exists sz assets,
    sz <> 0%Z /\
    _get_plugin_health_impl (J := AsciiJson.codec) checkout "u1" ["repo"] =
      [("healthy", PBool true);
       ("details", PDict [("bundle_exists", PBool true);
                          ("bundle_size", PInt sz);
                          ("package_json_valid", PBool true);
                          ("assets_present", PBool assets)])].
Proof.
  apply (valid_installation_is_healthy (J := AsciiJson.codec) checkout "u1"
           ["repo"]).
  - vm_compute. reflexivity.
  - reflexivity.
Defined.

(** ** What the import writes *)

(** The tables with the JSON cells that the import writes blanked. *)
Definition skeleton (t : Tables)
  : list PluginRow * list ModuleRow * list DefRow * list InstRow :=
  (map (set_plugin_config None None None) (plugin t),
   map (set_module_config None None None None) (module t),
   settings_definitions t, settings_instances t).

#[export] Instance skeleton_import : ImportStmts (keeps skeleton).
Proof.
  split; unfold keeps, skeleton, update_plugin_config, update_module_config;
    intros; match goal with H : Ok _ = Ok _ |- _ => inversion H; subst end;
    cbn [plugin module settings_definitions settings_instances];
    rewrite map_map; do 3 f_equal; apply map_ext; intros y.
  - now destruct (plugin_with_id _ _ y).
  - now destruct (module_with_id _ _ y).
Qed.

Section ImportWrites.
Context {J : JsonCodec}.

(** X17.  [_import_user_data] never raises, whatever it is given and
    whatever the database answers.  It inserts and deletes no row and
    writes no column but the JSON cells [config_fields], [messages],
    [dependencies] of plugin rows and [props], [config_fields],
    [messages], [layout] of module rows; it commits nothing and touches
    neither the files nor the manager objects. *)
Theorem import_rewrites_json_cells_only (u : string) (user_data : pyval)
  (w : World) :
  let w' := exec (_import_user_data u user_data) w in
  eval (_import_user_data u user_data) w = Ok tt /\
  skeleton (pending (db w')) = skeleton (pending (db w)) /\
  committed (db w') = committed (db w) /\
  fs w' = fs w /\ managers w' = managers w.
Proof.
  cbv zeta. split; [|split; [|split; [|split]]].
  - destruct (import_total u user_data w) as ([] & w' & E).
    unfold eval. now rewrite E.
  - pose proof (pres_import_user_data (R := same_on (view skeleton)) u
                  user_data w) as P.
    unfold same_on, view in P.
    exact (f_equal (fun x => fst (fst x)) P).
  - exact (pres_import_user_data (R := same_on committed_of) u user_data w).
  - exact (pres_import_user_data (R := same_on fs) u user_data w).
  - exact (pres_import_user_data (R := same_on managers) u user_data w).
Qed.

End ImportWrites.

(** ** The rows of other users *)

(** The rows of [plugin], [module] and [settings_instances] that do not
    belong to [u]. *)
Definition others (u : string) (t : Tables)
  : list PluginRow * list ModuleRow * list InstRow :=
  (filter (fun x => negb (String.eqb (p_user_id x) u)) (plugin t),
   filter (fun x => negb (String.eqb (m_user_id x) u)) (module t),
   filter (fun x => negb (String.eqb (i_user_id x) u)) (settings_instances t)).

(** From a session in which an observation of the tables is the same in the
    transaction and in the committed store, it stays what it is in both. *)
Definition in_sync {X} (proj : Tables -> X) (w w' : World) : Prop :=
  proj (pending (db w)) = proj (committed (db w)) ->
  proj (pending (db w')) = proj (pending (db w)) /\
  proj (committed (db w')) = proj (committed (db w)).

#[export] Instance in_sync_frame {X} (proj : Tables -> X) :
  Frame (in_sync proj).
Proof.
  split; unfold in_sync.
  - intros w H. now split.
  - intros a b c Hab Hbc H. destruct (Hab H) as [H1 H2].
    destruct Hbc as [H3 H4]; [congruence|]. split; congruence.
Qed.

#[export] Instance in_sync_db {X} (proj : Tables -> X) :
  DbFrame (in_sync proj) (keeps proj).
Proof.
  split; [apply tick_of_faults|]; unfold in_sync, keeps.
  - intros w fl H. now split.
  - intros w t Ht H. cbn. now split.
Qed.

#[export] Instance in_sync_commit {X} (proj : Tables -> X) :
  CommitFrame (in_sync proj).
Proof.
  intros w H. unfold commit, bind, db_tick.
  destruct (db_faults (db w)) as [|[m|] fl]; cbn; split; congruence.
Qed.

#[export] Instance in_sync_rollback {X} (proj : Tables -> X) :
  RollbackFrame (in_sync proj).
Proof. intros w H. cbn. split; congruence. Qed.

#[export] Instance in_sync_io {X} (proj : Tables -> X) :
  IoFrame (in_sync proj).
Proof. intros w f fl H. now split. Qed.

#[export] Instance in_sync_obj {X} (proj : Tables -> X) :
  ObjFrame (in_sync proj).
Proof. split; intros; intros H; now split. Qed.

Lemma filter_snoc_out {A} (p : A -> bool) (l : list A) (x : A) :
  p x = false -> filter p (l ++ [x]) = filter p l.
Proof. intros H. rewrite filter_app. cbn. rewrite H. apply app_nil_r. Qed.

Lemma filter_filter_out {A} (p q : A -> bool) (l : list A) :
  (forall x, q x = false -> p x = false) ->
  filter p (filter q l) = filter p l.
Proof.
  intros H. induction l as [|x l IH]; cbn; [reflexivity|].
  destruct (q x) eqn:Eq; cbn; [now rewrite IH|].
  now rewrite (H x Eq).
Qed.

Lemma filter_map_out {A} (p : A -> bool) (f : A -> A) (l : list A) :
  (forall x, p (f x) = p x) -> (forall x, p x = true -> f x = x) ->
  filter p (map f l) = filter p l.
Proof.
  intros Hp Hf. induction l as [|x l IH]; cbn; [reflexivity|].
  rewrite Hp. destruct (p x) eqn:E; [|exact IH].
  now rewrite (Hf x E), IH.
Qed.

#[export] Instance others_defs (u : string) : DefStmts (keeps (others u)).
Proof.
  intros dd now t a t' _. unfold insert_definition, keeps.
  destruct (existsb _ _); [discriminate|]. intros H. now inversion H.
Qed.

#[export] Instance others_user {J : JsonCodec} (u : string) :
  UserStmts u (keeps (others u)).
Proof.
  split; unfold keeps, others.
  - intros id now d t a t' _. unfold insert_instance.
    destruct (existsb _ _); [discriminate|]. intros H. inversion H; subst.
    cbn [plugin module settings_instances]. f_equal.
    apply filter_snoc_out. cbn. now rewrite String.eqb_refl.
  - intros now t a t'. unfold insert_plugin.
    destruct (existsb _ _); [discriminate|]. intros H. inversion H; subst.
    cbn [plugin module settings_instances]. do 2 f_equal.
    apply filter_snoc_out. cbn. now rewrite String.eqb_refl.
  - intros now md t a t' _. unfold insert_module.
    destruct (existsb _ _); [discriminate|]. intros H. inversion H; subst.
    cbn [plugin module settings_instances]. f_equal. f_equal.
    apply filter_snoc_out. cbn. now rewrite String.eqb_refl.
  - intros pid t a t' H. unfold delete_modules in H. inversion H; subst.
    cbn [plugin module settings_instances]. f_equal. f_equal.
    apply filter_filter_out. intros x Hx. apply negb_false_iff in Hx.
    unfold module_of in Hx. apply andb_prop in Hx as [Hx _].
    now rewrite Hx.
  - intros pid t a t' H. unfold delete_plugin_row in H. inversion H; subst.
    cbn [plugin module settings_instances]. do 2 f_equal.
    apply filter_filter_out. intros x Hx. apply negb_false_iff in Hx.
    unfold plugin_with_id in Hx. apply andb_prop in Hx as [Hx _].
    now rewrite Hx.
  - intros pid a b c t x t' H. unfold update_plugin_config in H.
    inversion H; subst. cbn [plugin module settings_instances]. do 2 f_equal.
    apply filter_map_out.
    + intros y. now destruct (plugin_with_id u pid y).
    + intros y Hy. unfold plugin_with_id.
      apply negb_true_iff in Hy. now rewrite Hy.
  - intros mid a b c d t x t' H. unfold update_module_config in H.
    inversion H; subst. cbn [plugin module settings_instances]. f_equal.
    f_equal. apply filter_map_out.
    + intros y. now destruct (module_with_id u mid y).
    + intros y Hy. unfold module_with_id.
      apply negb_true_iff in Hy. now rewrite Hy.
Qed.

(** The user a verb acts for. *)
Definition verb_user (v : verb) : string :=
  match v with
  | Install _ u | Uninstall u | Update _ u _ | Status u => u
  end.

Section OtherUsers.
Context {J : JsonCodec}.

Lemma pres_run_verb_others (v : verb) :
  pres (in_sync (others (verb_user v))) (run_verb v).
Proof.
  destruct v as [self u|u|self u new|u]; cbn [run_verb verb_user].
  - apply (user_install_plugin u (US := others_user u)).
  - apply (user_delete_plugin u (US := others_user u)).
  - apply (user_update_plugin u (US := others_user u)).
  - apply (pres_get_plugin_status (St := keeps (others u))).
Qed.

(** X18.  The verbs that act for a user leave the rows of every other user
    alone: over any sequence of installs, uninstalls, updates and status
    queries for [u], under any answers of the database and the filesystem,
    the rows of [plugin], [module] and [settings_instances] whose
    [user_id] is not [u] stay exactly what they were, in the transaction
    and in the committed store (the session having started with these rows
    in sync). *)
Theorem other_users_rows_are_untouched (u : string) (verbs : list verb)
  (w : World) :
  Forall (fun v => verb_user v = u) verbs ->
  others u (pending (db w)) = others u (committed (db w)) ->
  others u (pending (db (run_verbs verbs w))) = others u (pending (db w)) /\
  others u (committed (db (run_verbs verbs w))) = others u (committed (db w)).
Proof.
  intros Hv. revert w.
  assert (Hall : forall w, in_sync (others u) w (run_verbs verbs w)).
  { induction Hv as [|v l Hu _ IH]; intros w; cbn [run_verbs].
    - apply frame_refl.
    - eapply frame_trans; [|apply IH]. rewrite <- Hu.
      apply (pres_run_verb_others v w). }
  intros w Hs. exact (Hall w Hs).
Qed.

End OtherUsers.

(** [u1] and [u2] are installed; [u2] updates, uninstalls and installs
    again: the rows of [u1] are those of its install. *)
Lemma other_users_rows_are_untouched_witness :
  let w := exec (install_plugin (J := AsciiJson.codec) 0 "u2") installed_world in
  let w' := run_verbs (J := AsciiJson.codec)
              [Update 0 "u2" 1; Uninstall "u2"; Status "u2"; Install 2 "u2"] w in
  others "u2" (committed (db w')) = others "u2" (committed (db w)) /\
  others "u2" (committed (db w')) =
    (plugin (committed (db installed_world)),
     module (committed (db installed_world)),
     settings_instances (committed (db installed_world))).
Proof.
  cbv zeta.
  edestruct (other_users_rows_are_untouched (J := AsciiJson.codec) "u2"
               [Update 0 "u2" 1; Uninstall "u2"; Status "u2"; Install 2 "u2"]
               (exec (install_plugin (J := AsciiJson.codec) 0 "u2")
                     installed_world)) as [_ Hc].
  - repeat constructor.
  - vm_compute. reflexivity.
  - split; [exact Hc|]. rewrite Hc. vm_compute. reflexivity.
Defined.

(** ** An update whose export fails *)

#[export] Instance clock_db : DbFrame (same_on clock) any_change.
Proof. split; [apply tick_of_faults|]; intros; reflexivity. Qed.
#[export] Instance clock_commit : CommitFrame (same_on clock).
Proof.
  intros w. unfold commit, bind, db_tick.
  destruct (db_faults (db w)) as [|[m|] fl]; reflexivity.
Qed.
#[export] Instance clock_rollback : RollbackFrame (same_on clock).
Proof. intros w. reflexivity. Qed.

Section FailedExport.
Context {J : JsonCodec}.

Lemma export_fault (u : string) (w : World) (msg : string)
  (rest : list (option string)) :
  db_faults (db w) = Some msg :: rest ->
  _export_user_data u w = (Ok (failure msg), with_db_faults w rest).
Proof.
  intros H. unfold _export_user_data, try_except, query.
  unfold bind at 1. unfold bind at 1. now rewrite (db_tick_fault w msg rest H).
Qed.


End FailedExport.

(** [u1]'s customised installation, on a database that refuses the next
    statement. *)
Definition export_fault_world : World :=
  with_db_faults customised_world [Some "lock timeout"].


(** ** When an install succeeds *)

(** The [k]-th identifier that [uuid4] will hand out. *)
Definition supply_id (w : World) (k : nat) : string :=
  remove_dashes (uuid_supply w (uuid_next w + k)).

(** The next [n] identifiers are new to [settings_instances] and pairwise
    distinct. *)
Definition fresh_for (n : nat) (w : World) : Prop :=
  (forall k, k < n ->
     ~ In (supply_id w k)
          (map i_id (settings_instances (pending (db w))))) /\
  (forall j k, j < k -> k < n -> supply_id w j <> supply_id w k).

Lemma fresh_for_le (n m : nat) (w : World) :
  m <= n -> fresh_for n w -> fresh_for m w.
Proof.
  intros Hle [H1 H2]. split.
  - intros k Hk. apply H1. lia.
  - intros j k Hj Hk. apply H2; lia.
Qed.

Lemma existsb_not_in (id : string) (l : list InstRow) :
  ~ In id (map i_id l) ->
  existsb (fun x => String.eqb (i_id x) id) l = false.
Proof.
  intros H. destruct (existsb _ l) eqn:E; [|reflexivity].
  exfalso. apply H. apply existsb_exists in E as (x & Hx & Ex).
  apply String.eqb_eq in Ex. subst id. now apply in_map.
Qed.

(** What the statements of an install leave alone. *)
Definition beside_tables (w : World) :=
  (committed (db w), db_faults (db w), fs w, io_faults w, managers w,
   clock w).

Section InstallSucceeds.
Context {J : JsonCodec}.

Lemma instance_round_ok (u now : string) (acc : list string)
  (d : InstanceData) (w : World) (n : nat) :
  db_faults (db w) = [] ->
  List.length (matching u d (settings_instances (pending (db w)))) <= 1 ->
  fresh_for (S n) w ->
  exists acc' w',
    bind (query (select_instance_id (id_definition_id d) u (id_scope d)))
         (fun existing =>
            if negb (truthy (opt_val existing)) then
              bind fresh_uuid (fun instance_id =>
                bind (statement (insert_instance
                                   (instance_row instance_id u now d)))
                     (fun _ => ret (acc ++ [id_name d])%list))
            else ret acc) w = (Ok acc', w') /\
    fresh_for n w' /\
    (forall d', id_definition_id d' <> id_definition_id d ->
       matching u d' (settings_instances (pending (db w'))) =
       matching u d' (settings_instances (pending (db w)))) /\
    but_instances (pending (db w')) = but_instances (pending (db w)) /\
    beside_tables w' = beside_tables w.
Proof.
  intros Hf Hone Hfresh. unfold bind at 1. rewrite (query_nil _ w Hf).
  unfold select_instance_id. fold (matching u d (settings_instances (pending (db w)))).
  assert (Hskip : exists acc' w',
            ret acc w = (Ok acc', w') /\ fresh_for n w' /\
            (forall d', id_definition_id d' <> id_definition_id d ->
               matching u d' (settings_instances (pending (db w'))) =
               matching u d' (settings_instances (pending (db w)))) /\
            but_instances (pending (db w')) = but_instances (pending (db w)) /\
            beside_tables w' = beside_tables w).
  { exists acc, w. split; [reflexivity|].
    split; [apply (fresh_for_le (S n)); [lia|exact Hfresh]|]. now repeat split. }
  assert (Hins : exists acc' w',
            bind fresh_uuid (fun instance_id =>
              bind (statement (insert_instance
                                 (instance_row instance_id u now d)))
                   (fun _ => ret (acc ++ [id_name d])%list)) w = (Ok acc', w') /\
            fresh_for n w' /\
            (forall d', id_definition_id d' <> id_definition_id d ->
               matching u d' (settings_instances (pending (db w'))) =
               matching u d' (settings_instances (pending (db w)))) /\
            but_instances (pending (db w')) = but_instances (pending (db w)) /\
            beside_tables w' = beside_tables w).
  { destruct Hfresh as [Hnew Hdist].
    unfold bind at 1, fresh_uuid. unfold bind at 1.
    rewrite statement_nil by exact Hf.
    cbn [with_uuid_next db pending]. unfold insert_instance.
    cbn [i_id instance_row].
    assert (H0 : remove_dashes (uuid_supply w (uuid_next w)) = supply_id w 0)
      by (unfold supply_id; now rewrite Nat.add_0_r).
    rewrite H0, (existsb_not_in _ _ (Hnew 0 ltac:(lia))).
    eexists _, _. split; [reflexivity|].
    assert (Hshift : forall k,
              supply_id (with_pending (with_uuid_next w (S (uuid_next w)))
                           {| plugin := plugin (pending (db w));
                              module := module (pending (db w));
                              settings_definitions :=
                                settings_definitions (pending (db w));
                              settings_instances :=
                                settings_instances (pending (db w)) ++
                                [instance_row (supply_id w 0) u now d] |}) k =
              supply_id w (S k)).
    { intros k. unfold supply_id. cbn. f_equal. f_equal. lia. }
    split; [|split; [|split]].
    - split.
      + intros k Hk. rewrite Hshift. cbn. rewrite map_app, in_app_iff. cbn.
        intros [Hin|[Heq|[]]].
        * apply (Hnew (S k)); [lia|exact Hin].
        * apply (Hdist 0 (S k)); [lia|lia|exact Heq].
      + intros j k Hj Hk. rewrite !Hshift. apply Hdist; lia.
    - intros d' Hne. cbn. now apply matching_other.
    - reflexivity.
    - reflexivity. }
  destruct (matching u d (settings_instances (pending (db w))))
    as [|x [|y rest]]; cbn [map scalar_one_or_none].
  - cbn [opt_val truthy negb]. exact Hins.
  - cbn [opt_val]. destruct (truthy (PStr (i_id x))); cbn [negb];
      [exact Hskip|exact Hins].
  - cbn in Hone. lia.
Qed.

Lemma instance_loop_ok (u now : string) (l : list InstanceData) :
  NoDup (map id_definition_id l) ->
  forall acc w,
    db_faults (db w) = [] ->
    (forall d, In d l ->
       List.length (matching u d (settings_instances (pending (db w)))) <= 1) ->
    fresh_for (List.length l) w ->
    exists acc' w',
      for_each l
        (fun created_instances instance_data =>
           bind (query (select_instance_id (id_definition_id instance_data) u
                                           (id_scope instance_data)))
                (fun existing =>
                   if negb (truthy (opt_val existing)) then
                     bind fresh_uuid (fun instance_id =>
                       bind (statement
                               (insert_instance
                                  (instance_row instance_id u now instance_data)))
                            (fun _ =>
                               ret (created_instances
                                    ++ [id_name instance_data])%list))
                   else ret created_instances)) acc w = (Ok acc', w') /\
      but_instances (pending (db w')) = but_instances (pending (db w)) /\
      beside_tables w' = beside_tables w.
Proof.
  induction l as [|d l IH]; intros Hnd acc w Hf Hone Hfresh.
  - exists acc, w. now repeat split.
  - inversion Hnd as [|? ? Hd Hl]; subst. cbn [for_each List.length] in *.
    destruct (instance_round_ok u now acc d w (List.length l) Hf
                (Hone d (or_introl eq_refl)) Hfresh)
      as (acc1 & w1 & E1 & Hfr1 & Hm1 & Hb1 & Hs1).
    unfold bind at 1. rewrite E1.
    assert (Hf1 : db_faults (db w1) = []).
    { unfold beside_tables in Hs1. injection Hs1 as _ Hq _ _ _ _. congruence. }
    destruct (IH Hl acc1 w1 Hf1) as (acc2 & w2 & E2 & Hb2 & Hs2).
    { intros d' Hd'. rewrite Hm1; [apply Hone; now right|].
      intros E. apply Hd. rewrite <- E. now apply in_map. }
    { exact Hfr1. }
    exists acc2, w2. split; [exact E2|]. split; congruence.
Qed.

Lemma create_settings_instances_ok (u : string) (w : World) :
  db_faults (db w) = [] ->
  (forall d, In d settings_instances_data ->
     List.length (matching u d (settings_instances (pending (db w)))) <= 1) ->
  fresh_for 3 w ->
  exists created w',
    _create_settings_instances u w =
      (Ok [("success", PBool true); ("created_instances", PStrs created)], w') /\
    but_instances (pending (db w')) = but_instances (pending (db w)) /\
    beside_tables w' = beside_tables w.
Proof.
  intros Hf Hone Hfresh.
  destruct (instance_loop_ok u (clock w) settings_instances_data
              settings_instances_data_nodup [] w Hf Hone Hfresh)
    as (created & w' & E & H).
  exists created, w'. split; [|exact H].
  unfold _create_settings_instances, try_except.
  unfold bind at 1, current_time. unfold bind at 1. now rewrite E.
Qed.

Lemma check_existing_nil (u : string) (w : World) :
  db_faults (db w) = [] ->
  _check_existing_plugin u w = (Ok (existing_result u (pending (db w))), w).
Proof.
  intros H. unfold _check_existing_plugin, try_except, bind.
  rewrite (query_nil _ w H). unfold select_plugin_id, existing_result, plugin_rows.
  destruct (filter _ _) as [|r l]; reflexivity.
Qed.

Lemma module_id_fresh (u : string) (a b : ModuleData) (now : string) :
  md_name a <> md_name b ->
  String.eqb (m_id (module_row u now a)) (u ++ "_" ++ md_name b) = false.
Proof.
  intros Hne. cbn [m_id module_row]. rewrite eqb_app_prefix.
  cbn [append String.eqb]. rewrite Ascii.eqb_refl.
  now apply String.eqb_neq.
Qed.

Lemma module_loop_ok (u now : string) (l : list ModuleData) :
  NoDup (map md_name l) ->
  forall acc w,
    db_faults (db w) = [] ->
    (forall md, In md l ->
       existsb (fun x => String.eqb (m_id x) (u ++ "_" ++ md_name md))
               (module (pending (db w))) = false) ->
    exists acc' w',
      for_each l
        (fun modules_created md =>
           bind (statement (insert_module (module_row u now md)))
                (fun _ => ret (modules_created ++ [md_name md])%list))
        acc w = (Ok acc', w') /\
      plugin (pending (db w')) = plugin (pending (db w)) /\
      beside_tables w' = beside_tables w.
Proof.
  induction l as [|md l IH]; intros Hnd acc w Hf Hfree.
  - exists acc, w. now repeat split.
  - inversion Hnd as [|? ? Hmd Hl]; subst. cbn [for_each].
    unfold bind at 1. unfold bind at 1. rewrite (statement_nil _ w Hf).
    unfold insert_module at 1.
    change (m_id (module_row u now md)) with (u ++ "_" ++ md_name md).
    rewrite (Hfree md (or_introl eq_refl)). unfold ret at 1.
    match goal with
    | |- context [for_each l ?b ?a ?w1] =>
        destruct (IH Hl a w1) as (acc2 & w2 & E2 & Hp2 & Hs2)
    end.
    + exact Hf.
    + intros md' Hmd'. cbn [with_pending with_db db pending module].
      rewrite existsb_app, (Hfree md' (or_intror Hmd')). cbn [existsb orb].
      rewrite orb_false_r. apply module_id_fresh.
      intros E. apply Hmd. rewrite E. now apply in_map.
    + exists acc2, w2. split; [exact E2|]. split; [rewrite Hp2|rewrite Hs2];
        reflexivity.
Qed.

(** What no statement changes. *)
Definition beside_db (w : World) :=
  (fs w, io_faults w, managers w, uuid_supply w, uuid_next w).

#[export] Instance beside_db_frame : DbFrame (same_on beside_db) any_change.
Proof. split; [apply tick_of_faults|]; intros; reflexivity. Qed.

Lemma fresh_for_ext (n : nat) (w w' : World) :
  uuid_supply w' = uuid_supply w -> uuid_next w' = uuid_next w ->
  settings_instances (pending (db w')) = settings_instances (pending (db w)) ->
  fresh_for n w -> fresh_for n w'.
Proof.
  unfold fresh_for, supply_id. intros -> -> Hi. now rewrite Hi.
Qed.

(** The store lets [u] install: the database answers, [u] has no plugin
    row, the ids of the rows to insert are free, definition ids are unique,
    [u] has at most one instance of each definition, and the next three
    generated ids are new. *)
Definition installable (u : string) (w : World) : Prop :=
  let t := pending (db w) in
  db_faults (db w) = [] /\
  plugin_rows u t = [] /\
  existsb (fun x => String.eqb (p_id x) (plugin_id_of u)) (plugin t) = false /\
  (forall md, In md module_data ->
     existsb (fun x => String.eqb (m_id x) (u ++ "_" ++ md_name md))
             (module t) = false) /\
  NoDup (defs_of t) /\
  (forall d, In d settings_instances_data ->
     List.length (matching u d (settings_instances t)) <= 1) /\
  fresh_for 3 w.

Lemma module_data_nodup : NoDup (map md_name module_data).
Proof. cbn. repeat constructor; cbn; intuition discriminate. Qed.

Lemma create_database_records_ok (u : string) (w : World) :
  installable u w ->
  exists d w',
    _create_database_records u w = (Ok d, w') /\
    succeeded d = true /\
    dict_get d "plugin_id" = Some (PStr (plugin_id_of u)) /\
    (exists mc, dict_get d "modules_created" = Some mc) /\
    plugin (pending (db w')) =
      (plugin (pending (db w)) ++ [plugin_row u (clock w)])%list /\
    beside_tables w' = beside_tables w.
Proof.
  intros (Hf & Hrows & Hpid & Hmods & Hnd & Hone & Hfresh).
  unfold _create_database_records, try_except.
  unfold bind at 1. rewrite (check_existing_nil u w Hf).
  unfold existing_result. rewrite Hrows.
  unfold bind at 1. cbn [getitem dict_get String.eqb Ascii.eqb Bool.eqb ret
                         truthy].
  destruct (ensure_settings_definitions_ok w Hf Hnd)
    as (w1 & E1 & Hp1 & Hc1 & Hf1 & Hk1).
  pose proof (pres_ensure_settings_definitions
                (R := same_on (view but_definitions)) w) as V1.
  rewrite E1 in V1. unfold same_on, view, but_definitions in V1.
  cbn [snd] in V1. injection V1 as Vp1 Vm1 Vi1 _ _.
  pose proof (pres_ensure_settings_definitions (R := same_on beside_db) w)
    as B1.
  rewrite E1 in B1. unfold same_on, beside_db in B1. cbn [snd] in B1.
  injection B1 as F1 Hio1 M1 Su1 Sn1.
  unfold bind at 1. rewrite E1.
  unfold bind at 1. cbn [getitem dict_get String.eqb Ascii.eqb Bool.eqb ret
                         truthy negb].
  destruct (create_settings_instances_ok u w1 Hf1)
    as (created & w2 & E2 & Hb2 & Hs2).
  { intros d Hd. rewrite Vi1. now apply Hone. }
  { now apply (fresh_for_ext 3 w). }
  unfold but_instances in Hb2. injection Hb2 as Hp2 Hm2 _.
  unfold beside_tables in Hs2. injection Hs2 as Hc2 Hf2 Hfs2 Hio2 Hmg2 Hk2.
  unfold bind at 1. rewrite E2.
  unfold bind at 1. cbn [getitem dict_get String.eqb Ascii.eqb Bool.eqb ret
                         truthy negb].
  cbv zeta. unfold bind at 1, current_time.
  assert (Hf2' : db_faults (db w2) = []) by congruence.
  unfold bind at 1. rewrite (statement_nil _ w2 Hf2').
  unfold insert_plugin at 1.
  change (p_id (plugin_row u (clock w2))) with (plugin_id_of u).
  rewrite Hp2, Vp1, Hpid.
  match goal with
  | |- context [with_pending w2 ?t3] => set (w3 := with_pending w2 t3)
  end.
  destruct (module_loop_ok u (clock w2) module_data module_data_nodup [] w3)
    as (mc & w4 & E4 & Hp4 & Hs4).
  { exact Hf2'. }
  { intros md Hmd. subst w3. cbn [with_pending with_db db pending module].
    rewrite Hm2, Vm1. now apply Hmods. }
  unfold bind at 1. rewrite E4.
  unfold bind at 1. cbn [getitem dict_get String.eqb Ascii.eqb Bool.eqb ret].
  eexists _, w4. split; [reflexivity|].
  split; [reflexivity|]. split; [reflexivity|].
  split; [now eexists|]. split.
  - rewrite Hp4. subst w3. cbn [with_pending with_db db pending plugin].
    congruence.
  - rewrite Hs4. subst w3. unfold beside_tables.
    cbn [with_pending with_db db committed db_faults fs io_faults managers
         clock]. congruence.
Qed.


Lemma perform_user_installation_ok (u : string) (w : World) :
  installable u w ->
  exists d w',
    _perform_user_installation u w = (Ok d, w') /\
    succeeded d = true /\
    plugin (pending (db w')) =
      (plugin (pending (db w)) ++ [plugin_row u (clock w)])%list /\
    beside_tables w' = beside_tables w.
Proof.
  intros Hi.
  destruct (create_database_records_ok u w Hi)
    as (d & w1 & E & Hs & Hpid & [mc Hmc] & Hp & Hb).
  destruct (succeeded_get d Hs) as (v & Hv & Tv).
  unfold _perform_user_installation, try_except.
  unfold bind at 1. rewrite E.
  unfold bind at 1. rewrite (getitem_some _ _ _ _ Hv), Tv. cbn [negb].
  unfold bind at 1. rewrite (getitem_some _ _ _ _ Hpid).
  unfold bind at 1. rewrite (getitem_some _ _ _ _ Hmc).
  eexists _, w1. split; [reflexivity|]. now repeat split.
Qed.

Lemma install_for_user_ok (self : obj) (u : string) (w : World) :
  installable u w ->
  is_active self u w = false ->
  exists d w',
    install_for_user self u w = (Ok d, w') /\
    succeeded d = true /\
    plugin (pending (db w')) =
      (plugin (pending (db w)) ++ [plugin_row u (clock w)])%list /\
    db_faults (db w') = [] /\ clock w' = clock w.
Proof.
  intros Hi Ha.
  destruct (perform_user_installation_ok u w Hi)
    as (d & w1 & E & Hs & Hp & Hb).
  destruct (succeeded_get d Hs) as (v & Hv & Tv).
  unfold beside_tables in Hb. injection Hb as _ Hf1 _ _ _ Hk1.
  destruct Hi as (Hf & _).
  unfold install_for_user. unfold bind at 1, get_world.
  fold (is_active self u w). rewrite Ha.
  unfold bind at 1. rewrite E.
  unfold bind at 1. rewrite (getitem_some _ _ _ _ Hv), Tv.
  unfold bind at 1, add_active_user, ret.
  eexists _, _. split; [reflexivity|]. cbn. split; [exact Hs|].
  split; [exact Hp|]. split; congruence.
Qed.

Lemma commit_nil (w : World) :
  db_faults (db w) = [] ->
  commit w =
    (Ok tt, with_db w {| committed := pending (db w);
                         pending := pending (db w);
                         db_faults := db_faults (db w) |}).
Proof. intros H. unfold commit, bind. now rewrite (db_tick_nil w H). Qed.

Lemma install_transaction_ok (self : obj) (u : string) (shared : Path)
  (cr : dict) (w : World) :
  installable u w ->
  is_active self u w = false ->
  exists d w',
    install_transaction self u shared cr w = (Ok d, w') /\
    succeeded d = true /\
    plugin_rows u (pending (db w')) = [plugin_row u (clock w)] /\
    committed (db w') = pending (db w').
Proof.
  intros Hi Ha.
  destruct (install_for_user_ok self u w Hi Ha)
    as (d & w1 & E & Hs & Hp & Hf1 & Hk1).
  destruct Hi as (_ & Hrows & _).
  assert (Hrows1 : plugin_rows u (pending (db w1)) = [plugin_row u (clock w)]).
  { unfold plugin_rows at 1. rewrite Hp, plugin_rows_app, Hrows.
    cbn [app filter]. unfold plugin_of.
    cbn [p_user_id p_plugin_slug plugin_row]. now rewrite !String.eqb_refl. }
  unfold install_transaction, try_except.
  unfold bind at 1. rewrite E. unfold succeeded in Hs. rewrite Hs.
  unfold bind at 1. rewrite (check_existing_nil u w1 Hf1).
  unfold existing_result. rewrite Hrows1.
  unfold bind at 1. cbn [getitem dict_get String.eqb Ascii.eqb Bool.eqb ret
                         truthy negb].
  cbv zeta. unfold bind at 1. rewrite (commit_nil w1 Hf1).
  eexists _, _. split; [reflexivity|].
  split; [|split; [exact Hrows1|reflexivity]].
  rewrite install_result_succeeded. exact Hs.
Qed.

Lemma installable_ext (u : string) (w w' : World) :
  db w' = db w -> uuid_supply w' = uuid_supply w ->
  uuid_next w' = uuid_next w ->
  installable u w -> installable u w'.
Proof.
  unfold installable, fresh_for, supply_id. cbv zeta.
  intros -> -> ->. tauto.
Qed.

(** What the file operations leave alone. *)
Definition beside_files (w : World) :=
  (db w, managers w, uuid_supply w, uuid_next w, clock w).

#[export] Instance beside_files_io : IoFrame (same_on beside_files).
Proof. intros w f fl. reflexivity. Qed.


End InstallSucceeds.

Lemma fresh_world_installable (u : string) : installable u fresh_world.
Proof.
  unfold installable. cbv zeta.
  split; [reflexivity|]. split; [reflexivity|]. split; [reflexivity|].
  split; [intros md _; reflexivity|]. split; [constructor|].
  split; [intros d _; cbn; lia|]. split.
  - intros k _ [].
  - intros j k Hj Hk.
    destruct k as [|[|[|k]]]; [lia| | |lia];
      destruct j as [|[|j]]; try lia; vm_compute; discriminate.
Qed.


(** ** Settings instances that are not unique *)

(** A round of the loop of [_create_settings_instances] that returns found
    at most one instance, and added at most a row of this definition. *)
Lemma instance_round_single (u now : string) (acc acc' : list string)
  (d : InstanceData) (w w' : World) :
  bind (query (select_instance_id (id_definition_id d) u (id_scope d)))
       (fun existing =>
          if negb (truthy (opt_val existing)) then
            bind fresh_uuid (fun instance_id =>
              bind (statement (insert_instance
                                 (instance_row instance_id u now d)))
                   (fun _ => ret (acc ++ [id_name d])%list))
          else ret acc) w = (Ok acc', w') ->
  List.length (matching u d (settings_instances (pending (db w)))) <= 1 /\
  (settings_instances (pending (db w')) = settings_instances (pending (db w)) \/
   exists id,
     settings_instances (pending (db w')) =
       (settings_instances (pending (db w)) ++ [instance_row id u now d])%list).
Proof.
  intros H. apply bind_inv in H as (existing & w1 & Hq & H).
  apply query_inv in Hq as [Hsel ->]. split.
  - unfold select_instance_id in Hsel. unfold matching.
    destruct (filter _ _) as [|x [|y rest]]; cbn in *; [lia|lia|discriminate].
  - destruct (negb (truthy (opt_val existing))).
    + apply bind_inv in H as (id & w2 & Hu & H).
      unfold fresh_uuid in Hu. inversion Hu; subst id w2. clear Hu.
      apply bind_inv in H as ([] & w3 & Hs & H).
      apply statement_inv in Hs as (t & Hins & ->).
      apply ret_inv in H as [_ ->].
      unfold insert_instance in Hins.
      destruct (existsb _ _); [discriminate|]. inversion Hins; subst t.
      right. eexists. reflexivity.
    + apply ret_inv in H as [_ ->]. now left.
Qed.

Lemma instance_loop_single (u now : string) (l : list InstanceData) :
  NoDup (map id_definition_id l) ->
  forall acc acc' w w',
    for_each l
      (fun created_instances instance_data =>
         bind (query (select_instance_id (id_definition_id instance_data) u
                                         (id_scope instance_data)))
              (fun existing =>
                 if negb (truthy (opt_val existing)) then
                   bind fresh_uuid (fun instance_id =>
                     bind (statement
                             (insert_instance
                                (instance_row instance_id u now instance_data)))
                          (fun _ =>
                             ret (created_instances
                                  ++ [id_name instance_data])%list))
                 else ret created_instances)) acc w = (Ok acc', w') ->
    forall d, In d l ->
      List.length (matching u d (settings_instances (pending (db w)))) <= 1.
Proof.
  induction l as [|d0 l IH]; intros Hnd acc acc' w w' H d Hd; [destruct Hd|].
  inversion Hnd as [|? ? Hd0 Hl]; subst.
  cbn [for_each] in H. apply bind_inv in H as (acc1 & w1 & H1 & H2).
  destruct (instance_round_single u now acc acc1 d0 w w1 H1) as [Hone Hadd].
  destruct Hd as [<-|Hd]; [exact Hone|].
  pose proof (IH Hl acc1 acc' w1 w' H2 d Hd) as Hd1.
  assert (Hne : id_definition_id d0 <> id_definition_id d).
  { intros E. apply Hd0. rewrite E. now apply in_map. }
  destruct Hadd as [E|[id E]]; rewrite E in Hd1; [exact Hd1|].
  now rewrite (matching_other u now id d0 d _ Hne) in Hd1.
Qed.

(** X21.  [_create_settings_instances] relies on each lookup finding one
    row or none: when the user has two settings instances of one of the
    three definitions in its scope, it returns a failure, whatever the
    database answers. *)
Theorem duplicate_instances_fail_the_creation (u : string) (w : World)
  (d : InstanceData) :
  In d settings_instances_data ->
  2 <= List.length (matching u d (settings_instances (pending (db w)))) ->
  exists r w',
    _create_settings_instances u w = (Ok r, w') /\ succeeded r = false.
Proof.
  intros Hd Htwo.
  assert (T : total (_create_settings_instances u))
    by (apply total_try; intros e; apply total_ret).
  destruct (T w) as (r & w' & E). exists r, w'. split; [exact E|].
  destruct (succeeded r) eqn:Hs; [exfalso|reflexivity].
  unfold _create_settings_instances in E.
  apply try_inv in E as [E|(e & w1 & _ & E)].
  2:{ apply ret_inv in E as [-> _]. discriminate. }
  apply bind_inv in E as (now & w1 & Hn & E).
  unfold current_time in Hn. inversion Hn; subst now w1. clear Hn.
  apply bind_inv in E as (created & w2 & Hl & _).
  pose proof (instance_loop_single u (clock w) settings_instances_data
                settings_instances_data_nodup [] created w w2 Hl d Hd).
  lia.
Qed.

(** [u1]'s installation with a second instance of the theme settings. *)
Definition duplicated_world : World :=
  let t := pending (db installed_world) in
  with_pending installed_world
    {| plugin := plugin t; module := module t;
       settings_definitions := settings_definitions t;
       settings_instances :=
         (settings_instances t ++
          [instance_row "twin" "u1" "2025-03-06 12:00:00"
             (hd {| id_definition_id := EmptyString; id_name := EmptyString;
                    id_value := EmptyString; id_scope := EmptyString |}
                 settings_instances_data)])%list |}.

Lemma duplicate_instances_fail_the_creation_witness :
  exists r w',
    _create_settings_instances "u1" duplicated_world = (Ok r, w') /\
    succeeded r = false /\
    r = failure "Multiple rows were found when one or none was required".
Proof.
  edestruct (duplicate_instances_fail_the_creation "u1"
               duplicated_world) as (r & w' & E & Hr).
  - left. reflexivity.
  - vm_compute. lia.
  - exists r, w'. split; [exact E|]. split; [exact Hr|].
    assert (E2 : eval (_create_settings_instances "u1") duplicated_world =
                 Ok (failure
                       "Multiple rows were found when one or none was required"))
      by (vm_compute; reflexivity).
    unfold eval in E2. rewrite E in E2. cbn in E2. now injection E2.
Defined.

(** ** The installation after an update *)

Lemma skeleton_plugin_ids (u : string) (t t' : Tables) :
  skeleton t' = skeleton t ->
  map p_id (plugin_rows u t') = map p_id (plugin_rows u t).
Proof.
  intros H. unfold skeleton in H. injection H as Hp _ _ _.
  assert (E : forall l,
            map p_id (filter (plugin_of u (pd_plugin_slug plugin_data)) l) =
            map p_id (filter (plugin_of u (pd_plugin_slug plugin_data))
                             (map (set_plugin_config None None None) l))).
  { intros l. rewrite filter_map_comm by reflexivity.
    rewrite map_map. reflexivity. }
  unfold plugin_rows. now rewrite (E (plugin t')), (E (plugin t)), Hp.
Qed.

Lemma skeleton_module_names (u pid : string) (t t' : Tables) :
  skeleton t' = skeleton t ->
  map m_name (filter (module_of u pid) (module t')) =
  map m_name (filter (module_of u pid) (module t)).
Proof.
  intros H. unfold skeleton in H. injection H as _ Hm _ _.
  assert (E : forall l,
            map m_name (filter (module_of u pid) l) =
            map m_name (filter (module_of u pid)
                               (map (set_module_config None None None None) l))).
  { intros l. rewrite filter_map_comm by reflexivity.
    rewrite map_map. reflexivity. }
  now rewrite (E (module t')), (E (module t)), Hm.
Qed.

Section AfterUpdate.
Context {J : JsonCodec}.


End AfterUpdate.


(** ** The files of a failed install *)

Definition files_of (w : World) := (fs w, io_faults w).

#[export] Instance files_db : DbFrame (same_on files_of) any_change.
Proof. split; [apply tick_of_faults|]; intros; reflexivity. Qed.
#[export] Instance files_commit : CommitFrame (same_on files_of).
Proof.
  intros w. unfold commit, bind, db_tick.
  destruct (db_faults (db w)) as [|[m|] fl]; reflexivity.
Qed.
#[export] Instance files_rollback : RollbackFrame (same_on files_of).
Proof. intros w. reflexivity. Qed.
#[export] Instance files_obj : ObjFrame (same_on files_of).
Proof. split; intros; reflexivity. Qed.

Section CopiedFiles.
Context {J : JsonCodec}.

(** X23.  The files are outside the transaction.  Once the existence check
    has answered "not installed", the directory is made and the copy has
    succeeded, the filesystem that [install_plugin] leaves is the one the
    copy left, whether the database part then succeeds, fails or is
    rolled back: a failed install keeps the copied files. *)
Theorem failed_install_keeps_copied_files (self : obj) (u : string)
  (w w0 wa wb : World) (ec cr : dict) :
  _check_existing_plugin u w = (Ok ec, w0) ->
  dict_get ec "exists" = Some (PBool false) ->
  mkdir_p (shared_path (managers w0 self)) w0 = (Ok tt, wa) ->
  _copy_plugin_files_impl u (shared_path (managers w0 self)) false wa =
    (Ok cr, wb) ->
  succeeded cr = true ->
  fs (exec (install_plugin self u) w) = fs wb /\
  install_plugin self u w =
    install_transaction self u (shared_path (managers w0 self)) cr wb.
Proof.
  intros Hc Hex Hm Hcp Hs.
  destruct (succeeded_get cr Hs) as (v & Hv & Tv).
  assert (T : total (install_transaction self u
                       (shared_path (managers w0 self)) cr)).
  { apply total_try. intros e. apply total_bind; [apply total_rollback|].
    intros _. apply total_ret. }
  destruct (T wb) as (d & w' & E).
  assert (Hrun : install_plugin self u w = (Ok d, w')).
  { unfold install_plugin, try_except.
    unfold bind at 1. rewrite Hc.
    unfold bind at 1. rewrite (getitem_some _ _ _ _ Hex). cbn [truthy].
    unfold install_after_check. unfold bind at 1, get_world.
    unfold bind at 1. rewrite Hm. unfold bind at 1. rewrite Hcp.
    unfold bind at 1. rewrite (getitem_some _ _ _ _ Hv), Tv. cbn [negb].
    now rewrite E. }
  split; [|congruence].
  unfold exec. rewrite Hrun. cbn [snd].
  pose proof (pres_install_transaction (R := same_on files_of) self u
                (shared_path (managers w0 self)) cr wb) as P.
  rewrite E in P. unfold same_on, files_of in P. cbn [snd] in P.
  now injection P.
Qed.

End CopiedFiles.

(** A database that refuses the fifth statement of an install. *)
Definition failing_install_world : World :=
  with_db_faults fresh_world (repeat None 4 ++ [Some "disk I/O error"]).

(** The install of [u1] fails and commits nothing; the files are in the
    shared directory. *)
Lemma failed_install_keeps_copied_files_witness :
  let w' := exec (install_plugin (J := AsciiJson.codec) 0 "u1")
                 failing_install_world in
  eval (install_plugin (J := AsciiJson.codec) 0 "u1") failing_install_world =
    Ok (failure "disk I/O error") /\
  committed (db w') = empty_tables /\
  pending (db w') = empty_tables /\
  is_file (fs w')
    ["plugins"; "shared"; "BrainDriveSettings"; "v1.0.3"; "dist";
     "remoteEntry.js"] = true.
Proof.
  cbv zeta.
  edestruct (failed_install_keeps_copied_files (J := AsciiJson.codec) 0 "u1"
               failing_install_world) as [Hfs _].
  - apply run_ok. compute_lhs.
  - reflexivity.
  - apply run_ok. compute_lhs.
  - apply run_ok. compute_lhs.
  - reflexivity.
  - split; [vm_compute; reflexivity|]. split; [vm_compute; reflexivity|].
    split; [vm_compute; reflexivity|].
    rewrite Hfs. vm_compute. reflexivity.
Defined.
